(** * another-day: the work-log command line tool

    A shallow embedding of [src/index.js] (and, where a claim needs it, of
    the earliest variant of the same file) together with the properties of
    its entry codec, date-range resolver and duration calculator.

    Conventions of the embedding.
    - A JavaScript value that may be [undefined] is an [option]; [None] is
      [undefined].
    - Instants are integers: milliseconds since the Unix epoch, as moment
      stores them.  A day number is the number of whole days since
      1970-01-01.
    - [os.EOL] is the POSIX line terminator.
    - The [show] action runs in a small monad that threads the console
      output and carries exceptions, so that [try]/[catch] is explicit.
    - moment, moment-range, pad and commander are packages the program
      calls; the part of their behaviour the program relies on is written
      out next to the call that uses it. *)

From Stdlib Require Import ZArith List String Ascii Bool Lia.
From Stdlib Require Import QArith Qround Qminmax.
Import ListNotations.

Local Open Scope string_scope.
Local Open Scope Z_scope.

(** ** JavaScript strings and arrays *)

Module Js.

(** [String.prototype.split] with a one-character separator. *)
Fixpoint split (sep : ascii) (s : string) : list string :=
  match s with
  | EmptyString => [EmptyString]
  | String c rest =>
      if Ascii.eqb c sep then EmptyString :: split sep rest
      else match split sep rest with
           | field :: fields => String c field :: fields
           | [] => [String c EmptyString]
           end
  end.

(** [Array.prototype.join] on an array of strings. *)
Fixpoint join (sep : string) (fields : list string) : string :=
  match fields with
  | [] => EmptyString
  | [field] => field
  | field :: rest => field ++ sep ++ join sep rest
  end.

(** The values the program puts into an array it joins. *)
Inductive value :=
| Undefined
| Bool (b : bool)
| Str (s : string).

(** How [join] renders one element: [undefined] becomes the empty string,
    anything else goes through [ToString]. *)
Definition join_element (v : value) : string :=
  match v with
  | Undefined => ""
  | Bool true => "true"
  | Bool false => "false"
  | Str s => s
  end.

Definition array_join (sep : string) (elements : list value) : string :=
  join sep (map join_element elements).

(** [ToString] of an argument that may be [undefined], as [RegExp.test] and
    string concatenation apply it. *)
Definition to_string (v : option string) : string :=
  match v with
  | Some s => s
  | None => "undefined"
  end.

(** Truthiness of a string that may be [undefined]. *)
Definition truthy (v : option string) : bool :=
  match v with
  | Some EmptyString => false
  | Some _ => true
  | None => false
  end.

(** Presence of a character in a string. *)
Fixpoint contains (c : ascii) (s : string) : bool :=
  match s with
  | EmptyString => false
  | String c' rest => Ascii.eqb c' c || contains c rest
  end.

End Js.

Definition pipe : ascii := "|"%char.
Definition EOL : string := String (ascii_of_nat 10) EmptyString.
Definition EOL_char : ascii := ascii_of_nat 10.

(** ** The Iterator class *)

Record Iterator := mkIterator {
  elements : list string;
  index : nat
}.

(** [new Iterator(elements)] *)
Definition Iterator_new (elts : list string) : Iterator :=
  {| elements := elts; index := 0 |}.

(** What the iteration protocol's [next] returns. *)
Inductive IterResult :=
| Yield (v : string)
| Done.

(** [next]: the element under the cursor and the cursor advanced, or
    [done] and the cursor put back to zero. *)
Definition next (it : Iterator) : IterResult * Iterator :=
  if (index it <? List.length (elements it))%nat
  then (Yield (nth (index it) (elements it) EmptyString),
        {| elements := elements it; index := S (index it) |})
  else (Done, {| elements := elements it; index := 0 |}).

(** [peek]: [this.elements[this.index]], [undefined] out of range. *)
Definition peek (it : Iterator) : option string :=
  nth_error (elements it) (index it).

(** A [for (const entry of entries)] loop that only collects the entries it
    is given.  The loop calls [next] until it answers [done]; [fuel] bounds
    the number of calls. *)
Fixpoint drain (fuel : nat) (it : Iterator) (seen : list string)
  : option (list string * Iterator) :=
  match fuel with
  | O => None
  | S fuel' =>
      match next it with
      | (Done, it') => Some (seen, it')
      | (Yield v, it') => drain fuel' it' (seen ++ [v])
      end
  end.

(** ** Calendar arithmetic of the JavaScript [Date] object

    moment keeps a [Date] and reads and builds calendar fields through it;
    these are the day-number functions of the ECMAScript specification
    (section "Date Objects"), on the proleptic Gregorian calendar. *)

Module Calendar.

Definition msPerDay : Z := 86400000.

(** [DayFromYear(y)]: the day number of the first day of year [y]. *)
Definition DayFromYear (y : Z) : Z :=
  365 * (y - 1970) + (y - 1969) / 4 - (y - 1901) / 100 + (y - 1601) / 400.

(** moment's [isLeapYear]. *)
Definition isLeapYear (y : Z) : bool :=
  ((y mod 4 =? 0) && negb (y mod 100 =? 0)) || (y mod 400 =? 0).

Definition DaysInYear (y : Z) : Z := if isLeapYear y then 366 else 365.

(** moment's [daysInMonth(year, month)], [month] counted from 0. *)
Definition daysInMonth (y month : Z) : Z :=
  if month =? 1 then (if isLeapYear y then 29 else 28)
  else 31 - (month mod 7) mod 2.

(** The day within the year on which month [month] (from 0) begins. *)
Definition monthStart (leap : bool) (month : Z) : Z :=
  let l := if leap then 1 else 0 in
  match month with
  | 0 => 0
  | 1 => 31
  | 2 => 59 + l
  | 3 => 90 + l
  | 4 => 120 + l
  | 5 => 151 + l
  | 6 => 181 + l
  | 7 => 212 + l
  | 8 => 243 + l
  | 9 => 273 + l
  | 10 => 304 + l
  | 11 => 334 + l
  | _ => 365 + l
  end.

(** [MakeDay(year, month, date)] for a month in 0..11: the day number of a
    calendar date. *)
Definition MakeDay (y month date : Z) : Z :=
  DayFromYear y + monthStart (isLeapYear y) month + (date - 1).

(** [YearFromTime]: the largest year whose first day is not after day [n].
    The mean year length gives a year at most one off, which the two
    comparisons put right. *)
Definition YearFromDay (n : Z) : Z :=
  let guess := 1970 + (n * 400) / 146097 in
  if n <? DayFromYear guess then guess - 1
  else if DayFromYear (guess + 1) <=? n then guess + 1
  else guess.

Definition DayWithinYear (n : Z) : Z := n - DayFromYear (YearFromDay n).

(** [MonthFromTime], from 0. *)
Definition MonthFromDay (n : Z) : Z :=
  let d := DayWithinYear n in
  let leap := isLeapYear (YearFromDay n) in
  if d <? monthStart leap 1 then 0
  else if d <? monthStart leap 2 then 1
  else if d <? monthStart leap 3 then 2
  else if d <? monthStart leap 4 then 3
  else if d <? monthStart leap 5 then 4
  else if d <? monthStart leap 6 then 5
  else if d <? monthStart leap 7 then 6
  else if d <? monthStart leap 8 then 7
  else if d <? monthStart leap 9 then 8
  else if d <? monthStart leap 10 then 9
  else if d <? monthStart leap 11 then 10
  else 11.

(** [DateFromTime], from 1. *)
Definition DateFromDay (n : Z) : Z :=
  DayWithinYear n - monthStart (isLeapYear (YearFromDay n)) (MonthFromDay n) + 1.

(** The day number an instant falls on. *)
Definition Day (ms : Z) : Z := ms / msPerDay.

(** The milliseconds of an instant into its day. *)
Definition TimeWithinDay (ms : Z) : Z := ms mod msPerDay.

End Calendar.

(** ** Digits and zero filling *)

Module Text.

Definition is_digit (c : ascii) : bool :=
  let n := nat_of_ascii c in (48 <=? n)%nat && (n <=? 57)%nat.

Definition digit_value (c : ascii) : Z := Z.of_nat (nat_of_ascii c) - 48.

Definition digit_char (d : Z) : ascii := ascii_of_nat (48 + Z.to_nat d).

(** The decimal numeral of a number that is not negative; [fuel] bounds the
    number of digits. *)
Fixpoint numeral (fuel : nat) (n : Z) (acc : string) : string :=
  let acc' := String (digit_char (n mod 10)) acc in
  match fuel with
  | O => acc'
  | S fuel' => if n <? 10 then acc' else numeral fuel' (n / 10) acc'
  end.

(** [String(n)] for an integer. *)
Definition of_Z (n : Z) : string :=
  let digits := numeral (Z.to_nat (Z.log2 (Z.abs n))) (Z.abs n) EmptyString in
  if n <? 0 then String "-"%char digits else digits.

Fixpoint zeros (n : nat) : string :=
  match n with
  | O => EmptyString
  | S n' => String "0"%char (zeros n')
  end.

(** moment's [zeroFill(number, targetLength)], without a forced sign. *)
Definition zeroFill (number : Z) (targetLength : nat) : string :=
  let absNumber := of_Z (Z.abs number) in
  let zerosToFill := (targetLength - String.length absNumber)%nat in
  (if 0 <=? number then EmptyString else "-") ++ zeros zerosToFill ++ absNumber.

(** The value of a two-digit field, when both characters are digits. *)
Definition two_digits (a b : ascii) : option Z :=
  if is_digit a && is_digit b
  then Some (10 * digit_value a + digit_value b)
  else None.

Definition four_digits (a b c d : ascii) : option Z :=
  if is_digit a && is_digit b && is_digit c && is_digit d
  then Some (1000 * digit_value a + 100 * digit_value b
             + 10 * digit_value c + digit_value d)
  else None.

(** The two and the four digits of a number, leading zeros included. *)
Definition two_chars (n : Z) : string :=
  String (digit_char (n / 10)) (String (digit_char (n mod 10)) EmptyString).

Definition four_chars (n : Z) : string :=
  String (digit_char (n / 1000))
    (String (digit_char ((n / 100) mod 10))
       (String (digit_char ((n / 10) mod 10))
          (String (digit_char (n mod 10)) EmptyString))).

Fixpoint spaces (n : nat) : string :=
  match n with
  | O => EmptyString
  | S n' => String " "%char (spaces n')
  end.

End Text.

(** ** moment *)

(** A valid moment: its instant, and the offset from UTC (in minutes) its
    calendar fields are read in.  An invalid moment is [None]. *)
Record Moment := mkMoment {
  valueOf : Z;
  utcOffset : Z
}.

(** The clock and the zone of the host for one run: the current instant,
    which every [moment()] of the run reads; the host's offset from UTC, in
    minutes, at that instant; and the host's reading of a wall-clock time.
    A wall-clock time is given as the milliseconds its calendar fields
    would make in UTC; [local_time] gives the instant the host's zone puts
    it at and the offset in force then, as [new Date(y, m, d, h, ...)] and
    [getTimezoneOffset] do, so a time that a change of the clocks skips or
    repeats is read the way the host reads it. *)
Record Clock := mkClock {
  now : Z;
  localOffset : Z;
  local_time : Z -> Moment
}.

(** The reading of wall-clock times in a zone that keeps one offset. *)
Definition fixed_offset_time (offset : Z) (wall : Z) : Moment :=
  {| valueOf := wall - offset * 60000; utcOffset := offset |}.

(** The host reads the wall-clock time [wall] at the given offset: the time
    is neither skipped by a change of the clocks nor read at another offset
    than this one. *)
Definition reads_at (clock : Clock) (offset wall : Z) : Prop :=
  local_time clock wall = fixed_offset_time offset wall.

Module moment.

Import Calendar Text.

(** [moment()] *)
Definition local (clock : Clock) : Moment :=
  {| valueOf := now clock; utcOffset := localOffset clock |}.

(** [m.utc()] *)
Definition utc (m : Moment) : Moment :=
  {| valueOf := valueOf m; utcOffset := 0 |}.

(** The instant shifted so that its UTC fields are the moment's own. *)
Definition fieldTime (m : Moment) : Z := valueOf m + utcOffset m * 60000.

(** [m.format('YYYY-MM-DD')] *)
Definition format_YYYY_MM_DD (m : Moment) : string :=
  let n := Day (fieldTime m) in
  zeroFill (YearFromDay n) 4 ++ "-" ++ zeroFill (MonthFromDay n + 1) 2
    ++ "-" ++ zeroFill (DateFromDay n) 2.

(** [m.format('HH:mm:ss')] *)
Definition format_HH_mm_ss (m : Moment) : string :=
  let t := TimeWithinDay (fieldTime m) / 1000 in
  zeroFill (t / 3600) 2 ++ ":" ++ zeroFill ((t / 60) mod 60) 2
    ++ ":" ++ zeroFill (t mod 60) 2.

(** The fields of a [YYYY-MM-DD] prefix: year, month from 0, date. *)
Definition date_fields (y1 y2 y3 y4 h1 m1 m2 h2 d1 d2 : ascii)
  : option (Z * Z * Z) :=
  if Ascii.eqb h1 "-" && Ascii.eqb h2 "-" then
    match four_digits y1 y2 y3 y4, two_digits m1 m2, two_digits d1 d2 with
    | Some y, Some m, Some d => Some (y, m - 1, d)
    | _, _, _ => None
    end
  else None.

(** The milliseconds into the day of an [HH:mm:ss] field. *)
Definition time_fields (rest : list ascii) : option Z :=
  match rest with
  | [] => Some 0
  | [sp; H1; H2; c1; M1; M2; c2; S1; S2] =>
      if Ascii.eqb sp " " && Ascii.eqb c1 ":" && Ascii.eqb c2 ":" then
        match two_digits H1 H2, two_digits M1 M2, two_digits S1 S2 with
        | Some h, Some m, Some s =>
            if (h <=? 23) && (m <=? 59) && (s <=? 59)
            then Some (((h * 60 + m) * 60 + s) * 1000)
            else None
        | _, _, _ => None
        end
      else None
  | _ => None
  end.

(** [moment.utc(string)] on the two shapes the program builds: a day key
    [YYYY-MM-DD], and a day key, a space and a time [HH:mm:ss] as the
    [task] and [break] commands write it.  The month must be 1..12 and the
    date must exist in the month, else the moment is invalid.  Any other
    text is given as invalid here; moment's further input formats are not
    part of this development. *)
Definition utc_of_string (s : string) : option Moment :=
  match list_ascii_of_string s with
  | y1 :: y2 :: y3 :: y4 :: h1 :: m1 :: m2 :: h2 :: d1 :: d2 :: rest =>
      match date_fields y1 y2 y3 y4 h1 m1 m2 h2 d1 d2, time_fields rest with
      | Some (y, m, d), Some t =>
          if (0 <=? m) && (m <=? 11) && (1 <=? d) && (d <=? daysInMonth y m)
          then Some {| valueOf := MakeDay y m d * msPerDay + t; utcOffset := 0 |}
          else None
      | _, _ => None
      end
  | _ => None
  end.

(** [moment.utc(arg)] where the argument may be [undefined]: the current
    time then. *)
Definition utc_of_arg (clock : Clock) (arg : option string) : option Moment :=
  match arg with
  | Some s => utc_of_string s
  | None => Some (utc (local clock))
  end.

(** [a.diff(b)] in milliseconds, [NaN] ([None]) when either is invalid. *)
Definition diff (a b : option Moment) : option Z :=
  match a, b with
  | Some a, Some b => Some (valueOf a - valueOf b)
  | _, _ => None
  end.

(** [a.diff(b, 'days')]: whole days, truncated towards zero, after the
    difference between the offsets of the two moments is taken out. *)
Definition diff_days (a b : option Moment) : option Z :=
  match a, b with
  | Some a, Some b =>
      let zoneDelta := (utcOffset b - utcOffset a) * 60000 in
      Some (Z.quot (valueOf a - valueOf b - zoneDelta) msPerDay)
  | _, _ => None
  end.

(** [m.clone().add(n, 'days')] *)
Definition add_days (m : Moment) (n : Z) : Moment :=
  {| valueOf := valueOf m + n * msPerDay; utcOffset := utcOffset m |}.

(** [m.startOf('day')] *)
Definition startOf_day (m : Moment) : Moment :=
  {| valueOf := Day (fieldTime m) * msPerDay - utcOffset m * 60000;
     utcOffset := utcOffset m |}.

(** [m.endOf('day')]: 23:59:59.999 of the moment's day, the day taken as
    the 24 hours from its midnight at the moment's offset, which it is on
    every day but one on which the clocks change. *)
Definition endOf_day (m : Moment) : Moment :=
  {| valueOf := valueOf (startOf_day m) + msPerDay - 1;
     utcOffset := utcOffset m |}.

(** [m.startOf('week')] of a moment in the host's zone, under
    [moment.locale('sv')], whose week begins on Monday: the host's reading
    of midnight of that Monday.  Day 0 of the epoch is a Thursday. *)
Definition startOf_week (clock : Clock) (m : Moment) : Moment :=
  let n := Day (fieldTime m) in
  let weekday := (n + 3) mod 7 in
  local_time clock ((n - weekday) * msPerDay).

(** [m.startOf('month')] of a moment in the host's zone: the host's reading
    of midnight of the first day of the month. *)
Definition startOf_month (clock : Clock) (m : Moment) : Moment :=
  let n := Day (fieldTime m) in
  local_time clock ((n - (DateFromDay n - 1)) * msPerDay).

(** *** moment-range *)

Record DateRange := mkRange {
  range_start : option Moment;
  range_end : option Moment
}.

(** [moment.range(start, end)] *)
Definition range (s e : option Moment) : DateRange :=
  {| range_start := s; range_end := e |}.

(** [Array.from(range.by('days'))].  The iterator counts
    [Math.abs(start.diff(end, 'days'))] whole days and yields the start
    moved on by 0, 1, ... up to that count; with an invalid end point the
    count is [NaN] and nothing is yielded. *)
Definition by_days (r : DateRange) : list Moment :=
  match range_start r, diff_days (range_start r) (range_end r) with
  | Some s, Some d =>
      map (fun iteration => add_days s (Z.of_nat iteration))
          (seq 0 (S (Z.to_nat (Z.abs d))))
  | _, _ => []
  end.

End moment.

(** ** Date range resolution: [dateResolvers] and [resolveDays] *)

(** The keys of [dateResolvers], in the order the object literal lists
    them, which is the order [for ... in] visits them. *)
Inductive ResolverKey :=
| dateFormat
| key_yesterday
| key_week
| key_month.

(** [^[0-9]{4}-[0-9]{2}-[0-9]{2}$] *)
Definition dateFormat_test (s : string) : bool :=
  match list_ascii_of_string s with
  | [y1; y2; y3; y4; h1; m1; m2; h2; d1; d2] =>
      Text.is_digit y1 && Text.is_digit y2 && Text.is_digit y3
      && Text.is_digit y4 && Ascii.eqb h1 "-"
      && Text.is_digit m1 && Text.is_digit m2 && Ascii.eqb h2 "-"
      && Text.is_digit d1 && Text.is_digit d2
  | _ => false
  end.

(** [new RegExp(key).test(arg)]; the argument goes through [ToString]. *)
Definition RegExp_test (key : ResolverKey) (arg : option string) : bool :=
  let s := Js.to_string arg in
  match key with
  | dateFormat => dateFormat_test s
  | key_yesterday => String.eqb s "yesterday"
  | key_week => String.eqb s "week"
  | key_month => String.eqb s "month"
  end.

(** The resolver stored under each key. *)
Definition dateResolver (key : ResolverKey) (clock : Clock)
  (first second : option string) : moment.DateRange :=
  match key with
  | dateFormat =>
      let start := moment.utc_of_arg clock first in
      let end_ :=
        if RegExp_test dateFormat second
        then moment.utc_of_arg clock second
        else start in
      moment.range start end_
  | key_yesterday =>
      let start := moment.add_days (moment.local clock) (-1) in
      moment.range (Some start) (Some start)
  | key_week =>
      let start := moment.startOf_week clock (moment.local clock) in
      let end_ := moment.local clock in
      moment.range (Some start) (Some end_)
  | key_month =>
      let start := moment.startOf_month clock (moment.local clock) in
      let end_ := moment.local clock in
      moment.range (Some start) (Some end_)
  end.

Definition dateResolvers : list ResolverKey :=
  [dateFormat; key_yesterday; key_week; key_month].

(** The [for (const key in dateResolvers)] loop of [resolveDays]: the
    range of the first key that matches, else the range it started with. *)
Fixpoint resolve_loop (keys : list ResolverKey) (clock : Clock)
  (startArg endArg : option string) (range : moment.DateRange)
  : moment.DateRange :=
  match keys with
  | [] => range
  | key :: keys' =>
      if RegExp_test key startArg
      then dateResolver key clock startArg endArg
      else resolve_loop keys' clock startArg endArg range
  end.

Definition resolveDays (clock : Clock) (startArg endArg : option string)
  : list string :=
  let startDate := moment.utc (moment.local clock) in
  let endDate := startDate in
  let range := moment.range (Some startDate) (Some endDate) in
  let range := resolve_loop dateResolvers clock startArg endArg range in
  map moment.format_YYYY_MM_DD (moment.by_days range).

(** The text of a date given by its year, month (from 0) and date, and the
    dates that exist and have a four digit year. *)
Definition date_text (y m d : Z) : string :=
  Text.four_chars y ++ "-" ++ Text.two_chars (m + 1) ++ "-" ++ Text.two_chars d.

Definition valid_date (y m d : Z) : Prop :=
  0 <= y < 10000 /\ 0 <= m <= 11 /\ 1 <= d <= Calendar.daysInMonth y m.

(** The key of the day with a given day number, and the day numbers from
    a first one on. *)
Definition day_key (n : Z) : string :=
  moment.format_YYYY_MM_DD
    {| valueOf := n * Calendar.msPerDay; utcOffset := 0 |}.

Definition day_numbers (first : Z) (count : nat) : list Z :=
  map (fun i => first + Z.of_nat i) (seq 0 count).

(** The day number a valid moment falls on, in UTC. *)
Definition utc_day (m : Moment) : Z := Calendar.Day (valueOf m).

(** ** Durations *)

(** [duration.as('hours')] of a duration given in milliseconds. *)
Definition as_hours (ms : Z) : Q := ms # 3600000.

(** [Math.round]: the nearest integer, a tie going up. *)
Definition Math_round (x : Q) : Z := Qfloor (x + (1 # 2)).

(** [Math.max(Math.round(duration.as('hours') * 2) / 2, 0.5)] *)
Definition adjusted (ms : Z) : Q :=
  Qmax (inject_Z (Math_round (as_hours ms * 2)) / 2) (1 # 2).

(** The number of half hours a duration in milliseconds is shown as. *)
Definition half_hours (ms : Z) : Z := Z.max ((ms + 900000) / 1800000) 1.

(** [String(x)] for a number that is a whole multiple of one half and not
    negative, which [adjusted] always is; [NaN] is [None]. *)
Definition Number_toString (x : option Q) : string :=
  match x with
  | None => "NaN"
  | Some q =>
      let halves := Qfloor (q * 2) in
      if Z.even halves then Text.of_Z (halves / 2)
      else Text.of_Z (halves / 2) ++ ".5"
  end.

(** ** The console and exceptions of an action *)

Inductive Error :=
| ReadError (filename : string)
| TypeError.

(** One call of [console.log] or [console.error]. *)
Inductive Line :=
| TableHeader
| DayHeader (day : string)
| Row (timestamp project id task : string)
| ErrorReport (err : Error).

Inductive Outcome (A : Type) :=
| Returned (a : A)
| Thrown (err : Error)
| OutOfFuel.

Arguments Returned {A} a.
Arguments Thrown {A} err.
Arguments OutOfFuel {A}.

(** A computation takes the lines printed so far and gives its outcome and
    the lines printed by then. *)
Definition Action (A : Type) : Type := list Line -> Outcome A * list Line.

Definition ret {A} (a : A) : Action A := fun out => (Returned a, out).

Definition bind {A B} (m : Action A) (k : A -> Action B) : Action B :=
  fun out =>
    match m out with
    | (Returned a, out') => k a out'
    | (Thrown err, out') => (Thrown err, out')
    | (OutOfFuel, out') => (OutOfFuel, out')
    end.

Notation "x <- m ;; k" := (bind m (fun x => k))
  (at level 61, m at next level, right associativity).
Notation "m ;;; k" := (bind m (fun _ => k))
  (at level 61, right associativity).

Definition log (line : Line) : Action unit :=
  fun out => (Returned tt, (out ++ [line])%list).

Definition throw {A} (err : Error) : Action A := fun out => (Thrown err, out).

Definition out_of_fuel {A} : Action A := fun out => (OutOfFuel, out).

(** [try { body } catch (err) { handler }] *)
Definition try_catch {A} (body : Action A) (handler : Error -> Action A)
  : Action A :=
  fun out =>
    match body out with
    | (Thrown err, out') => handler err out'
    | other => other
    end.

(** ** The day files *)

(** The store directory: the text of each file that exists.
    [checkDirectory] creates the directory when it is missing, and no file
    exists in a directory just created. *)
Definition FileSystem := string -> option string.

(** [readFile(storePath, filename)]: the text of the file; the promise is
    rejected when the file cannot be read. *)
Definition readFile (fs : FileSystem) (filename : string) : Action string :=
  match fs filename with
  | Some data => ret data
  | None => throw (ReadError filename)
  end.

(** [writeFile(storePath, filename, chunk)]: the chunk appended to the
    file, which is created when it does not exist. *)
Definition writeFile (fs : FileSystem) (filename chunk : string) : FileSystem :=
  fun name =>
    if String.eqb name filename
    then Some (match fs filename with
               | Some data => data ++ chunk
               | None => chunk
               end)
    else fs name.

(** [pad(text, length)] of the pad package: the text filled with spaces on
    the right up to [length].  The package calls [text.toString()] on what
    is not a string, which throws on [undefined]. *)
Definition pad (text : option string) (length : nat) : Action string :=
  match text with
  | Some s => ret (s ++ Text.spaces (length - String.length s))
  | None => throw TypeError
  end.

(** ** The [task] and [break] actions *)

(** The options commander hands to the [task] action.  [--id] is declared
    without a value, so [cmd.id] is [true] when the flag is given and
    [undefined] when it is not. *)
Record TaskCmd := mkTaskCmd {
  task_verbose : bool;
  task_id_given : bool
}.

Definition cmd_id (cmd : TaskCmd) : Js.value :=
  if task_id_given cmd then Js.Bool true else Js.Undefined.

(** The line without its terminator:
    [['task', time.utc().format('HH:mm:ss'), projectArg, taskArg, cmd.id].join('|')] *)
Definition task_line (time : Moment) (projectArg taskArg : string)
  (id : Js.value) : string :=
  Js.array_join "|"
    [Js.Str "task"; Js.Str (moment.format_HH_mm_ss (moment.utc time));
     Js.Str projectArg; Js.Str taskArg; id].

Definition break_line (time : Moment) : string :=
  Js.array_join "|"
    [Js.Str "break"; Js.Str (moment.format_HH_mm_ss (moment.utc time))].

(** The [task] action; [time] is the moment its first statement computes,
    from [--time] or from the clock, in the configured zone. *)
Definition task_action (time : Moment) (projectArg taskArg : string)
  (cmd : TaskCmd) (fs : FileSystem) : FileSystem :=
  let filename := moment.format_YYYY_MM_DD time ++ ".txt" in
  let chunk := task_line time projectArg taskArg (cmd_id cmd) ++ EOL in
  writeFile fs filename chunk.

Definition break_action (time : Moment) (fs : FileSystem) : FileSystem :=
  let filename := moment.format_YYYY_MM_DD time ++ ".txt" in
  let chunk := break_line time ++ EOL in
  writeFile fs filename chunk.

(** ** The command line of the [task] command

    What commander makes of the words after the script's name before it
    calls the [task] action: [program.parse] reads them once with the
    options of the program, which has none, keeping what looks like an
    option and the word after it aside; the listener of the command reads
    those again with the options of the command, puts the words left over
    in front of the other words, and calls the action with the first two
    words. *)

Module Commander.

(** The options the [task] command declares. *)
Inductive TaskOption :=
| opt_verbose
| opt_time
| opt_id.

(** [-t, --time [start]] takes a value if one follows; [-v, --verbose] and
    [-i, --id] are declared without a value. *)
Definition takes_optional_value (opt : TaskOption) : bool :=
  match opt with
  | opt_time => true
  | opt_verbose | opt_id => false
  end.

(** [optionFor(arg)] of the program, which declares no option, and of the
    [task] command. *)
Definition programOptionFor (arg : string) : option TaskOption := None.

Definition taskOptionFor (arg : string) : option TaskOption :=
  if String.eqb arg "-v" || String.eqb arg "--verbose" then Some opt_verbose
  else if String.eqb arg "-t" || String.eqb arg "--time" then Some opt_time
  else if String.eqb arg "-i" || String.eqb arg "--id" then Some opt_id
  else None.

(** [arg.length > 1 && arg[0] === '-'] *)
Definition looks_like_option (arg : string) : bool :=
  match arg with
  | String "-" (String _ _) => true
  | _ => false
  end.

(** A word that is not taken for an option when it follows one:
    [arg[0] !== '-' || arg === '-']. *)
Definition may_be_value (arg : string) : bool :=
  match arg with
  | String "-" EmptyString => true
  | String "-" _ => false
  | _ => true
  end.

(** The parts of [s] before and after the first [c], if there is one. *)
Fixpoint cut (c : ascii) (s : string) : option (string * string) :=
  match s with
  | EmptyString => None
  | String c' rest =>
      if Ascii.eqb c' c then Some (EmptyString, rest)
      else match cut c rest with
           | Some (before, after) => Some (String c' before, after)
           | None => None
           end
  end.

(** [-abc] as [-a], [-b], [-c]. *)
Fixpoint short_flags (letters : string) : list string :=
  match letters with
  | EmptyString => []
  | String c rest => String "-" (String c EmptyString) :: short_flags rest
  end.

(** [normalize(args)]: grouped short flags are taken apart and
    [--name=value] is made two words, up to a [--]. *)
Fixpoint normalize (args : list string) : list string :=
  match args with
  | [] => []
  | arg :: rest =>
      if String.eqb arg "--" then args
      else
        match arg with
        | String "-" (String c letters) =>
            if negb (Ascii.eqb c "-") then
              (short_flags (String c letters) ++ normalize rest)%list
            else
              match cut "=" arg with
              | Some (name, value) => name :: value :: normalize rest
              | None => arg :: normalize rest
              end
        | _ => arg :: normalize rest
        end
  end.

(** What [parseOptions] returns, and the options it has met, each with the
    value it was given, in order. *)
Record Parsed := mkParsed {
  parsed_args : list string;
  parsed_unknown : list string;
  parsed_options : list (TaskOption * option string)
}.

Definition add_arg (arg : string) (p : Parsed) : Parsed :=
  {| parsed_args := arg :: parsed_args p;
     parsed_unknown := parsed_unknown p;
     parsed_options := parsed_options p |}.

Definition add_unknown (words : list string) (p : Parsed) : Parsed :=
  {| parsed_args := parsed_args p;
     parsed_unknown := (words ++ parsed_unknown p)%list;
     parsed_options := parsed_options p |}.

Definition add_option (opt : TaskOption) (val : option string) (p : Parsed)
  : Parsed :=
  {| parsed_args := parsed_args p;
     parsed_unknown := parsed_unknown p;
     parsed_options := (opt, val) :: parsed_options p |}.

(** [parseOptions(argv)].  [literal] is set once [--] has been met. *)
Fixpoint parseOptions (optionFor : string -> option TaskOption)
  (literal : bool) (argv : list string) : Parsed :=
  match argv with
  | [] => {| parsed_args := []; parsed_unknown := []; parsed_options := [] |}
  | arg :: rest =>
      if literal then add_arg arg (parseOptions optionFor true rest)
      else if String.eqb arg "--" then parseOptions optionFor true rest
      else
        match optionFor arg with
        | Some opt =>
            if takes_optional_value opt then
              match rest with
              | val :: rest' =>
                  if may_be_value val
                  then add_option opt (Some val)
                         (parseOptions optionFor false rest')
                  else add_option opt None (parseOptions optionFor false rest)
              | [] => add_option opt None (parseOptions optionFor false rest)
              end
            else add_option opt None (parseOptions optionFor false rest)
        | None =>
            if looks_like_option arg then
              match rest with
              | val :: rest' =>
                  if may_be_value val
                  then add_unknown [arg; val]
                         (parseOptions optionFor false rest')
                  else add_unknown [arg] (parseOptions optionFor false rest)
              | [] => add_unknown [arg] (parseOptions optionFor false rest)
              end
            else add_arg arg (parseOptions optionFor false rest)
        end
  end.

(** The properties the option events leave on the command object. *)
Record Options := mkOptions {
  verbose : Js.value;
  time : Js.value;
  id : Js.value
}.

(** The handler of one option event: a flag without a value sets [true];
    a value is stored; a missing optional value sets [true] unless a text
    is stored already. *)
Definition set_option (o : Options) (event : TaskOption * option string)
  : Options :=
  match event with
  | (opt_verbose, _) =>
      {| verbose := Js.Bool true; time := time o; id := id o |}
  | (opt_id, _) =>
      {| verbose := verbose o; time := time o; id := Js.Bool true |}
  | (opt_time, Some val) =>
      {| verbose := verbose o; time := Js.Str val; id := id o |}
  | (opt_time, None) =>
      {| verbose := verbose o;
         time := match time o with Js.Str val => Js.Str val | _ => Js.Bool true end;
         id := id o |}
  end.

Definition no_options : Options :=
  {| verbose := Js.Undefined; time := Js.Undefined; id := Js.Undefined |}.

(** What the [task] action is called with. *)
Record TaskCall := mkTaskCall {
  call_project : string;
  call_task : string;
  call_options : Options
}.

(** The flags of the call as the [task] action reads them. *)
Definition call_cmd (call : TaskCall) : TaskCmd :=
  {| task_verbose :=
       match verbose (call_options call) with Js.Bool true => true | _ => false end;
     task_id_given :=
       match id (call_options call) with Js.Bool true => true | _ => false end |}.

(** The listener [action] registers for the [task] command.  [None] when
    commander ends the process instead of calling the action: a word that
    looks like an option and is none of the command's (which includes the
    request for help), or fewer than two words for [<project>] and
    [<task>]. *)
Definition task_listener (args unknown : list string) : option TaskCall :=
  let parsed := parseOptions taskOptionFor false unknown in
  match parsed_unknown parsed with
  | _ :: _ => None
  | [] =>
      match (parsed_args parsed ++ args)%list with
      | projectArg :: taskArg :: _ =>
          Some {| call_project := projectArg;
                  call_task := taskArg;
                  call_options :=
                    fold_left set_option (parsed_options parsed) no_options |}
      | _ => None
      end
  end.

(** [program.parse(process.argv)] where it leads to the [task] action;
    [argv] is the words after the script's name.  [None] also when another
    command is named. *)
Definition task_call (argv : list string) : option TaskCall :=
  let parsed := parseOptions programOptionFor false (normalize argv) in
  match parsed_args parsed with
  | name :: args =>
      if String.eqb name "task" || String.eqb name "t"
      then task_listener args (parsed_unknown parsed)
      else None
  | [] => None
  end.

(** A word that does not begin with a hyphen. *)
Definition plain_word (word : string) : Prop :=
  match word with
  | String "-" _ => False
  | _ => True
  end.

End Commander.

(** ** The [show] action *)

(** [v === s] for a value that may be [undefined]. *)
Definition strict_eq (v : option string) (s : string) : bool :=
  match v with
  | Some s' => String.eqb s' s
  | None => false
  end.

(** The [for (const entry of entries)] loop: [next] is called until it
    answers [done]; the body sees the iterator it is fed from. *)
Fixpoint for_of (fuel : nat) (body : string -> Iterator -> Action unit)
  (entries : Iterator) : Action Iterator :=
  match fuel with
  | O => out_of_fuel
  | S fuel' =>
      match next entries with
      | (Done, entries') => ret entries'
      | (Yield entry, entries') =>
          body entry entries' ;;; for_of fuel' body entries'
      end
  end.

(** The time an entry line records, read on the given day:
    [moment.utc(day + ' ' + line.split('|')[1])]. *)
Definition entry_time (day line : string) : option Moment :=
  moment.utc_of_string
    (day ++ " " ++ Js.to_string (nth_error (Js.split pipe line) 1)).

(** The end of the task whose line was just taken from [entries]. *)
Definition end_time (clock : Clock) (day : string) (nextEntry : option string)
  : option Moment :=
  match nextEntry with
  | Some next_line =>
      if Js.truthy nextEntry then entry_time day next_line
      else Some (moment.utc (moment.local clock))
  | None => Some (moment.utc (moment.local clock))
  end.

(** [adjusted + 'h'], with the tilde when nothing follows. *)
Definition timestamp_label (duration : option Z) (nextEntry : option string)
  : string :=
  let timestamp := Number_toString (option_map adjusted duration) ++ "h" in
  if negb (Js.truthy nextEntry) then "~" ++ timestamp else timestamp.

(** The body of the loop over a day's lines. *)
Definition show_entry (clock : Clock) (day entry : string)
  (entries : Iterator) : Action unit :=
  if negb (Js.truthy (Some entry)) then ret tt
  else
    let fields := Js.split pipe entry in
    let type := nth_error fields 0 in
    let project := nth_error fields 2 in
    let task := nth_error fields 3 in
    let id := nth_error fields 4 in
    if strict_eq type "break" then ret tt
    else
      let startTime := entry_time day entry in
      let nextEntry := peek entries in
      let endTime := end_time clock day nextEntry in
      let duration := moment.diff endTime startTime in
      let timestamp := timestamp_label duration nextEntry in
      c1 <- pad (Some timestamp) 7 ;;
      c2 <- pad project 16 ;;
      c3 <- pad id 9 ;;
      log (Row c1 c2 c3 (Js.to_string task)).

(** One turn of the loop over the days, with its [try]/[catch]. *)
Definition show_day (fs : FileSystem) (clock : Clock) (verbose : bool)
  (day : string) : Action unit :=
  try_catch
    (log (DayHeader day) ;;;
     data <- readFile fs (day ++ ".txt") ;;
     let entries := Iterator_new (Js.split EOL_char data) in
     _ <- for_of (S (List.length (elements entries)))
                 (show_entry clock day) entries ;;
     ret tt)
    (fun err => if verbose then log (ErrorReport err) else ret tt).

Fixpoint for_days (fs : FileSystem) (clock : Clock) (verbose : bool)
  (days : list string) : Action unit :=
  match days with
  | [] => ret tt
  | day :: days' =>
      show_day fs clock verbose day ;;; for_days fs clock verbose days'
  end.

Definition show (fs : FileSystem) (clock : Clock)
  (startArg endArg : option string) (verbose : bool) : Action unit :=
  log TableHeader ;;;
  for_days fs clock verbose (resolveDays clock startArg endArg).

(** What a run of [show] prints, starting from an empty console. *)
Definition show_output (fs : FileSystem) (clock : Clock)
  (startArg endArg : option string) (verbose : bool) : list Line :=
  snd (show fs clock startArg endArg verbose []).

(** ** The earliest variant of the [show] action

    It reads times in the host's zone, caps an open task at the end of its
    day, and prints no tilde. *)

Module Variant3.

(** [moment(string)]: the text read as a wall-clock time of the host's
    zone. *)
Definition local_of_string (clock : Clock) (s : string) : option Moment :=
  match moment.utc_of_string s with
  | Some m => Some (local_time clock (valueOf m))
  | None => None
  end.

Definition entry_time (clock : Clock) (day line : string) : option Moment :=
  local_of_string clock
    (day ++ " " ++ Js.to_string (nth_error (Js.split pipe line) 1)).

(** [a < b] on moments: a comparison with an invalid moment is false. *)
Definition moment_lt (a b : option Moment) : bool :=
  match a, b with
  | Some a, Some b => valueOf a <? valueOf b
  | _, _ => false
  end.

Definition end_time (clock : Clock) (day : string) (nextEntry : option string)
  : option Moment :=
  let endTime := option_map moment.endOf_day (local_of_string clock day) in
  match nextEntry with
  | Some next_line =>
      if Js.truthy nextEntry then entry_time clock day next_line
      else if moment_lt (Some (moment.local clock)) endTime
           then Some (moment.local clock) else endTime
  | None =>
      if moment_lt (Some (moment.local clock)) endTime
      then Some (moment.local clock) else endTime
  end.

Definition show_entry (clock : Clock) (day entry : string)
  (entries : Iterator) : Action unit :=
  let fields := Js.split pipe entry in
  let type := nth_error fields 0 in
  let project := nth_error fields 2 in
  let task := nth_error fields 3 in
  let id := nth_error fields 4 in
  if negb (Js.truthy (Some entry)) || strict_eq type "break" then ret tt
  else
    let startTime := entry_time clock day entry in
    let nextEntry := peek entries in
    let endTime := end_time clock day nextEntry in
    let duration := moment.diff endTime startTime in
    let label := Number_toString (option_map adjusted duration) ++ "h" in
    c1 <- pad (Some label) 7 ;;
    c2 <- pad project 16 ;;
    c3 <- pad id 9 ;;
    log (Row c1 c2 c3 (Js.to_string task)).

Definition show_day (fs : FileSystem) (clock : Clock) (verbose : bool)
  (day : string) : Action unit :=
  try_catch
    (data <- readFile fs (day ++ ".txt") ;;
     let entries := Iterator_new (Js.split EOL_char data) in
     log (DayHeader day) ;;;
     _ <- for_of (S (List.length (elements entries)))
                 (show_entry clock day) entries ;;
     ret tt)
    (fun err => if verbose then log (ErrorReport err) else ret tt).

End Variant3.

(** ** The day's rows as a function of its lines

    [computeRows] is the list view of the loop over a day's lines: each
    line is handled by the loop body, which is shown the line after it. *)

(** What an action prints when it starts from an empty console. *)
Definition printed {A} (m : Action A) : list Line := snd (m []).

(** The loop body at a line and the line after it, that is, with an
    iterator whose cursor stands on that following line. *)
Definition show_line (clock : Clock) (day entry : string)
  (nextEntry : option string) : Action unit :=
  show_entry clock day entry
    {| elements := match nextEntry with Some l => [l] | None => [] end;
       index := 0 |}.

Fixpoint rows_before (clock : Clock) (day : string) (lines : list string)
  (after : option string) : list Line :=
  match lines with
  | [] => []
  | entry :: rest =>
      (printed (show_line clock day entry
                  (match rest with next_line :: _ => Some next_line
                                 | [] => after end))
       ++ rows_before clock day rest after)%list
  end.

Definition computeRows (clock : Clock) (day : string) (lines : list string)
  : list Line :=
  rows_before clock day lines None.

(** A line the loop body handles without an exception: an empty line, a
    break, or a line with at least the five fields of a task. *)
Definition complete (line : string) : bool :=
  negb (Js.truthy (Some line))
  || strict_eq (nth_error (Js.split pipe line) 0) "break"
  || (5 <=? List.length (Js.split pipe line))%nat.

(** The text [pad] returns for a string. *)
Definition padded (s : string) (length : nat) : string :=
  s ++ Text.spaces (length - String.length s).

(** An action that only adds lines to the console it is given, and whose
    outcome does not depend on what was printed before. *)
Definition appends {A} (m : Action A) : Prop :=
  forall out, m out = (fst (m []), (out ++ printed m)%list).

(** ** Sample data *)

(** 2018-06-17, 12:00:00 UTC, on a host that stays two hours east of
    UTC. *)
Definition sample_clock : Clock :=
  {| now := 1529236800000; localOffset := 120;
     local_time := fixed_offset_time 120 |}.

(** A store with files for 2018-06-15 and 2018-06-17 and none for the day
    between them. *)
Definition sample_fs : FileSystem :=
  fun name =>
    if String.eqb name "2018-06-15.txt" then
      Some ("task|09:00:00|proj|A|" ++ EOL ++ "break|09:30:00" ++ EOL
            ++ "task|10:00:00|proj|B|" ++ EOL)
    else if String.eqb name "2018-06-17.txt" then
      Some ("task|09:00:00|other|C|true" ++ EOL)
    else None.

(** A day file with a line whose kind is neither [task] nor [break]. *)
Definition notes_fs : FileSystem :=
  fun name =>
    if String.eqb name "2018-06-14.txt" then
      Some ("task|09:00:00|proj|A|" ++ EOL ++ "note|09:17:00|x|y|z" ++ EOL
            ++ "task|10:03:00|proj|B|" ++ EOL ++ "break|11:00:00" ++ EOL)
    else None.

(** 2018-06-15, 10:01:01.250 UTC, as a moment in a zone two hours east. *)
Definition sample_time : Moment :=
  {| valueOf := 1529056861250; utcOffset := 120 |}.

(** A day file with an empty line between its two tasks. *)
Definition blank_line_fs : FileSystem :=
  fun name =>
    if String.eqb name "2018-06-15.txt" then
      Some ("task|09:00:00|proj|A|" ++ EOL ++ EOL
            ++ "task|10:00:00|proj|B|" ++ EOL)
    else None.

(** *** Hosts that change their clocks *)

(** The reading of wall-clock times around one change that sets the clocks
    forward, from the offset [before] to the offset [after] at the
    wall-clock time [change].  A time the change skips is read at the old
    offset, so it shows as a time after the change, as [Date] does. *)
Definition set_forward_time (before after change wall : Z) : Moment :=
  if wall <? change then fixed_offset_time before wall
  else if wall <? change + (after - before) * 60000
       then {| valueOf := wall - before * 60000; utcOffset := after |}
       else fixed_offset_time after wall.

(** A host on Stockholm time in 2018, at the instant [now_].  The clocks
    go from 02:00 to 03:00 on 2018-03-25 (01:00 UTC) and from 03:00 back to
    02:00 on 2018-10-28 (01:00 UTC); a time of the repeated hour is read as
    its first pass, in summer time, as [Date] does. *)
Definition stockholm_2018 (now_ : Z) : Clock :=
  {| now := now_;
     localOffset :=
       if (1521939600000 <=? now_) && (now_ <? 1540688400000)
       then 120 else 60;
     local_time := fun wall =>
       if wall <? 1540695600000
       then set_forward_time 60 120 1521943200000 wall
       else fixed_offset_time 60 wall |}.

(** A host on Tehran time on 2021-03-23, 20:00 UTC (00:30 of the 24th
    there), in the week whose Monday began with the clocks going from 00:00
    to 01:00. *)
Definition tehran_clock : Clock :=
  {| now := 1616529600000; localOffset := 270;
     local_time := set_forward_time 210 270 1616371200000 |}.

(** A host on Asuncion time on 2017-10-03, 03:30 UTC (00:30 there), in the
    month whose first day began with the clocks going from 00:00 to
    01:00. *)
Definition asuncion_clock : Clock :=
  {| now := 1507001400000; localOffset := -180;
     local_time := set_forward_time (-240) (-180) 1506816000000 |}.

(** ** Days of the clock *)

(** The day number of today on the host, and in UTC. *)
Definition local_day (clock : Clock) : Z :=
  Calendar.Day (now clock + localOffset clock * 60000).

(** Midnight at the start of day number [n] is a time of the host's clock:
    the host reads it as 00:00 of that day, no change of the clocks skips
    it. *)
Definition midnight_exists (clock : Clock) (n : Z) : Prop :=
  moment.fieldTime (local_time clock (n * Calendar.msPerDay))
  = n * Calendar.msPerDay.

Definition utc_today (clock : Clock) : Z := Calendar.Day (now clock).

(** The place of a day in its week, Monday being 0; day 0 is a Thursday. *)
Definition weekday (n : Z) : Z := (n + 3) mod 7.

(** ** Kinds of printed lines *)

Definition is_day_header (line : Line) : bool :=
  match line with
  | DayHeader _ => true
  | _ => false
  end.

Definition is_row (line : Line) : bool :=
  match line with
  | Row _ _ _ _ => true
  | _ => false
  end.

(** A line the loop body passes over: an empty line or a break. *)
Definition skipped (line : string) : bool :=
  negb (Js.truthy (Some line))
  || strict_eq (nth_error (Js.split pipe line) 0) "break".

(** ** Calling [next] several times *)

(** The iterator after [k] calls of [next]. *)
Fixpoint advance (k : nat) (it : Iterator) : Iterator :=
  match k with
  | O => it
  | S k' => advance k' (snd (next it))
  end.

(** ** The store directory on disk

    [checkDirectory], [writeFile] and [readFile] with the state of the host
    written out: whether the store directory exists, and whether the host
    lets the program create it and write in it. *)

Module Disk.

Inductive IoError :=
| ENOENT
| EACCES.

(** What [fs.stat(storePath)] finds: no directory, the directory with its
    files, or a failure other than [ENOENT]. *)
Inductive Directory :=
| Missing
| Present (files : FileSystem)
| Unreadable.

Record State := mkState {
  directory : Directory;
  writable : bool
}.

(** How a promise ends. *)
Inductive Settled (A : Type) :=
| Resolved (a : A)
| Rejected (err : IoError).

Arguments Resolved {A} a.
Arguments Rejected {A} err.

(** [fs.mkdir(storePath)] *)
Definition mkdir (d : State) : Settled unit * State :=
  if writable d
  then (Resolved tt, {| directory := Present (fun _ => None);
                        writable := writable d |})
  else (Rejected EACCES, d).

(** [checkDirectory(path)]: the argument is not used, the directory looked
    at is always [storePath]. *)
Definition checkDirectory (d : State) : Settled unit * State :=
  match directory d with
  | Missing => mkdir d
  | Unreadable => (Rejected EACCES, d)
  | Present _ => (Resolved tt, d)
  end.

(** [fs.appendFile(fullPath, chunk, { flag: 'a' })] *)
Definition appendFile (d : State) (filename chunk : string)
  : Settled unit * State :=
  match directory d with
  | Present files =>
      if writable d
      then (Resolved tt, {| directory := Present (writeFile files filename chunk);
                            writable := writable d |})
      else (Rejected EACCES, d)
  | Missing => (Rejected ENOENT, d)
  | Unreadable => (Rejected EACCES, d)
  end.

(** [fs.readFile(fullPath, 'utf8')] *)
Definition fs_readFile (d : State) (filename : string)
  : Settled string * State :=
  match directory d with
  | Present files =>
      match files filename with
      | Some data => (Resolved data, d)
      | None => (Rejected ENOENT, d)
      end
  | Missing => (Rejected ENOENT, d)
  | Unreadable => (Rejected EACCES, d)
  end.

(** [writeFile(path, filename, chunk)] *)
Definition writeFile (d : State) (filename chunk : string)
  : Settled unit * State :=
  match checkDirectory d with
  | (Resolved _, d') => appendFile d' filename chunk
  | (Rejected err, d') => (Rejected err, d')
  end.

(** [readFile(path, filename)] *)
Definition readFile (d : State) (filename : string) : Settled string * State :=
  match checkDirectory d with
  | (Resolved _, d') => fs_readFile d' filename
  | (Rejected err, d') => (Rejected err, d')
  end.

(** The files a state holds: none when there is no directory to hold
    them. *)
Definition files_of (d : State) : FileSystem :=
  match directory d with
  | Present files => files
  | _ => fun _ => None
  end.

End Disk.

(** ** The [task] action of the earliest variant

    [task <project> <task> [id]]: the id is an argument of the command, and
    the time is written as the host's clock shows it. *)

Module EarliestLog.

(** [['task', now.format('HH:mm:ss'), projectArg, taskArg, idArg].join('|')] *)
Definition task_line (now_ : Moment) (projectArg taskArg : string)
  (idArg : option string) : string :=
  Js.array_join "|"
    [Js.Str "task"; Js.Str (moment.format_HH_mm_ss now_);
     Js.Str projectArg; Js.Str taskArg;
     match idArg with Some id => Js.Str id | None => Js.Undefined end].

Definition task_action (clock : Clock) (projectArg taskArg : string)
  (idArg : option string) (fs : FileSystem) : FileSystem :=
  let now_ := moment.local clock in
  let filename := moment.format_YYYY_MM_DD now_ ++ ".txt" in
  let chunk := task_line now_ projectArg taskArg idArg ++ EOL in
  writeFile fs filename chunk.

End EarliestLog.

(** ** The loop body of the middle variant

    A task with nothing after it gets the bare tilde and no duration; the
    first column is eight wide. *)

Module Variant2.

Definition show_entry (clock : Clock) (day entry : string)
  (entries : Iterator) : Action unit :=
  let fields := Js.split pipe entry in
  let type := nth_error fields 0 in
  let project := nth_error fields 2 in
  let task := nth_error fields 3 in
  let id := nth_error fields 4 in
  if negb (Js.truthy (Some entry)) || strict_eq type "break" then ret tt
  else
    let nextEntry := peek entries in
    let timestamp :=
      match nextEntry with
      | Some next_line =>
          if Js.truthy nextEntry then
            let startTime := entry_time day entry in
            let endTime := entry_time day next_line in
            let duration := moment.diff endTime startTime in
            Number_toString (option_map adjusted duration) ++ "h"
          else "~"
      | None => "~"
      end in
    c1 <- pad (Some timestamp) 8 ;;
    c2 <- pad project 16 ;;
    c3 <- pad id 9 ;;
    log (Row c1 c2 c3 (Js.to_string task)).

End Variant2.


(** * Properties *)

(** *** Splitting and joining *)

Lemma split_not_nil sep s : Js.split sep s <> [].
Proof.
  destruct s as [|c s]; simpl; [discriminate|].
  destruct (Ascii.eqb c sep); [discriminate|].
  destruct (Js.split sep s); discriminate.
Qed.

Lemma split_no_separator sep s :
  Js.contains sep s = false -> Js.split sep s = [s].
Proof.
  induction s as [|c s IH]; simpl; intros H; [reflexivity|].
  apply orb_false_iff in H as [Hc Hs].
  rewrite Hc, (IH Hs). reflexivity.
Qed.

Lemma split_field_then_rest sep field rest :
  Js.contains sep field = false ->
  Js.split sep (field ++ String sep rest) = field :: Js.split sep rest.
Proof.
  induction field as [|c field IH]; simpl; intros H.
  - rewrite Ascii.eqb_refl. reflexivity.
  - apply orb_false_iff in H as [Hc Hs].
    rewrite Hc, (IH Hs). reflexivity.
Qed.

Lemma split_join sep fields :
  fields <> [] ->
  Forall (fun field => Js.contains sep field = false) fields ->
  Js.split sep (Js.join (String sep EmptyString) fields) = fields.
Proof.
  intros Hne Hall. induction Hall as [|field rest Hf Hrest IH]; [congruence|].
  destruct rest as [|field' rest'].
  - simpl. apply split_no_separator, Hf.
  - change (Js.join (String sep "") (field :: field' :: rest'))
      with (field ++ String sep (Js.join (String sep "") (field' :: rest'))).
    rewrite split_field_then_rest by exact Hf.
    rewrite IH by discriminate. reflexivity.
Qed.

(** *** The iterator *)

Lemma next_in_range it :
  (index it < List.length (elements it))%nat ->
  exists v, nth_error (elements it) (index it) = Some v /\
    next it = (Yield v, {| elements := elements it; index := S (index it) |}).
Proof.
  intros H. unfold next.
  destruct (Nat.ltb_spec (index it) (List.length (elements it))); [|lia].
  destruct (nth_error (elements it) (index it)) as [v|] eqn:E.
  - exists v. split; [reflexivity|].
    rewrite (nth_error_nth _ _ _ E). reflexivity.
  - apply nth_error_None in E. lia.
Qed.

Lemma next_exhausted it :
  (List.length (elements it) <= index it)%nat ->
  next it = (Done, {| elements := elements it; index := 0 |}).
Proof.
  intros H. unfold next.
  destruct (Nat.ltb_spec (index it) (List.length (elements it))); [lia|reflexivity].
Qed.

Lemma drain_from elts : forall rest pre seen fuel,
  elts = (pre ++ rest)%list ->
  (List.length rest < fuel)%nat ->
  drain fuel {| elements := elts; index := List.length pre |} seen
  = Some ((seen ++ rest)%list, Iterator_new elts).
Proof.
  induction rest as [|v rest IH]; intros pre seen fuel Helts Hfuel.
  - destruct fuel as [|fuel]; [simpl in Hfuel; lia|].
    simpl. rewrite next_exhausted.
    + rewrite app_nil_r. reflexivity.
    + simpl. subst elts. rewrite length_app. simpl. lia.
  - destruct fuel as [|fuel]; [simpl in Hfuel; lia|].
    simpl drain.
    destruct (next_in_range {| elements := elts; index := List.length pre |})
      as (v' & Hv & Hnext).
    + simpl. subst elts. rewrite length_app. simpl. lia.
    + simpl in Hv. subst elts. rewrite nth_error_app2 in Hv by lia.
      rewrite Nat.sub_diag in Hv. simpl in Hv. injection Hv as <-.
      rewrite Hnext. simpl.
      replace (S (List.length pre)) with (List.length (pre ++ [v])%list)
        by (rewrite length_app; simpl; lia).
      rewrite (IH (pre ++ [v])%list).
      * rewrite <- app_assoc. reflexivity.
      * rewrite <- app_assoc. reflexivity.
      * simpl in Hfuel. lia.
Qed.

(** *** Actions only add to the console *)

Lemma appends_ret {A} (a : A) : appends (ret a).
Proof. intros out. unfold ret, printed. simpl. now rewrite app_nil_r. Qed.

Lemma appends_throw {A} err : appends (@throw A err).
Proof. intros out. unfold throw, printed. simpl. now rewrite app_nil_r. Qed.

Lemma appends_out_of_fuel {A} : appends (@out_of_fuel A).
Proof. intros out. unfold out_of_fuel, printed. simpl. now rewrite app_nil_r. Qed.

Lemma appends_log line : appends (log line).
Proof. intros out. reflexivity. Qed.

Lemma appends_bind {A B} (m : Action A) (k : A -> Action B) :
  appends m -> (forall a, appends (k a)) -> appends (bind m k).
Proof.
  intros Hm Hk out. unfold bind, printed.
  rewrite (Hm out). destruct (m []) as [[a|err|] out1] eqn:E; simpl.
  - unfold printed; rewrite E; simpl.
    rewrite (Hk a (out ++ out1)%list), (Hk a out1).
    simpl. now rewrite app_assoc.
  - unfold printed; rewrite E; reflexivity.
  - unfold printed; rewrite E; reflexivity.
Qed.

Lemma appends_try_catch {A} (body : Action A) handler :
  appends body -> (forall err, appends (handler err)) ->
  appends (try_catch body handler).
Proof.
  intros Hm Hk out. unfold try_catch, printed.
  rewrite (Hm out). destruct (body []) as [[a|err|] out1] eqn:E; simpl.
  - unfold printed; rewrite E; reflexivity.
  - unfold printed; rewrite E; simpl.
    rewrite (Hk err (out ++ out1)%list), (Hk err out1).
    simpl. now rewrite app_assoc.
  - unfold printed; rewrite E; reflexivity.
Qed.

Lemma appends_pad text n : appends (pad text n).
Proof. destruct text; [apply appends_ret | apply appends_throw]. Qed.

Lemma appends_readFile fs name : appends (readFile fs name).
Proof.
  unfold readFile. destruct (fs name); [apply appends_ret | apply appends_throw].
Qed.

Create HintDb appends.
#[local] Hint Resolve appends_ret appends_throw appends_out_of_fuel appends_log
  appends_pad appends_readFile : appends.

Ltac appends_step :=
  first [ apply appends_bind; [|intros ?] | apply appends_try_catch; [|intros ?] ].

Lemma appends_show_entry clock day entry entries :
  appends (show_entry clock day entry entries).
Proof.
  unfold show_entry.
  destruct (negb (Js.truthy (Some entry))); auto with appends.
  destruct (strict_eq _ _); auto with appends.
  repeat appends_step; auto with appends.
Qed.

Lemma appends_for_of body :
  (forall entry entries, appends (body entry entries)) ->
  forall fuel entries, appends (for_of fuel body entries).
Proof.
  intros Hbody. induction fuel as [|fuel IH]; intros entries; simpl.
  - apply appends_out_of_fuel.
  - destruct (next entries) as [[v|] entries']; auto with appends.
    appends_step; auto.
Qed.

Lemma appends_show_day fs clock verbose day :
  appends (show_day fs clock verbose day).
Proof.
  unfold show_day. repeat appends_step; auto with appends.
  - apply appends_for_of. intros; apply appends_show_entry.
  - destruct verbose; auto with appends.
Qed.

Lemma appends_for_days fs clock verbose days :
  appends (for_days fs clock verbose days).
Proof.
  induction days as [|day days IH]; simpl; auto with appends.
  appends_step; auto. apply appends_show_day.
Qed.

Lemma appends_show_line clock day entry nextEntry :
  appends (show_line clock day entry nextEntry).
Proof. apply appends_show_entry. Qed.

(** *** The loop body depends on the iterator through [peek] only *)

Lemma show_entry_show_line clock day entry entries :
  show_entry clock day entry entries
  = show_line clock day entry (peek entries).
Proof.
  unfold show_line, show_entry.
  replace (peek {| elements := match peek entries with
                               | Some l => [l] | None => [] end;
                   index := 0 |}) with (peek entries); [reflexivity|].
  unfold peek at 2. simpl. destruct (peek entries); reflexivity.
Qed.

Lemma show_line_complete clock day entry nextEntry :
  complete entry = true ->
  fst (show_line clock day entry nextEntry []) = Returned tt.
Proof.
  unfold complete, show_line, show_entry. cbv zeta. intros H.
  destruct (negb (Js.truthy (Some entry))); [reflexivity|].
  destruct (strict_eq _ _); [reflexivity|].
  cbn [orb] in H. apply Nat.leb_le in H.
  destruct (Js.split pipe entry) as [|f0 [|f1 [|f2 [|f3 [|f4 fs]]]]];
    simpl in H; try lia.
  reflexivity.
Qed.

(** *** The loop over a day's lines computes [computeRows] *)

Lemma peek_after pre entry rest :
  peek {| elements := (pre ++ entry :: rest)%list;
          index := S (List.length pre) |}
  = match rest with next_line :: _ => Some next_line | [] => None end.
Proof.
  unfold peek. simpl. induction pre as [|p pre IH]; simpl.
  - destruct rest; reflexivity.
  - exact IH.
Qed.

Lemma for_of_rows clock day lines : forall rest pre fuel out,
  lines = (pre ++ rest)%list ->
  Forall (fun line => complete line = true) rest ->
  (List.length rest < fuel)%nat ->
  for_of fuel (show_entry clock day)
    {| elements := lines; index := List.length pre |} out
  = (Returned (Iterator_new lines),
     (out ++ rows_before clock day rest None)%list).
Proof.
  induction rest as [|entry rest IH]; intros pre fuel out Hlines Hall Hfuel.
  - destruct fuel as [|fuel]; [simpl in Hfuel; lia|].
    simpl. rewrite next_exhausted.
    + unfold ret. now rewrite app_nil_r.
    + simpl. subst lines. rewrite length_app. simpl. lia.
  - destruct fuel as [|fuel]; [simpl in Hfuel; lia|].
    simpl for_of.
    destruct (next_in_range {| elements := lines; index := List.length pre |})
      as (v & Hv & Hnext).
    { simpl. subst lines. rewrite length_app. simpl. lia. }
    simpl in Hv. rewrite Hlines in Hv. rewrite nth_error_app2 in Hv by lia.
    rewrite Nat.sub_diag in Hv. simpl in Hv. injection Hv as <-.
    cbn [elements index] in Hnext. rewrite Hnext. inversion Hall as [|? ? Hentry Hrest]; subst.
    unfold bind. rewrite show_entry_show_line.
    rewrite peek_after.
    rewrite (appends_show_line clock day entry _ out).
    rewrite (show_line_complete _ _ _ _ Hentry).
    replace (S (List.length pre)) with (List.length (pre ++ [entry])%list)
      by (rewrite length_app; simpl; lia).
    rewrite (IH (pre ++ [entry])%list).
    + simpl rows_before. now rewrite app_assoc.
    + now rewrite <- app_assoc.
    + assumption.
    + simpl in Hfuel. lia.
Qed.

(** *** The loops end *)

Lemma show_entry_ends clock day entry entries out :
  fst (show_entry clock day entry entries out) <> OutOfFuel.
Proof.
  unfold show_entry. cbv zeta.
  destruct (negb (Js.truthy (Some entry))); [discriminate|].
  destruct (strict_eq _ _); [discriminate|].
  unfold bind, pad, ret, throw, log.
  destruct (nth_error (Js.split pipe entry) 2); [|discriminate].
  destruct (nth_error (Js.split pipe entry) 4); discriminate.
Qed.

Lemma for_of_ends clock day lines : forall fuel i out,
  (List.length lines - i < fuel)%nat ->
  fst (for_of fuel (show_entry clock day)
         {| elements := lines; index := i |} out) <> OutOfFuel.
Proof.
  induction fuel as [|fuel IH]; intros i out Hfuel; [lia|].
  simpl. unfold next. cbn [elements index].
  destruct (Nat.ltb_spec i (List.length lines)); [|discriminate].
  unfold bind.
  pose proof (show_entry_ends clock day (nth i lines "")
                {| elements := lines; index := S i |} out) as Hbody.
  destruct (show_entry clock day (nth i lines "") _ out) as [[[]|err|] out'];
    simpl in *; try discriminate; try congruence.
  apply IH. lia.
Qed.

Lemma show_day_returns fs clock verbose day out :
  fst (show_day fs clock verbose day out) = Returned tt.
Proof.
  unfold show_day, try_catch, bind, log, readFile.
  destruct (fs (day ++ ".txt")) as [data|]; cbn -[for_of Js.split EOL_char].
  - pose proof (for_of_ends clock day (Js.split EOL_char data)
                  (S (List.length (Js.split EOL_char data))) 0
                  (out ++ [DayHeader day])%list) as Hends.
    unfold Iterator_new.
    destruct (for_of _ _ _ _) as [[it|err|] out'] eqn:E; cbn -[for_of Js.split EOL_char] in *.
    + reflexivity.
    + destruct verbose; reflexivity.
    + exfalso. apply Hends; [lia|reflexivity].
  - destruct verbose; reflexivity.
Qed.

Lemma show_day_run fs clock verbose day out :
  show_day fs clock verbose day out
  = (Returned tt, (out ++ printed (show_day fs clock verbose day))%list).
Proof.
  rewrite (appends_show_day fs clock verbose day out).
  now rewrite show_day_returns.
Qed.

Lemma for_days_run fs clock verbose days : forall out,
  for_days fs clock verbose days out
  = (Returned tt,
     (out ++ flat_map (fun day => printed (show_day fs clock verbose day))
                      days)%list).
Proof.
  induction days as [|day days IH]; intros out; simpl.
  - unfold ret. now rewrite app_nil_r.
  - unfold bind. rewrite show_day_run, IH. now rewrite app_assoc.
Qed.

Lemma show_run fs clock startArg endArg verbose :
  show fs clock startArg endArg verbose []
  = (Returned tt,
     TableHeader ::
       flat_map (fun day => printed (show_day fs clock verbose day))
                (resolveDays clock startArg endArg)).
Proof.
  unfold show, bind, log. simpl. now rewrite for_days_run.
Qed.

Lemma show_day_missing fs clock verbose day :
  fs (day ++ ".txt") = None ->
  printed (show_day fs clock verbose day)
  = DayHeader day ::
      (if verbose then [ErrorReport (ReadError (day ++ ".txt"))] else []).
Proof.
  intros H. unfold printed, show_day, try_catch, bind, log, readFile.
  rewrite H. simpl. destruct verbose; reflexivity.
Qed.

Lemma show_day_complete fs clock verbose day data :
  fs (day ++ ".txt") = Some data ->
  Forall (fun line => complete line = true) (Js.split EOL_char data) ->
  printed (show_day fs clock verbose day)
  = DayHeader day :: computeRows clock day (Js.split EOL_char data).
Proof.
  intros H Hall. unfold printed, show_day, try_catch, bind, log, readFile.
  rewrite H. cbn -[for_of Js.split EOL_char]. unfold Iterator_new.
  rewrite (for_of_rows clock day (Js.split EOL_char data)
             (Js.split EOL_char data) [] _ _ eq_refl Hall) by (simpl; lia).
  reflexivity.
Qed.

(** *** The calendar *)

Module CalendarFacts.
Import Calendar.

Lemma DayFromYear_step y : DayFromYear (y + 1) = DayFromYear y + DaysInYear y.
Proof.
  unfold DayFromYear, DaysInYear, isLeapYear.
  destruct (Z.eqb_spec (y mod 4) 0); destruct (Z.eqb_spec (y mod 100) 0);
    destruct (Z.eqb_spec (y mod 400) 0); cbn [andb orb negb];
    Z.div_mod_to_equations; lia.
Qed.

Lemma YearFromDay_unique y n :
  DayFromYear y <= n < DayFromYear (y + 1) -> YearFromDay n = y.
Proof.
  intros H. unfold YearFromDay.
  assert (G : y - 1 <= 1970 + n * 400 / 146097 <= y + 1).
  { unfold DayFromYear in H. Z.div_mod_to_equations. lia. }
  set (g := 1970 + n * 400 / 146097) in *.
  assert (g = y - 1 \/ g = y \/ g = y + 1) as [-> | [-> | ->]] by lia.
  - pose proof (DayFromYear_step (y - 1)) as Hs.
    replace (y - 1 + 1) with y in * by lia.
    unfold DaysInYear in Hs.
    destruct (isLeapYear (y - 1));
      destruct (Z.ltb_spec n (DayFromYear (y - 1))); try lia;
      destruct (Z.leb_spec (DayFromYear y) n); lia.
  - destruct (Z.ltb_spec n (DayFromYear y)); try lia.
    destruct (Z.leb_spec (DayFromYear (y + 1)) n); lia.
  - destruct (Z.ltb_spec n (DayFromYear (y + 1))); lia.
Qed.

Lemma month_cases m :
  0 <= m <= 11 ->
  m = 0 \/ m = 1 \/ m = 2 \/ m = 3 \/ m = 4 \/ m = 5 \/ m = 6 \/ m = 7
  \/ m = 8 \/ m = 9 \/ m = 10 \/ m = 11.
Proof. lia. Qed.

Lemma date_within_year y m d :
  0 <= m <= 11 -> 1 <= d <= daysInMonth y m ->
  0 <= monthStart (isLeapYear y) m + (d - 1) < DaysInYear y.
Proof.
  intros Hm Hd. unfold DaysInYear.
  destruct (month_cases m Hm) as [->|[->|[->|[->|[->|[->|[->|[->|[->|[->|[->| ->]]]]]]]]]]];
    unfold daysInMonth in Hd; simpl in Hd; simpl monthStart;
    destruct (isLeapYear y); lia.
Qed.

Lemma MakeDay_year y m d :
  0 <= m <= 11 -> 1 <= d <= daysInMonth y m ->
  YearFromDay (MakeDay y m d) = y.
Proof.
  intros Hm Hd. apply YearFromDay_unique.
  rewrite DayFromYear_step. unfold MakeDay.
  pose proof (date_within_year y m d Hm Hd). lia.
Qed.

Lemma MakeDay_month y m d :
  0 <= m <= 11 -> 1 <= d <= daysInMonth y m ->
  MonthFromDay (MakeDay y m d) = m.
Proof.
  intros Hm Hd. unfold MonthFromDay, DayWithinYear.
  rewrite (MakeDay_year y m d Hm Hd). unfold MakeDay.
  replace (DayFromYear y + monthStart (isLeapYear y) m + (d - 1) - DayFromYear y)
    with (monthStart (isLeapYear y) m + (d - 1)) by lia.
  destruct (month_cases m Hm) as [->|[->|[->|[->|[->|[->|[->|[->|[->|[->|[->| ->]]]]]]]]]]];
    unfold daysInMonth in Hd; simpl in Hd; simpl monthStart;
    destruct (isLeapYear y);
    repeat match goal with
           | |- context [?a <? ?b] => destruct (Z.ltb_spec a b); try lia
           end.
Qed.

Lemma MakeDay_date y m d :
  0 <= m <= 11 -> 1 <= d <= daysInMonth y m ->
  DateFromDay (MakeDay y m d) = d.
Proof.
  intros Hm Hd. unfold DateFromDay, DayWithinYear.
  rewrite (MakeDay_month y m d Hm Hd), (MakeDay_year y m d Hm Hd).
  unfold MakeDay. lia.
Qed.

End CalendarFacts.

(** *** Digits *)

Module TextFacts.
Import Text.

Lemma digit_of_char c :
  is_digit c = true ->
  c = digit_char (digit_value c) /\ 0 <= digit_value c <= 9.
Proof.
  destruct c as [[] [] [] [] [] [] [] []]; vm_compute; intros H;
    try discriminate H; (split; [reflexivity | split; discriminate]).
Qed.

Lemma digit_cases k :
  0 <= k <= 9 ->
  k = 0 \/ k = 1 \/ k = 2 \/ k = 3 \/ k = 4 \/ k = 5 \/ k = 6 \/ k = 7
  \/ k = 8 \/ k = 9.
Proof. lia. Qed.

Lemma char_of_digit k :
  0 <= k <= 9 ->
  is_digit (digit_char k) = true /\ digit_value (digit_char k) = k.
Proof.
  intros H.
  destruct (digit_cases k H) as [->|[->|[->|[->|[->|[->|[->|[->|[->| ->]]]]]]]]];
    split; reflexivity.
Qed.

Lemma zeroFill_two_checked :
  forallb (fun k => String.eqb (zeroFill (Z.of_nat k) 2) (two_chars (Z.of_nat k)))
          (seq 0 100) = true.
Proof. vm_compute. reflexivity. Qed.

Lemma zeroFill_four_checked :
  forallb (fun k => String.eqb (zeroFill (Z.of_nat k) 4) (four_chars (Z.of_nat k)))
          (seq 0 (Z.to_nat 10000)) = true.
Proof. vm_compute. reflexivity. Qed.

Lemma zeroFill_two n : 0 <= n < 100 -> zeroFill n 2 = two_chars n.
Proof.
  intros H. pose proof zeroFill_two_checked as C.
  rewrite forallb_forall in C.
  specialize (C (Z.to_nat n)). rewrite Z2Nat.id in C by lia.
  apply String.eqb_eq, C, in_seq. lia.
Qed.

Lemma zeroFill_four n : 0 <= n < 10000 -> zeroFill n 4 = four_chars n.
Proof.
  intros H. pose proof zeroFill_four_checked as C.
  rewrite forallb_forall in C.
  specialize (C (Z.to_nat n)). rewrite Z2Nat.id in C by lia.
  apply String.eqb_eq, C, in_seq. lia.
Qed.

Lemma two_digits_value a b n :
  two_digits a b = Some n ->
  0 <= n < 100 /\ two_chars n = String a (String b EmptyString).
Proof.
  unfold two_digits. destruct (is_digit a) eqn:Ha; [|discriminate].
  destruct (is_digit b) eqn:Hb; [|discriminate].
  cbn [andb]. intros Hn. assert (Hn' := f_equal (fun o => match o with Some v => v | None => 0 end) Hn).
  cbv beta iota in Hn'. subst n. clear Hn.
  destruct (digit_of_char a Ha) as [Ea Ra], (digit_of_char b Hb) as [Eb Rb].
  split; [lia|]. unfold two_chars.
  replace ((10 * digit_value a + digit_value b) / 10) with (digit_value a)
    by (Z.div_mod_to_equations; lia).
  replace ((10 * digit_value a + digit_value b) mod 10) with (digit_value b)
    by (Z.div_mod_to_equations; lia).
  now rewrite <- Ea, <- Eb.
Qed.

Lemma four_digits_value a b c d n :
  four_digits a b c d = Some n ->
  0 <= n < 10000
  /\ four_chars n = String a (String b (String c (String d EmptyString))).
Proof.
  unfold four_digits. destruct (is_digit a) eqn:Ha; [|discriminate].
  destruct (is_digit b) eqn:Hb; [|discriminate].
  destruct (is_digit c) eqn:Hc; [|discriminate].
  destruct (is_digit d) eqn:Hd; [|discriminate].
  cbn [andb]. intros Hn. assert (Hn' := f_equal (fun o => match o with Some v => v | None => 0 end) Hn).
  cbv beta iota in Hn'. subst n. clear Hn.
  destruct (digit_of_char a Ha) as [Ea Ra], (digit_of_char b Hb) as [Eb Rb],
    (digit_of_char c Hc) as [Ec Rc], (digit_of_char d Hd) as [Ed Rd].
  set (va := digit_value a) in *. set (vb := digit_value b) in *.
  set (vc := digit_value c) in *. set (vd := digit_value d) in *.
  split; [lia|]. unfold four_chars.
  replace ((1000 * va + 100 * vb + 10 * vc + vd) / 1000) with va
    by (Z.div_mod_to_equations; lia).
  replace ((1000 * va + 100 * vb + 10 * vc + vd) / 100 mod 10) with vb
    by (Z.div_mod_to_equations; lia).
  replace ((1000 * va + 100 * vb + 10 * vc + vd) / 10 mod 10) with vc
    by (Z.div_mod_to_equations; lia).
  replace ((1000 * va + 100 * vb + 10 * vc + vd) mod 10) with vd
    by (Z.div_mod_to_equations; lia).
  now rewrite <- Ea, <- Eb, <- Ec, <- Ed.
Qed.

Lemma two_digits_of_chars n :
  0 <= n < 100 ->
  two_digits (digit_char (n / 10)) (digit_char (n mod 10)) = Some n.
Proof.
  intros H. unfold two_digits.
  assert (H1 : 0 <= n / 10 <= 9) by (Z.div_mod_to_equations; lia).
  assert (H2 : 0 <= n mod 10 <= 9) by (Z.div_mod_to_equations; lia).
  destruct (char_of_digit _ H1) as [-> ->], (char_of_digit _ H2) as [-> ->].
  cbn [andb]. f_equal. Z.div_mod_to_equations; lia.
Qed.

End TextFacts.

Module MomentFacts.
Import Calendar Text CalendarFacts TextFacts.

Lemma list_ascii_app a b :
  list_ascii_of_string (a ++ b)
  = (list_ascii_of_string a ++ list_ascii_of_string b)%list.
Proof. induction a as [|c a IH]; simpl; [reflexivity | now rewrite IH]. Qed.

Lemma Day_of_day n t : 0 <= t < msPerDay -> Day (n * msPerDay + t) = n.
Proof. unfold Day, msPerDay. intros H. Z.div_mod_to_equations. lia. Qed.

Lemma format_date y m d t :
  valid_date y m d -> 0 <= t < msPerDay ->
  moment.format_YYYY_MM_DD
    {| valueOf := MakeDay y m d * msPerDay + t; utcOffset := 0 |}
  = date_text y m d.
Proof.
  intros (Hy & Hm & Hd) Ht. unfold moment.format_YYYY_MM_DD, moment.fieldTime.
  cbn [valueOf utcOffset]. rewrite Z.add_0_r, (Day_of_day _ _ Ht).
  rewrite MakeDay_year, MakeDay_month, MakeDay_date by assumption.
  assert (Hd' : d <= 31).
  { unfold daysInMonth in Hd. destruct (m =? 1); [destruct (isLeapYear y); lia|].
    Z.div_mod_to_equations. lia. }
  rewrite zeroFill_four, !zeroFill_two by lia. reflexivity.
Qed.

Lemma utc_of_date_string s m :
  dateFormat_test s = true -> moment.utc_of_string s = Some m ->
  exists y mo d, valid_date y mo d /\ s = date_text y mo d
    /\ m = {| valueOf := MakeDay y mo d * msPerDay; utcOffset := 0 |}.
Proof.
  unfold dateFormat_test, moment.utc_of_string. intros Htest Hparse.
  rewrite <- (string_of_list_ascii_of_string s).
  destruct (list_ascii_of_string s)
    as [|y1 [|y2 [|y3 [|y4 [|h1 [|m1 [|m2 [|h2 [|d1 [|d2 [|x xs]]]]]]]]]]];
    try discriminate Htest.
  unfold moment.date_fields, moment.time_fields in Hparse.
  destruct (Ascii.eqb_spec h1 "-"); [subst h1|discriminate Hparse].
  destruct (Ascii.eqb_spec h2 "-"); [subst h2|discriminate Hparse].
  cbn [andb] in Hparse.
  destruct (four_digits y1 y2 y3 y4) as [y|] eqn:Ey; [|discriminate Hparse].
  destruct (two_digits m1 m2) as [mo|] eqn:Em; [|discriminate Hparse].
  destruct (two_digits d1 d2) as [d|] eqn:Ed; [|discriminate Hparse].
  destruct (Z.leb_spec 0 (mo - 1)); [|discriminate Hparse].
  destruct (Z.leb_spec (mo - 1) 11); [|discriminate Hparse].
  destruct (Z.leb_spec 1 d); [|discriminate Hparse].
  destruct (Z.leb_spec d (daysInMonth y (mo - 1))); [|discriminate Hparse].
  cbn [andb] in Hparse.
  destruct (four_digits_value _ _ _ _ _ Ey) as [Hy Ty].
  destruct (two_digits_value _ _ _ Em) as [Hm Tm].
  destruct (two_digits_value _ _ _ Ed) as [Hd Td].
  exists y, (mo - 1), d. split; [|split].
  - repeat split; lia.
  - unfold date_text. replace (mo - 1 + 1) with mo by lia.
    rewrite Ty, Tm, Td. reflexivity.
  - injection Hparse as <-. now rewrite Z.add_0_r.
Qed.

Lemma format_of_date_string s m :
  dateFormat_test s = true -> moment.utc_of_string s = Some m ->
  moment.format_YYYY_MM_DD m = s /\ valueOf m = utc_day m * msPerDay
  /\ utcOffset m = 0.
Proof.
  intros Htest Hparse.
  destruct (utc_of_date_string s m Htest Hparse) as (y & mo & d & Hv & -> & ->).
  split; [|split].
  - rewrite <- (Z.add_0_r (MakeDay y mo d * msPerDay)).
    apply format_date; [assumption | unfold msPerDay; lia].
  - unfold utc_day. cbn [valueOf].
    rewrite <- (Z.add_0_r (MakeDay y mo d * msPerDay)) at 2.
    rewrite Day_of_day; [reflexivity | unfold msPerDay; lia].
  - reflexivity.
Qed.

Lemma day_key_of_date_string s m :
  dateFormat_test s = true -> moment.utc_of_string s = Some m ->
  day_key (utc_day m) = s.
Proof.
  intros Htest Hparse.
  destruct (format_of_date_string s m Htest Hparse) as (Hf & Hv & Ho).
  unfold day_key. rewrite <- Hv, <- Ho, <- Hf. now destruct m.
Qed.

(** *** Walking a range by days *)

Lemma by_days_whole_days a b :
  moment.by_days
    (moment.range (Some {| valueOf := a * msPerDay; utcOffset := 0 |})
                  (Some {| valueOf := b * msPerDay; utcOffset := 0 |}))
  = map (fun n => {| valueOf := n * msPerDay; utcOffset := 0 |})
        (day_numbers a (S (Z.to_nat (Z.abs (a - b))))).
Proof.
  unfold moment.by_days, moment.range, moment.diff_days.
  cbn [moment.range_start moment.range_end valueOf utcOffset].
  replace (a * msPerDay - b * msPerDay - (0 - 0) * 60000)
    with ((a - b) * msPerDay) by lia.
  rewrite Z.quot_mul by (unfold msPerDay; lia).
  unfold day_numbers. rewrite map_map. apply map_ext. intros i.
  unfold moment.add_days. cbn [valueOf utcOffset]. f_equal. lia.
Qed.

End MomentFacts.

Module TimeFacts.
Import Calendar Text CalendarFacts TextFacts MomentFacts.

Lemma four_digits_of_chars n :
  0 <= n < 10000 ->
  four_digits (digit_char (n / 1000)) (digit_char ((n / 100) mod 10))
              (digit_char ((n / 10) mod 10)) (digit_char (n mod 10)) = Some n.
Proof.
  intros H. unfold four_digits.
  assert (H1 : 0 <= n / 1000 <= 9) by (Z.div_mod_to_equations; lia).
  assert (H2 : 0 <= (n / 100) mod 10 <= 9) by (Z.div_mod_to_equations; lia).
  assert (H3 : 0 <= (n / 10) mod 10 <= 9) by (Z.div_mod_to_equations; lia).
  assert (H4 : 0 <= n mod 10 <= 9) by (Z.div_mod_to_equations; lia).
  destruct (char_of_digit _ H1) as [-> ->], (char_of_digit _ H2) as [-> ->],
    (char_of_digit _ H3) as [-> ->], (char_of_digit _ H4) as [-> ->].
  cbn [andb]. f_equal. Z.div_mod_to_equations; lia.
Qed.

Lemma utc_of_date_time_text y mo d h mi s :
  valid_date y mo d -> 0 <= h <= 23 -> 0 <= mi <= 59 -> 0 <= s <= 59 ->
  moment.utc_of_string
    (date_text y mo d ++ " " ++ two_chars h ++ ":" ++ two_chars mi ++ ":"
       ++ two_chars s)
  = Some {| valueOf := MakeDay y mo d * msPerDay
                       + ((h * 60 + mi) * 60 + s) * 1000;
            utcOffset := 0 |}.
Proof.
  intros (Hy & Hm & Hd) Hh Hmi Hs.
  assert (Hd' : d <= 31).
  { unfold daysInMonth in Hd. destruct (mo =? 1); [destruct (isLeapYear y); lia|].
    Z.div_mod_to_equations. lia. }
  unfold moment.utc_of_string, date_text, four_chars, two_chars.
  cbn [append list_ascii_of_string].
  unfold moment.date_fields, moment.time_fields.
  cbn [Ascii.eqb Bool.eqb andb].
  rewrite four_digits_of_chars by lia.
  rewrite !two_digits_of_chars by lia.
  replace (mo + 1 - 1) with mo by lia.
  destruct (Z.leb_spec 0 mo); [|lia].
  destruct (Z.leb_spec mo 11); [|lia].
  destruct (Z.leb_spec 1 d); [|lia].
  destruct (Z.leb_spec d (daysInMonth y mo)); [|lia].
  destruct (Z.leb_spec h 23); [|lia].
  destruct (Z.leb_spec mi 59); [|lia].
  destruct (Z.leb_spec s 59); [|lia].
  reflexivity.
Qed.

(** The seconds into the day of an instant. *)
Lemma format_time_text m :
  let t := TimeWithinDay (valueOf m) / 1000 in
  moment.format_HH_mm_ss (moment.utc m)
  = two_chars (t / 3600) ++ ":" ++ two_chars ((t / 60) mod 60) ++ ":"
      ++ two_chars (t mod 60)
  /\ 0 <= t / 3600 <= 23 /\ 0 <= (t / 60) mod 60 <= 59 /\ 0 <= t mod 60 <= 59
  /\ ((t / 3600) * 60 + (t / 60) mod 60) * 60 + t mod 60 = t.
Proof.
  intros t. unfold moment.format_HH_mm_ss, moment.fieldTime, moment.utc.
  cbn [valueOf utcOffset]. rewrite Z.add_0_r. fold t.
  assert (Ht : 0 <= t < 86400).
  { unfold t, TimeWithinDay, msPerDay. Z.div_mod_to_equations. lia. }
  assert (H1 : 0 <= t / 3600 <= 23) by (Z.div_mod_to_equations; lia).
  assert (H2 : 0 <= (t / 60) mod 60 <= 59) by (Z.div_mod_to_equations; lia).
  assert (H3 : 0 <= t mod 60 <= 59) by (Z.div_mod_to_equations; lia).
  rewrite !zeroFill_two by lia.
  repeat split; try lia. Z.div_mod_to_equations; lia.
Qed.

Lemma entry_time_written day d0 line time :
  dateFormat_test day = true -> moment.utc_of_string day = Some d0 ->
  nth_error (Js.split pipe line) 1
    = Some (moment.format_HH_mm_ss (moment.utc time)) ->
  entry_time day line
  = Some {| valueOf := valueOf d0
                       + 1000 * (TimeWithinDay (valueOf time) / 1000);
            utcOffset := 0 |}.
Proof.
  intros Htest Hparse Hfield. unfold entry_time. rewrite Hfield.
  cbn [Js.to_string].
  destruct (utc_of_date_string day d0 Htest Hparse) as (y & mo & d & Hv & -> & ->).
  destruct (format_time_text time) as (-> & H1 & H2 & H3 & H4).
  rewrite utc_of_date_time_text by assumption.
  rewrite H4. cbn [valueOf]. do 2 f_equal. lia.
Qed.

Lemma two_chars_no_pipe n : 0 <= n < 100 -> Js.contains pipe (two_chars n) = false.
Proof.
  intros H. unfold two_chars.
  assert (H1 : 0 <= n / 10 <= 9) by (Z.div_mod_to_equations; lia).
  assert (H2 : 0 <= n mod 10 <= 9) by (Z.div_mod_to_equations; lia).
  destruct (digit_cases _ H1) as [->|[->|[->|[->|[->|[->|[->|[->|[->| ->]]]]]]]]];
  destruct (digit_cases _ H2) as [->|[->|[->|[->|[->|[->|[->|[->|[->| ->]]]]]]]]];
  reflexivity.
Qed.

Lemma contains_app c a b :
  Js.contains c (a ++ b) = Js.contains c a || Js.contains c b.
Proof.
  induction a as [|x a IH]; simpl; [reflexivity|].
  now rewrite IH, orb_assoc.
Qed.

Lemma format_time_no_pipe m :
  Js.contains pipe (moment.format_HH_mm_ss (moment.utc m)) = false.
Proof.
  destruct (format_time_text m) as (-> & H1 & H2 & H3 & _).
  rewrite !contains_app, !two_chars_no_pipe by lia. reflexivity.
Qed.

End TimeFacts.

Module DurationFacts.

Lemma Math_round_hours ms :
  Math_round (as_hours ms * 2) = (ms + 900000) / 1800000.
Proof.
  unfold Math_round, as_hours, Qfloor, Qplus, Qmult. cbn [Qnum Qden].
  change (Z.pos (3600000 * 1 * 2)) with 7200000.
  change (Z.pos (3600000 * 1)) with 3600000.
  change (Z.pos 2) with 2.
  Z.div_mod_to_equations. lia.
Qed.

Lemma adjusted_half_hours ms : (adjusted ms == half_hours ms # 2)%Q.
Proof.
  unfold adjusted, half_hours. rewrite Math_round_hours.
  set (k := (ms + 900000) / 1800000).
  destruct (Z.max_spec k 1) as [[Hlt ->] | [Hle ->]].
  - rewrite Q.max_r; [reflexivity|].
    unfold Qle, Qdiv, Qmult, Qinv, inject_Z. cbn [Qnum Qden]. lia.
  - rewrite Q.max_l.
    + unfold Qeq, Qdiv, Qmult, Qinv, inject_Z. cbn [Qnum Qden]. lia.
    + unfold Qle, Qdiv, Qmult, Qinv, inject_Z. cbn [Qnum Qden]. lia.
Qed.

Lemma half_hours_positive ms : 1 <= half_hours ms.
Proof. unfold half_hours. lia. Qed.

Lemma adjusted_at_least_half ms : (1 # 2 <= adjusted ms)%Q.
Proof.
  rewrite adjusted_half_hours. pose proof (half_hours_positive ms).
  unfold Qle. cbn [Qnum Qden]. lia.
Qed.

Lemma adjusted_nearest ms :
  900000 <= ms ->
  (as_hours ms - (1 # 4) <= adjusted ms /\ adjusted ms <= as_hours ms + (1 # 4))%Q.
Proof.
  intros H. rewrite adjusted_half_hours. unfold half_hours.
  set (k := (ms + 900000) / 1800000).
  assert (Hk : 1800000 * k <= ms + 900000 < 1800000 * k + 1800000)
    by (unfold k; Z.div_mod_to_equations; lia).
  rewrite Z.max_l by lia.
  unfold as_hours, Qle, Qminus, Qplus, Qopp. cbn [Qnum Qden].
  split; lia.
Qed.

Lemma Number_toString_adjusted ms :
  Number_toString (Some (adjusted ms))
  = if Z.even (half_hours ms) then Text.of_Z (half_hours ms / 2)
    else Text.of_Z (half_hours ms / 2) ++ ".5".
Proof.
  unfold Number_toString.
  assert (E : Qfloor (adjusted ms * 2) = half_hours ms).
  { rewrite adjusted_half_hours. unfold Qfloor, Qmult. cbn [Qnum Qden].
    change (Z.pos (2 * 1)) with 2. Z.div_mod_to_equations. lia. }
  rewrite E. reflexivity.
Qed.

End DurationFacts.

(** *** The rows of single lines *)

Lemma rows_before_app clock day pre entry rest after :
  rows_before clock day (pre ++ entry :: rest) after
  = (rows_before clock day pre (Some entry)
     ++ rows_before clock day (entry :: rest) after)%list.
Proof.
  induction pre as [|p pre IH]; [reflexivity|].
  cbn [rows_before app]. rewrite IH, <- app_assoc.
  destruct pre; reflexivity.
Qed.

Lemma five_fields_truthy entry kind time project task id rest :
  Js.split pipe entry = kind :: time :: project :: task :: id :: rest ->
  Js.truthy (Some entry) = true.
Proof. destruct entry; [discriminate | reflexivity]. Qed.

Lemma five_fields_complete entry kind time project task id rest :
  Js.split pipe entry = kind :: time :: project :: task :: id :: rest ->
  complete entry = true.
Proof.
  intros H. unfold complete. rewrite H. cbn [List.length].
  rewrite !orb_true_iff. right. reflexivity.
Qed.

Lemma show_line_skip clock day entry nextEntry out :
  Js.truthy (Some entry) = false
  \/ strict_eq (nth_error (Js.split pipe entry) 0) "break" = true ->
  show_line clock day entry nextEntry out = (Returned tt, out).
Proof.
  unfold show_line, show_entry. cbv zeta. intros [H | H].
  - rewrite H. reflexivity.
  - rewrite H. destruct (negb (Js.truthy (Some entry))); reflexivity.
Qed.

Lemma show_line_row clock day entry nextEntry out kind time project task id rest :
  Js.split pipe entry = kind :: time :: project :: task :: id :: rest ->
  kind <> "break" ->
  show_line clock day entry nextEntry out
  = (Returned tt,
     (out ++ [Row (padded (timestamp_label
                             (moment.diff (end_time clock day nextEntry)
                                          (entry_time day entry))
                             nextEntry) 7)
                  (padded project 16) (padded id 9) task])%list).
Proof.
  intros Hfields Hkind. unfold show_line, show_entry. cbv zeta.
  rewrite (five_fields_truthy _ _ _ _ _ _ _ Hfields). cbn [negb].
  rewrite Hfields. cbn [nth_error strict_eq].
  destruct (String.eqb_spec kind "break"); [contradiction|].
  replace (peek {| elements := match nextEntry with
                               | Some l => [l] | None => [] end;
                   index := 0 |}) with nextEntry
    by (destruct nextEntry; reflexivity).
  reflexivity.
Qed.

Lemma printed_skip clock day entry nextEntry :
  Js.truthy (Some entry) = false
  \/ strict_eq (nth_error (Js.split pipe entry) 0) "break" = true ->
  printed (show_line clock day entry nextEntry) = [].
Proof. intros H. unfold printed. now rewrite show_line_skip. Qed.

Lemma printed_row clock day entry nextEntry kind time project task id rest :
  Js.split pipe entry = kind :: time :: project :: task :: id :: rest ->
  kind <> "break" ->
  printed (show_line clock day entry nextEntry)
  = [Row (padded (timestamp_label
                    (moment.diff (end_time clock day nextEntry)
                                 (entry_time day entry))
                    nextEntry) 7)
         (padded project 16) (padded id 9) task].
Proof.
  intros Hf Hk. unfold printed. now rewrite (show_line_row _ _ _ _ _ _ _ _ _ _ _ Hf Hk).
Qed.

Lemma end_time_open clock day nextEntry :
  Js.truthy nextEntry = false ->
  end_time clock day nextEntry = Some (moment.utc (moment.local clock)).
Proof.
  unfold end_time. destruct nextEntry as [l|]; [|reflexivity].
  intros ->. reflexivity.
Qed.

Lemma end_time_closed clock day next_line :
  Js.truthy (Some next_line) = true ->
  end_time clock day (Some next_line) = entry_time day next_line.
Proof. unfold end_time. intros ->. reflexivity. Qed.

Lemma timestamp_label_closed duration nextEntry :
  Js.truthy nextEntry = true ->
  timestamp_label duration nextEntry
  = Number_toString (option_map adjusted duration) ++ "h".
Proof. unfold timestamp_label. intros ->. reflexivity. Qed.

Lemma timestamp_label_open duration nextEntry :
  Js.truthy nextEntry = false ->
  timestamp_label duration nextEntry
  = "~" ++ Number_toString (option_map adjusted duration) ++ "h".
Proof. unfold timestamp_label. intros ->. reflexivity. Qed.

(** *** The earliest variant at a task with nothing after it *)


(** *** Resolving two explicit dates *)

Lemma moment_of_date_string s m :
  dateFormat_test s = true -> moment.utc_of_string s = Some m ->
  m = {| valueOf := utc_day m * Calendar.msPerDay; utcOffset := 0 |}.
Proof.
  intros Ht Hp.
  destruct (MomentFacts.format_of_date_string s m Ht Hp) as (_ & Hv & Ho).
  destruct m as [v o]. cbn [valueOf utcOffset] in *. now rewrite <- Hv, Ho.
Qed.

Lemma resolveDays_dates clock s1 s2 m1 m2 :
  dateFormat_test s1 = true -> moment.utc_of_string s1 = Some m1 ->
  dateFormat_test s2 = true -> moment.utc_of_string s2 = Some m2 ->
  resolveDays clock (Some s1) (Some s2)
  = map day_key
      (day_numbers (utc_day m1)
                   (S (Z.to_nat (Z.abs (utc_day m1 - utc_day m2))))).
Proof.
  intros Ht1 Hp1 Ht2 Hp2. unfold resolveDays, dateResolvers.
  cbn [resolve_loop RegExp_test Js.to_string]. rewrite Ht1.
  cbn [dateResolver RegExp_test Js.to_string moment.utc_of_arg].
  rewrite Ht2, Hp1, Hp2.
  rewrite (moment_of_date_string s1 m1 Ht1 Hp1) at 1.
  rewrite (moment_of_date_string s2 m2 Ht2 Hp2) at 1.
  rewrite MomentFacts.by_days_whole_days, map_map. reflexivity.
Qed.

Lemma resolveDays_single_date clock s1 m1 endArg :
  dateFormat_test s1 = true -> moment.utc_of_string s1 = Some m1 ->
  RegExp_test dateFormat endArg = false ->
  resolveDays clock (Some s1) endArg = [s1].
Proof.
  intros Ht1 Hp1 Hend. unfold resolveDays, dateResolvers.
  cbn [resolve_loop]. change (RegExp_test dateFormat (Some s1))
    with (dateFormat_test s1). rewrite Ht1.
  cbn [dateResolver]. rewrite Hend. cbn [moment.utc_of_arg]. rewrite Hp1.
  rewrite (moment_of_date_string s1 m1 Ht1 Hp1) at 1 2.
  rewrite MomentFacts.by_days_whole_days, map_map, Z.sub_diag.
  cbn [Z.abs Z.to_nat day_numbers seq map].
  rewrite Z.add_0_r. fold (day_key (utc_day m1)).
  now rewrite (MomentFacts.day_key_of_date_string s1 m1 Ht1 Hp1).
Qed.

Lemma utc_day_monotone s1 s2 m1 m2 :
  dateFormat_test s1 = true -> moment.utc_of_string s1 = Some m1 ->
  dateFormat_test s2 = true -> moment.utc_of_string s2 = Some m2 ->
  (valueOf m1 <= valueOf m2 <-> utc_day m1 <= utc_day m2).
Proof.
  intros Ht1 Hp1 Ht2 Hp2.
  destruct (MomentFacts.format_of_date_string s1 m1 Ht1 Hp1) as (_ & Hv1 & _).
  destruct (MomentFacts.format_of_date_string s2 m2 Ht2 Hp2) as (_ & Hv2 & _).
  rewrite Hv1, Hv2. unfold Calendar.msPerDay. lia.
Qed.

Lemma variant3_missing_day_silent fs clock day :
  fs (day ++ ".txt") = None ->
  printed (Variant3.show_day fs clock false day) = [].
Proof.
  intros H. unfold printed, Variant3.show_day, try_catch, bind, readFile.
  rewrite H. reflexivity.
Qed.

(** * The claims *)




(** C2.  The duration shown for a task that starts at [startTime] and ends
    at [endTime] is [max(round(hours * 2) / 2, 0.5)] of the hours between
    them: a whole number of half hours, never below one half (so never zero
    or negative, also for an empty or inverted interval), and within a
    quarter of an hour of the true length once that is a quarter of an hour
    or more.  A gap of 17 minutes is shown as 0.5 and one of 46 minutes as
    1 (printed ["0.5h"] and ["1h"]). *)
Theorem duration_rounded_to_half_hours (startTime endTime : Moment) :
  let ms := valueOf endTime - valueOf startTime in
  (adjusted ms
   == Qmax (inject_Z (Qfloor (as_hours ms * 2 + (1 # 2))) / 2) (1 # 2))%Q
  /\ (adjusted ms == half_hours ms # 2)%Q
  /\ (1 # 2 <= adjusted ms)%Q
  /\ (0 < adjusted ms)%Q
  /\ (900000 <= ms ->
      (as_hours ms - (1 # 4) <= adjusted ms
       /\ adjusted ms <= as_hours ms + (1 # 4))%Q)
  /\ (forall nextEntry,
        timestamp_label (moment.diff (Some endTime) (Some startTime)) nextEntry
        = (if Js.truthy nextEntry then "" else "~")
            ++ Number_toString (Some (adjusted ms)) ++ "h")
  /\ (adjusted (17 * 60000) == 1 # 2)%Q
  /\ (adjusted (46 * 60000) == 1)%Q
  /\ Number_toString (Some (adjusted (17 * 60000))) ++ "h" = "0.5h"
  /\ Number_toString (Some (adjusted (46 * 60000))) ++ "h" = "1h".
Proof.
  intros ms. split; [reflexivity|].
  split; [apply DurationFacts.adjusted_half_hours|].
  split; [apply DurationFacts.adjusted_at_least_half|].
  split.
  { apply Qlt_le_trans with (1 # 2)%Q; [reflexivity|].
    apply DurationFacts.adjusted_at_least_half. }
  split; [apply DurationFacts.adjusted_nearest|].
  split.
  { intros nextEntry. unfold timestamp_label, moment.diff. cbn [option_map].
    fold ms. destruct (Js.truthy nextEntry); reflexivity. }
  split; [rewrite DurationFacts.adjusted_half_hours; reflexivity|].
  split; [rewrite DurationFacts.adjusted_half_hours; reflexivity|].
  split; reflexivity.
Qed.

Lemma duration_rounded_to_half_hours_witness :
  (adjusted (46 * 60000) == 2 # 2)%Q
  /\ (as_hours (46 * 60000) - (1 # 4) <= adjusted (46 * 60000))%Q
  /\ (adjusted (46 * 60000) <= as_hours (46 * 60000) + (1 # 4))%Q.
Proof.
  assert (Hlong : 900000 <= 46 * 60000) by (vm_compute; discriminate).
  destruct (duration_rounded_to_half_hours
              {| valueOf := 1529053200000; utcOffset := 0 |}
              {| valueOf := 1529053200000 + 46 * 60000; utcOffset := 0 |})
    as (_ & H2 & _ & _ & H5 & _).
  split; [exact H2|]. exact (H5 Hlong).
Defined.

(** C3 (as amended).  A break prints no row, and a task whose line is
    followed by a line that is not empty is measured from its own start to
    the time that line records, whatever the kind of that line.  A task
    whose line is followed by an empty line is measured to the current time
    and marked with the tilde instead, also when further entries come
    after the empty line.  In a day file whose lines are all complete, with
    a task line [entry] followed by [next_line]: if [next_line] is not
    empty the row of [entry] shows the rounded time from the one to the
    other; if it is empty the row shows the rounded time up to now, after a
    tilde; a break line prints nothing itself. *)
Theorem break_absorption (fs : FileSystem) (clock : Clock) (verbose : bool)
  (day data : string) (pre post : list string) (entry next_line : string)
  (kind time project task id : string) (rest : list string)
  (startTime : Moment) :
  fs (day ++ ".txt") = Some data ->
  Js.split EOL_char data = (pre ++ entry :: next_line :: post)%list ->
  Forall (fun line => complete line = true) (Js.split EOL_char data) ->
  Js.split pipe entry = kind :: time :: project :: task :: id :: rest ->
  kind <> "break" ->
  entry_time day entry = Some startTime ->
  (forall stopTime,
     next_line <> "" ->
     entry_time day next_line = Some stopTime ->
     printed (show_day fs clock verbose day)
     = (DayHeader day :: rows_before clock day pre (Some entry)
        ++ Row (padded (Number_toString
                          (Some (adjusted
                                   (valueOf stopTime - valueOf startTime)))
                        ++ "h") 7)
               (padded project 16) (padded id 9) task
        :: computeRows clock day (next_line :: post))%list)
  /\ (next_line = "" ->
      printed (show_day fs clock verbose day)
      = (DayHeader day :: rows_before clock day pre (Some entry)
         ++ Row (padded ("~" ++ Number_toString
                             (Some (adjusted (now clock - valueOf startTime)))
                           ++ "h") 7)
                (padded project 16) (padded id 9) task
         :: computeRows clock day post)%list)
  /\ (strict_eq (nth_error (Js.split pipe next_line) 0) "break" = true ->
      next_line <> ""
      /\ computeRows clock day (next_line :: post) = computeRows clock day post).
Proof.
  intros Hfile Hlines Hall Hfields Hkind Hstart.
  assert (Hday : printed (show_day fs clock verbose day)
    = (DayHeader day :: rows_before clock day pre (Some entry)
       ++ printed (show_line clock day entry (Some next_line))
       ++ computeRows clock day (next_line :: post))%list).
  { rewrite (show_day_complete fs clock verbose day data Hfile Hall).
    rewrite Hlines. unfold computeRows. rewrite rows_before_app. reflexivity. }
  split; [|split].
  - intros stopTime Hnext Hstop.
    assert (Htruthy : Js.truthy (Some next_line) = true)
      by (destruct next_line; [contradiction | reflexivity]).
    rewrite Hday. f_equal. f_equal.
    rewrite (printed_row _ _ _ _ _ _ _ _ _ _ Hfields Hkind).
    rewrite end_time_closed, timestamp_label_closed by exact Htruthy.
    rewrite Hstart, Hstop. reflexivity.
  - intros ->. rewrite Hday. f_equal. f_equal.
    rewrite (printed_row _ _ _ _ _ _ _ _ _ _ Hfields Hkind).
    rewrite end_time_open, timestamp_label_open by reflexivity.
    rewrite Hstart. unfold computeRows. cbn [rows_before].
    rewrite printed_skip by (left; reflexivity). reflexivity.
  - intros Hbreak. split.
    + intros ->. discriminate Hbreak.
    + unfold computeRows. cbn [rows_before].
      rewrite printed_skip by (right; exact Hbreak). reflexivity.
Qed.

Lemma break_absorption_witness :
  printed (show_day sample_fs sample_clock false "2018-06-15")
  = [DayHeader "2018-06-15";
     Row "0.5h   " "proj            " "         " "A";
     Row "~50h   " "proj            " "         " "B"]
  /\ printed (show_day blank_line_fs sample_clock false "2018-06-15")
     = [DayHeader "2018-06-15";
        Row "~51h   " "proj            " "         " "A";
        Row "~50h   " "proj            " "         " "B"].
Proof.
  assert (Hall : Forall (fun line => complete line = true)
                   ["task|09:00:00|proj|A|"; "break|09:30:00";
                    "task|10:00:00|proj|B|"; ""]).
  { constructor; [reflexivity|]. constructor; [reflexivity|].
    constructor; [reflexivity|]. constructor; [reflexivity|]. constructor. }
  assert (Hblank : Forall (fun line => complete line = true)
                     ["task|09:00:00|proj|A|"; "";
                      "task|10:00:00|proj|B|"; ""]).
  { constructor; [reflexivity|]. constructor; [reflexivity|].
    constructor; [reflexivity|]. constructor; [reflexivity|]. constructor. }
  assert (Hkind : "task" <> "break") by discriminate.
  assert (Hnext : "break|09:30:00" <> "") by discriminate.
  split.
  - destruct (break_absorption sample_fs sample_clock false "2018-06-15"
                ("task|09:00:00|proj|A|" ++ EOL ++ "break|09:30:00" ++ EOL
                 ++ "task|10:00:00|proj|B|" ++ EOL)
                [] ["task|10:00:00|proj|B|"; ""]
                "task|09:00:00|proj|A|" "break|09:30:00"
                "task" "09:00:00" "proj" "A" "" []
                {| valueOf := 1529053200000; utcOffset := 0 |}
                eq_refl eq_refl Hall eq_refl Hkind eq_refl)
      as (Hclosed & _ & Hbreak).
    rewrite (Hclosed {| valueOf := 1529055000000; utcOffset := 0 |}
               Hnext eq_refl).
    rewrite (proj2 (Hbreak eq_refl)). reflexivity.
  - destruct (break_absorption blank_line_fs sample_clock false "2018-06-15"
                ("task|09:00:00|proj|A|" ++ EOL ++ EOL
                 ++ "task|10:00:00|proj|B|" ++ EOL)
                [] ["task|10:00:00|proj|B|"; ""]
                "task|09:00:00|proj|A|" ""
                "task" "09:00:00" "proj" "A" "" []
                {| valueOf := 1529053200000; utcOffset := 0 |}
                eq_refl eq_refl Hblank eq_refl Hkind eq_refl)
      as (_ & Hopen & _).
    rewrite (Hopen eq_refl). reflexivity.
Defined.

(** Against C3 as stated: with an empty line between the two tasks of
    2018-06-15, the first task, begun at 09:00:00, is not measured to the
    10:00:00 of the entry that follows (which would make one hour) but to
    the current time, 12:00:00 UTC of 2018-06-17, and is shown as an open
    task of 51 hours. *)
Lemma blank_line_counterexample :
  blank_line_fs "2018-06-15.txt"
  = Some ("task|09:00:00|proj|A|" ++ EOL ++ EOL
          ++ "task|10:00:00|proj|B|" ++ EOL)
  /\ printed (show_day blank_line_fs sample_clock false "2018-06-15")
     = [DayHeader "2018-06-15";
        Row "~51h   " "proj            " "         " "A";
        Row "~50h   " "proj            " "         " "B"]
  /\ entry_time "2018-06-15" "task|09:00:00|proj|A|"
     = Some {| valueOf := 1529053200000; utcOffset := 0 |}
  /\ entry_time "2018-06-15" "task|10:00:00|proj|B|"
     = Some {| valueOf := 1529056800000; utcOffset := 0 |}
  /\ padded (Number_toString
               (Some (adjusted (1529056800000 - 1529053200000))) ++ "h") 7
     = "1h     ".
Proof. repeat split; reflexivity. Qed.

(** C4 (as amended).  When the start token matches the date pattern and
    names a day that exists in the calendar, [resolveDays] returns exactly
    that day if the end token does not match the pattern; and if the end
    token matches the pattern, names a day that exists and is not before
    the start, it returns the keys of the consecutive days from the first
    date to the second, both included, in ascending order: the first key is
    the start token, the last is the end token, and each key is that of the
    day after the one before it. *)
Theorem resolveDays_explicit_range (clock : Clock) (s1 : string) (m1 : Moment) :
  dateFormat_test s1 = true ->
  moment.utc_of_string s1 = Some m1 ->
  (forall endArg,
     RegExp_test dateFormat endArg = false ->
     resolveDays clock (Some s1) endArg = [s1])
  /\ (forall s2 m2,
        dateFormat_test s2 = true ->
        moment.utc_of_string s2 = Some m2 ->
        valueOf m1 <= valueOf m2 ->
        resolveDays clock (Some s1) (Some s2)
        = map day_key
            (day_numbers (utc_day m1)
                         (S (Z.to_nat (utc_day m2 - utc_day m1))))
        /\ day_key (utc_day m1) = s1
        /\ day_key (utc_day m2) = s2
        /\ utc_day m1 <= utc_day m2).
Proof.
  intros Ht1 Hp1. split.
  - intros endArg Hend. now apply resolveDays_single_date with (m1 := m1).
  - intros s2 m2 Ht2 Hp2 Hle.
    apply (utc_day_monotone s1 s2 m1 m2 Ht1 Hp1 Ht2 Hp2) in Hle.
    rewrite (resolveDays_dates clock s1 s2 m1 m2 Ht1 Hp1 Ht2 Hp2).
    replace (Z.abs (utc_day m1 - utc_day m2)) with (utc_day m2 - utc_day m1)
      by lia.
    repeat split.
    + now apply MomentFacts.day_key_of_date_string.
    + now apply MomentFacts.day_key_of_date_string.
    + exact Hle.
Qed.

Lemma resolveDays_explicit_range_witness :
  resolveDays sample_clock (Some "2018-06-15") (Some "2018-06-17")
  = ["2018-06-15"; "2018-06-16"; "2018-06-17"]
  /\ resolveDays sample_clock (Some "2018-06-15") None = ["2018-06-15"].
Proof.
  destruct (resolveDays_explicit_range sample_clock "2018-06-15"
              {| valueOf := 1529020800000; utcOffset := 0 |} eq_refl eq_refl)
    as [Hsingle Hrange].
  split.
  - destruct (Hrange "2018-06-17"
                {| valueOf := 1529193600000; utcOffset := 0 |}
                eq_refl eq_refl) as (Hdays & _).
    + vm_compute. discriminate.
    + rewrite Hdays. reflexivity.
  - exact (Hsingle None eq_refl).
Defined.

(** Against C4 as stated: a token can match the pattern and name no day.
    With the start token [2018-02-30] the result is not that single day but
    no day at all, with or without an end token; and with the end token
    [2018-06-31] the range from 2018-06-15 is empty as well. *)
Lemma pattern_without_date_counterexample :
  dateFormat_test "2018-02-30" = true
  /\ dateFormat_test "2018-06-31" = true
  /\ moment.utc_of_string "2018-02-30" = None
  /\ moment.utc_of_string "2018-06-31" = None
  /\ resolveDays sample_clock (Some "2018-02-30") None = []
  /\ resolveDays sample_clock (Some "2018-02-30") (Some "2018-03-02") = []
  /\ resolveDays sample_clock (Some "2018-06-15") (Some "2018-06-31") = [].
Proof. repeat split; reflexivity. Qed.

(** C5 (as amended).  When both tokens are explicit dates and the end date
    is strictly before the start date, [resolveDays] does not fail and does
    not collapse the range: it returns the start day and the days after it,
    as many of them as there are days from the end date to the start date,
    so at least two keys, the first of which is the start token. *)
Theorem resolveDays_reversed_range (clock : Clock) (s1 s2 : string)
  (m1 m2 : Moment) :
  dateFormat_test s1 = true ->
  moment.utc_of_string s1 = Some m1 ->
  dateFormat_test s2 = true ->
  moment.utc_of_string s2 = Some m2 ->
  valueOf m2 < valueOf m1 ->
  resolveDays clock (Some s1) (Some s2)
  = map day_key
      (day_numbers (utc_day m1) (S (Z.to_nat (utc_day m1 - utc_day m2))))
  /\ hd_error (resolveDays clock (Some s1) (Some s2)) = Some s1
  /\ (2 <= List.length (resolveDays clock (Some s1) (Some s2)))%nat
  /\ utc_day m2 < utc_day m1.
Proof.
  intros Ht1 Hp1 Ht2 Hp2 Hlt.
  assert (Hdays : utc_day m2 < utc_day m1).
  { pose proof (utc_day_monotone s1 s2 m1 m2 Ht1 Hp1 Ht2 Hp2). lia. }
  rewrite (resolveDays_dates clock s1 s2 m1 m2 Ht1 Hp1 Ht2 Hp2).
  replace (Z.abs (utc_day m1 - utc_day m2)) with (utc_day m1 - utc_day m2)
    by lia.
  repeat split.
  - cbn [day_numbers seq map hd_error]. rewrite Z.add_0_r.
    now rewrite (MomentFacts.day_key_of_date_string s1 m1 Ht1 Hp1).
  - rewrite length_map. unfold day_numbers. rewrite length_map, length_seq. lia.
  - exact Hdays.
Qed.

Lemma resolveDays_reversed_range_witness :
  resolveDays sample_clock (Some "2018-06-17") (Some "2018-06-15")
  = ["2018-06-17"; "2018-06-18"; "2018-06-19"].
Proof.
  assert (Hlt : 1529020800000 < 1529193600000) by reflexivity.
  destruct (resolveDays_reversed_range sample_clock "2018-06-17" "2018-06-15"
              {| valueOf := 1529193600000; utcOffset := 0 |}
              {| valueOf := 1529020800000; utcOffset := 0 |}
              eq_refl eq_refl eq_refl eq_refl Hlt) as (Hdays & _).
  rewrite Hdays. reflexivity.
Defined.

(** Against C5 as stated: with the end date two days before the start
    date, the range is not the start day alone; it runs two days on from
    the start day. *)
Lemma reversed_range_counterexample :
  resolveDays sample_clock (Some "2018-06-17") (Some "2018-06-15")
  = ["2018-06-17"; "2018-06-18"; "2018-06-19"]
  /\ resolveDays sample_clock (Some "2018-06-17") (Some "2018-06-15")
     <> ["2018-06-17"].
Proof. split; [reflexivity | vm_compute; discriminate]. Qed.

(** C6 (as amended).  The [show] action compares the kind field with the
    literal ["break"] only.  An empty line and a line whose first field is
    ["break"] print no row; every other line with at least five fields
    prints exactly one row, whatever its first field is, so a kind that is
    neither ["task"] nor ["break"] is not rejected.  In a day file whose
    lines are all of these forms every line is handled, in order, and no
    line keeps the lines after it from being handled. *)
Theorem only_break_is_skipped (fs : FileSystem) (clock : Clock)
  (verbose : bool) (day data : string) :
  fs (day ++ ".txt") = Some data ->
  Forall (fun line => complete line = true) (Js.split EOL_char data) ->
  printed (show_day fs clock verbose day)
  = DayHeader day :: computeRows clock day (Js.split EOL_char data)
  /\ (forall entry nextEntry,
        Js.truthy (Some entry) = false
        \/ strict_eq (nth_error (Js.split pipe entry) 0) "break" = true ->
        show_line clock day entry nextEntry [] = (Returned tt, []))
  /\ (forall entry nextEntry kind time project task id rest,
        Js.split pipe entry = kind :: time :: project :: task :: id :: rest ->
        kind <> "break" ->
        exists label,
          show_line clock day entry nextEntry []
          = (Returned tt,
             [Row (padded label 7) (padded project 16) (padded id 9) task])).
Proof.
  intros Hfile Hall. split; [|split].
  - exact (show_day_complete fs clock verbose day data Hfile Hall).
  - intros entry nextEntry H. now apply show_line_skip.
  - intros entry nextEntry kind time project task id rest Hfields Hkind.
    eexists. rewrite (show_line_row _ _ _ _ _ _ _ _ _ _ _ Hfields Hkind).
    reflexivity.
Qed.

Lemma only_break_is_skipped_witness :
  printed (show_day notes_fs sample_clock false "2018-06-14")
  = [DayHeader "2018-06-14";
     Row "0.5h   " "proj            " "         " "A";
     Row "1h     " "x               " "z        " "y";
     Row "1h     " "proj            " "         " "B"].
Proof.
  assert (Hall : Forall (fun line => complete line = true)
                   ["task|09:00:00|proj|A|"; "note|09:17:00|x|y|z";
                    "task|10:03:00|proj|B|"; "break|11:00:00"; ""])
    by (repeat constructor).
  destruct (only_break_is_skipped notes_fs sample_clock false "2018-06-14"
              ("task|09:00:00|proj|A|" ++ EOL ++ "note|09:17:00|x|y|z" ++ EOL
               ++ "task|10:03:00|proj|B|" ++ EOL ++ "break|11:00:00" ++ EOL)
              eq_refl Hall) as (Hrows & _ & _).
  rewrite Hrows. reflexivity.
Defined.

(** Against C6 as stated: the line [note|09:17:00|x|y|z], whose kind is
    neither ["task"] nor ["break"], is not skipped; it is shown as a task
    of one hour for project [x]. *)
Lemma unknown_kind_counterexample :
  nth_error (Js.split pipe "note|09:17:00|x|y|z") 0 = Some "note"
  /\ show_line sample_clock "2018-06-14" "note|09:17:00|x|y|z"
       (Some "task|10:03:00|proj|B|") []
     = (Returned tt, [Row "1h     " "x               " "z        " "y"])
  /\ show_output notes_fs sample_clock (Some "2018-06-14") None false
     = [TableHeader; DayHeader "2018-06-14";
        Row "0.5h   " "proj            " "         " "A";
        Row "1h     " "x               " "z        " "y";
        Row "1h     " "proj            " "         " "B"].
Proof. repeat split; reflexivity. Qed.

(** C7 (as amended).  A run of [show] never fails: it prints the table
    header and then, day by day in the order of the resolved range, what
    that day's turn prints, and what one day prints does not depend on the
    other days.  A day whose file cannot be read prints its header line
    (and the error when verbose) and no row, and the next day is handled
    as usual. *)
Theorem missing_day_prints_header_only (fs : FileSystem) (clock : Clock)
  (startArg endArg : option string) (verbose : bool) :
  show fs clock startArg endArg verbose []
  = (Returned tt,
     TableHeader ::
       flat_map (fun day => printed (show_day fs clock verbose day))
                (resolveDays clock startArg endArg))
  /\ (forall day,
        fs (day ++ ".txt") = None ->
        printed (show_day fs clock verbose day)
        = DayHeader day ::
            (if verbose then [ErrorReport (ReadError (day ++ ".txt"))]
             else []))
  /\ (forall day out,
        show_day fs clock verbose day out
        = (Returned tt, (out ++ printed (show_day fs clock verbose day))%list)).
Proof.
  split; [apply show_run|]. split.
  - intros day H. now apply show_day_missing.
  - intros day out. apply show_day_run.
Qed.

Lemma missing_day_prints_header_only_witness :
  sample_fs "2018-06-16.txt" = None
  /\ show_output sample_fs sample_clock (Some "2018-06-15") (Some "2018-06-17")
       false
     = [TableHeader;
        DayHeader "2018-06-15";
        Row "0.5h   " "proj            " "         " "A";
        Row "~50h   " "proj            " "         " "B";
        DayHeader "2018-06-16";
        DayHeader "2018-06-17";
        Row "~3h    " "other           " "true     " "C"].
Proof.
  split; [reflexivity|].
  destruct (missing_day_prints_header_only sample_fs sample_clock
              (Some "2018-06-15") (Some "2018-06-17") false)
    as (Hshow & Hmissing & _).
  unfold show_output. rewrite Hshow. cbn [snd].
  change (resolveDays sample_clock (Some "2018-06-15") (Some "2018-06-17"))
    with ["2018-06-15"; "2018-06-16"; "2018-06-17"].
  cbn [flat_map].
  rewrite (Hmissing "2018-06-16" eq_refl). reflexivity.
Defined.

(** Against C7 as stated: with no file for 2018-06-16, that day is not
    left out of what [show] prints for 2018-06-15 to 2018-06-17: its header
    line is printed between the rows of the days around it. *)
Lemma missing_day_counterexample :
  sample_fs "2018-06-16.txt" = None
  /\ In (DayHeader "2018-06-16")
        (show_output sample_fs sample_clock (Some "2018-06-15")
           (Some "2018-06-17") false)
  /\ show_output sample_fs sample_clock (Some "2018-06-15") (Some "2018-06-17")
       false
     <> [TableHeader;
         DayHeader "2018-06-15";
         Row "0.5h   " "proj            " "         " "A";
         Row "~50h   " "proj            " "         " "B";
         DayHeader "2018-06-17";
         Row "~3h    " "other           " "true     " "C"].
Proof.
  split; [reflexivity|]. split.
  - vm_compute. tauto.
  - vm_compute. discriminate.
Qed.

(** C8.  A task line written by the [task] action, whose project, label and
    id hold no separator, splits back into its five fields: the kind
    ["task"], the time, the project, the label and the id as [join] wrote it
    (the id itself when it is a string); and the time field, read on any
    valid day key as the [show] action reads it, is the time of day of the
    entry to the second. *)
Theorem task_line_round_trip (time : Moment) (projectArg taskArg : string)
  (id : Js.value) (day : string) (d0 : Moment) :
  Js.contains pipe projectArg = false ->
  Js.contains pipe taskArg = false ->
  Js.contains pipe (Js.join_element id) = false ->
  dateFormat_test day = true ->
  moment.utc_of_string day = Some d0 ->
  let line := task_line time projectArg taskArg id in
  Js.split pipe line
  = ["task"; moment.format_HH_mm_ss (moment.utc time); projectArg; taskArg;
     Js.join_element id]
  /\ (forall s, id = Js.Str s -> nth_error (Js.split pipe line) 4 = Some s)
  /\ strict_eq (nth_error (Js.split pipe line) 0) "break" = false
  /\ entry_time day line
     = Some {| valueOf := valueOf d0
                 + 1000 * (Calendar.TimeWithinDay (valueOf time) / 1000);
               utcOffset := 0 |}.
Proof.
  intros Hp Ht Hi Hday Hd0 line.
  assert (Hsplit : Js.split pipe line
    = ["task"; moment.format_HH_mm_ss (moment.utc time); projectArg; taskArg;
       Js.join_element id]).
  { unfold line, task_line, Js.array_join. cbn [map Js.join_element].
    apply (split_join pipe); [discriminate|].
    repeat constructor; try assumption.
    apply TimeFacts.format_time_no_pipe. }
  split; [exact Hsplit|]. split; [|split].
  - intros s ->. rewrite Hsplit. reflexivity.
  - rewrite Hsplit. reflexivity.
  - apply TimeFacts.entry_time_written with (time := time); try assumption.
    rewrite Hsplit. reflexivity.
Qed.

Lemma task_line_round_trip_witness :
  task_line sample_time "another-day" "write the parser" (Js.Str "4711")
  = "task|10:01:01|another-day|write the parser|4711"
  /\ Js.split pipe
       (task_line sample_time "another-day" "write the parser" (Js.Str "4711"))
     = ["task"; "10:01:01"; "another-day"; "write the parser"; "4711"]
  /\ entry_time "2018-06-15"
       (task_line sample_time "another-day" "write the parser" (Js.Str "4711"))
     = Some {| valueOf := 1529056861000; utcOffset := 0 |}.
Proof.
  destruct (task_line_round_trip sample_time "another-day" "write the parser"
              (Js.Str "4711") "2018-06-15"
              {| valueOf := 1529020800000; utcOffset := 0 |}
              eq_refl eq_refl eq_refl eq_refl eq_refl) as (Hs & _ & _ & He).
  split; [reflexivity | split; [exact Hs | exact He]].
Defined.

(** C9.  For every element list, once the iteration protocol has reported
    done the cursor of the Iterator is back at index 0: [next] on a cursor
    past the last element answers done and resets it; a whole [for ... of]
    pass over a fresh iterator yields the elements and leaves an iterator
    whose [peek] is the first element and whose next pass yields the same
    elements again. *)
Theorem iterator_rewinds_after_done (elts : list string) :
  (forall i, (List.length elts <= i)%nat ->
     next {| elements := elts; index := i |} = (Done, Iterator_new elts))
  /\ exists after,
       drain (S (List.length elts)) (Iterator_new elts) [] = Some (elts, after)
       /\ index after = 0%nat
       /\ peek after = nth_error elts 0
       /\ drain (S (List.length elts)) after [] = Some (elts, after).
Proof.
  split.
  - intros i Hi. now rewrite next_exhausted.
  - exists (Iterator_new elts).
    assert (D : drain (S (List.length elts)) (Iterator_new elts) []
                = Some (elts, Iterator_new elts)).
    { apply (drain_from elts elts [] []); [reflexivity | lia]. }
    repeat split; try exact D; reflexivity.
Qed.

Lemma iterator_rewinds_after_done_witness :
  next {| elements := ["a"; "b"]; index := 2 |}
  = (Done, Iterator_new ["a"; "b"])
  /\ drain 3 (Iterator_new ["a"; "b"]) [] = Some (["a"; "b"], Iterator_new ["a"; "b"])
  /\ peek (Iterator_new ["a"; "b"]) = Some "a".
Proof.
  destruct (iterator_rewinds_after_done ["a"; "b"]) as [Hnext _].
  split; [apply Hnext; simpl; lia | split; reflexivity].
Defined.

(** *** The command line of the [task] command *)

Module CommanderFacts.
Import Commander.

Lemma plain_word_not_option word :
  plain_word word ->
  String.eqb word "--" = false
  /\ looks_like_option word = false
  /\ may_be_value word = true
  /\ taskOptionFor word = None
  /\ normalize [word] = [word].
Proof.
  destruct word as [|c word]; [intros _; repeat split|].
  destruct c as [[] [] [] [] [] [] [] []]; intros H;
    try (exfalso; exact H); repeat split.
Qed.

Lemma normalize_plain word rest :
  plain_word word -> normalize (word :: rest) = word :: normalize rest.
Proof.
  destruct word as [|c word]; [reflexivity|].
  destruct c as [[] [] [] [] [] [] [] []]; intros H;
    try (exfalso; exact H); reflexivity.
Qed.

Lemma parse_plain optionFor word rest :
  plain_word word -> optionFor word = None ->
  parseOptions optionFor false (word :: rest)
  = add_arg word (parseOptions optionFor false rest).
Proof.
  intros H Hopt. destruct (plain_word_not_option word H) as (H1 & H2 & _).
  cbn [parseOptions]. now rewrite H1, Hopt, H2.
Qed.

Lemma parse_unknown_with_word optionFor flag word rest :
  optionFor flag = None -> String.eqb flag "--" = false ->
  looks_like_option flag = true -> plain_word word ->
  parseOptions optionFor false (flag :: word :: rest)
  = add_unknown [flag; word] (parseOptions optionFor false rest).
Proof.
  intros Hopt Hflag Hlooks H.
  destruct (plain_word_not_option word H) as (_ & _ & H3 & _).
  cbn [parseOptions]. now rewrite Hflag, Hopt, Hlooks, H3.
Qed.

(** The [id] property is never a text. *)
Lemma id_after_options events : forall o,
  id o = Js.Undefined \/ id o = Js.Bool true ->
  id (fold_left set_option events o) = Js.Undefined
  \/ id (fold_left set_option events o) = Js.Bool true.
Proof.
  induction events as [|[opt val] events IH]; intros o Ho; [exact Ho|].
  cbn [fold_left]. apply IH.
  destruct opt; [exact Ho | destruct val; exact Ho | right; reflexivity].
Qed.

Lemma task_call_id argv call :
  task_call argv = Some call ->
  id (call_options call) = cmd_id (call_cmd call).
Proof.
  unfold task_call, task_listener.
  destruct (parsed_args (parseOptions programOptionFor false (normalize argv)))
    as [|name args]; [discriminate|].
  destruct (String.eqb name "task" || String.eqb name "t"); [|discriminate].
  destruct (parsed_unknown (parseOptions taskOptionFor false _));
    [|discriminate].
  destruct (parsed_args (parseOptions taskOptionFor false _) ++ args)%list
    as [|projectArg [|taskArg others]]; try discriminate.
  intros Hcall.
  apply (f_equal (fun c => match c with Some c => c | None => call end)) in Hcall.
  subst call. unfold cmd_id, call_cmd. cbn [call_options task_id_given].
  destruct (id_after_options
              (parsed_options
                 (parseOptions taskOptionFor false
                    (parsed_unknown
                       (parseOptions programOptionFor false (normalize argv)))))
              no_options (or_introl eq_refl)) as [-> | ->]; reflexivity.
Qed.

End CommanderFacts.

(** C10 (as amended).  Whatever words the [task] command is called with,
    the line its action appends is the four fields kind, time, project and
    label joined with a fifth field that is the empty string when [--id] is
    not given and the text ["true"] when it is: commander leaves [cmd.id]
    undefined or [true], never a text, and the day file ends with that line
    and the line terminator.  Splitting the line gives that fifth field
    back when the project and the label hold no separator.  [--id] takes
    no value, so a text typed after it is not the id; but it is written to
    the log all the same: it is taken for the first of the command's
    words, so [task --id <typed> <project> <label>] appends a line whose
    project is the typed text and whose label is the project. *)
Theorem task_id_field (time : Moment) (fs : FileSystem) :
  (forall argv call,
     Commander.task_call argv = Some call ->
     let projectArg := Commander.call_project call in
     let taskArg := Commander.call_task call in
     let cmd := Commander.call_cmd call in
     let id_field := if task_id_given cmd then "true" else "" in
     let line :=
       Js.join "|" ["task"; moment.format_HH_mm_ss (moment.utc time);
                    projectArg; taskArg; id_field] in
     Commander.id (Commander.call_options call) = cmd_id cmd
     /\ task_line time projectArg taskArg (cmd_id cmd) = line
     /\ task_action time projectArg taskArg cmd fs
          (moment.format_YYYY_MM_DD time ++ ".txt")
        = Some (match fs (moment.format_YYYY_MM_DD time ++ ".txt") with
                | Some data => data ++ line ++ EOL
                | None => line ++ EOL
                end)
     /\ (Js.contains pipe projectArg = false ->
         Js.contains pipe taskArg = false ->
         nth_error (Js.split pipe line) 4 = Some id_field))
  /\ (forall project task,
        Commander.plain_word project -> Commander.plain_word task ->
        Commander.task_call ["task"; project; task]
        = Some (Commander.mkTaskCall project task
                  (Commander.mkOptions Js.Undefined Js.Undefined Js.Undefined))
        /\ Commander.task_call ["task"; project; task; "--id"]
           = Some (Commander.mkTaskCall project task
                     (Commander.mkOptions Js.Undefined Js.Undefined
                        (Js.Bool true))))
  /\ (forall typed project task,
        Commander.plain_word typed -> Commander.plain_word project ->
        Commander.plain_word task ->
        Commander.task_call ["task"; "--id"; typed; project; task]
        = Some (Commander.mkTaskCall typed project
                  (Commander.mkOptions Js.Undefined Js.Undefined
                     (Js.Bool true)))
        /\ task_line time typed project (Js.Bool true)
           = Js.join "|" ["task"; moment.format_HH_mm_ss (moment.utc time);
                          typed; project; "true"]).
Proof.
  split; [|split].
  - intros argv call Hcall projectArg taskArg cmd id_field line.
    assert (Hline : task_line time projectArg taskArg (cmd_id cmd) = line).
    { unfold line, id_field, task_line, cmd_id, Js.array_join.
      destruct (task_id_given cmd); reflexivity. }
    split; [exact (CommanderFacts.task_call_id argv call Hcall)|].
    split; [exact Hline|]. split.
    + unfold task_action, writeFile. rewrite String.eqb_refl, Hline.
      reflexivity.
    + intros Hp Ht.
      assert (Hsplit : Js.split pipe line
        = ["task"; moment.format_HH_mm_ss (moment.utc time); projectArg;
           taskArg; id_field]).
      { unfold line. apply (split_join pipe); [discriminate|].
        repeat constructor; try assumption.
        - apply TimeFacts.format_time_no_pipe.
        - unfold id_field. destruct (task_id_given cmd); reflexivity. }
      rewrite Hsplit. reflexivity.
  - intros project task Hproject Htask.
    assert (Hword : Commander.plain_word "task") by exact I.
    unfold Commander.task_call. split.
    + rewrite !CommanderFacts.normalize_plain by assumption.
      rewrite !CommanderFacts.parse_plain by (assumption || reflexivity).
      reflexivity.
    + rewrite !CommanderFacts.normalize_plain by assumption.
      rewrite !CommanderFacts.parse_plain by (assumption || reflexivity).
      reflexivity.
  - intros typed project task Htyped Hproject Htask.
    assert (Hword : Commander.plain_word "task") by exact I.
    split; [|reflexivity].
    unfold Commander.task_call.
    rewrite (CommanderFacts.normalize_plain "task") by assumption.
    change (Commander.normalize ("--id" :: typed :: project :: task :: nil))
      with ("--id" :: Commander.normalize (typed :: project :: task :: nil)).
    rewrite !CommanderFacts.normalize_plain by assumption.
    rewrite (CommanderFacts.parse_plain _ "task") by (assumption || reflexivity).
    rewrite (CommanderFacts.parse_unknown_with_word _ "--id" typed)
      by (assumption || reflexivity).
    rewrite !CommanderFacts.parse_plain by (assumption || reflexivity).
    cbn [Commander.normalize Commander.parseOptions Commander.add_arg
         Commander.add_unknown Commander.parsed_args Commander.parsed_unknown
         app String.eqb Ascii.eqb Bool.eqb orb].
    unfold Commander.task_listener.
    change (Commander.parseOptions Commander.taskOptionFor false
              ["--id"; typed])
      with (Commander.add_option Commander.opt_id None
              (Commander.parseOptions Commander.taskOptionFor false [typed])).
    destruct (CommanderFacts.plain_word_not_option typed Htyped)
      as (_ & _ & _ & Hnone & _).
    rewrite (CommanderFacts.parse_plain Commander.taskOptionFor typed nil
               Htyped Hnone).
    reflexivity.
Qed.

Lemma task_id_field_witness :
  task_line sample_time "proj" "label" (Js.Bool true)
  = "task|10:01:01|proj|label|true"
  /\ nth_error (Js.split pipe "task|10:01:01|proj|label|true") 4 = Some "true"
  /\ Commander.task_call ["task"; "--id"; "4711"; "proj"; "label"]
     = Some (Commander.mkTaskCall "4711" "proj"
               (Commander.mkOptions Js.Undefined Js.Undefined (Js.Bool true))).
Proof.
  destruct (task_id_field sample_time (fun _ => None)) as (Hany & _ & Htyped).
  destruct (Hany ["task"; "proj"; "label"; "--id"]
              (Commander.mkTaskCall "proj" "label"
                 (Commander.mkOptions Js.Undefined Js.Undefined (Js.Bool true)))
              eq_refl) as (_ & Hline & _ & Hfifth).
  split; [exact Hline|]. split; [exact (Hfifth eq_refl eq_refl)|].
  exact (proj1 (Htyped "4711" "proj" "label" I I I)).
Defined.

(** Against C10 as stated: [task --id 4711 proj label].  The flag takes no
    value, so commander hands the typed [4711] to the action as the project
    and [proj] as the label, and the line appended to the day file holds
    the typed text in its third field. *)
Lemma typed_id_counterexample :
  Commander.task_call ["task"; "--id"; "4711"; "proj"; "label"]
  = Some (Commander.mkTaskCall "4711" "proj"
            (Commander.mkOptions Js.Undefined Js.Undefined (Js.Bool true)))
  /\ task_line sample_time "4711" "proj"
       (cmd_id {| task_verbose := false; task_id_given := true |})
     = "task|10:01:01|4711|proj|true"
  /\ task_action sample_time "4711" "proj"
       {| task_verbose := false; task_id_given := true |} (fun _ => None)
       "2018-06-15.txt"
     = Some ("task|10:01:01|4711|proj|true" ++ EOL)
  /\ nth_error (Js.split pipe "task|10:01:01|4711|proj|true") 2 = Some "4711".
Proof. repeat split; reflexivity. Qed.

(** * Further properties *)

Module CivilFacts.
Import Calendar CalendarFacts.

Lemma YearFromDay_bounds n :
  DayFromYear (YearFromDay n) <= n < DayFromYear (YearFromDay n + 1).
Proof.
  unfold YearFromDay.
  set (g := 1970 + n * 400 / 146097).
  assert (Hlo : DayFromYear (g - 1) <= n).
  { unfold g, DayFromYear. Z.div_mod_to_equations. lia. }
  assert (Hhi : n < DayFromYear (g + 2)).
  { unfold g, DayFromYear. Z.div_mod_to_equations. lia. }
  destruct (Z.ltb_spec n (DayFromYear g)).
  - replace (g - 1 + 1) with g by lia. lia.
  - destruct (Z.leb_spec (DayFromYear (g + 1)) n).
    + replace (g + 1 + 1) with (g + 2) by lia. lia.
    + lia.
Qed.

Lemma DayWithinYear_bounds n :
  0 <= DayWithinYear n < DaysInYear (YearFromDay n).
Proof.
  unfold DayWithinYear. pose proof (YearFromDay_bounds n) as H.
  rewrite DayFromYear_step in H. lia.
Qed.

Lemma civil_of_day n :
  0 <= MonthFromDay n <= 11
  /\ 1 <= DateFromDay n <= daysInMonth (YearFromDay n) (MonthFromDay n)
  /\ MakeDay (YearFromDay n) (MonthFromDay n) (DateFromDay n) = n.
Proof.
  pose proof (DayWithinYear_bounds n) as Hd.
  unfold MakeDay, DateFromDay, MonthFromDay, daysInMonth in *.
  unfold DaysInYear in Hd.
  set (d := DayWithinYear n) in *.
  assert (Hn : n = DayFromYear (YearFromDay n) + d) by (unfold d, DayWithinYear; lia).
  destruct (isLeapYear (YearFromDay n)); cbn [monthStart];
    repeat match goal with
           | |- context [?a <? ?b] => destruct (Z.ltb_spec a b)
           end; cbn; lia.
Qed.

End CivilFacts.

Module KeyFacts.
Import Calendar Text CalendarFacts TextFacts MomentFacts TimeFacts CivilFacts.

Lemma format_is_day_key m :
  moment.format_YYYY_MM_DD m = day_key (Day (moment.fieldTime m)).
Proof.
  unfold day_key, moment.format_YYYY_MM_DD, moment.fieldTime.
  cbn [valueOf utcOffset].
  replace (Day (Day (valueOf m + utcOffset m * 60000) * msPerDay + 0 * 60000))
    with (Day (valueOf m + utcOffset m * 60000)); [reflexivity|].
  unfold Day, msPerDay. Z.div_mod_to_equations. lia.
Qed.

Lemma Day_add_days m i :
  Day (moment.fieldTime (moment.add_days m i)) = Day (moment.fieldTime m) + i.
Proof.
  unfold moment.add_days, moment.fieldTime, Day, msPerDay.
  cbn [valueOf utcOffset]. Z.div_mod_to_equations. lia.
Qed.

(** The keys of a walk by days are those of consecutive days from the day
    of the start. *)
Lemma by_days_keys s e :
  map moment.format_YYYY_MM_DD (moment.by_days (moment.range (Some s) (Some e)))
  = map day_key
      (day_numbers (Day (moment.fieldTime s))
         (S (Z.to_nat (Z.abs (Z.quot (valueOf s - valueOf e
                                      - (utcOffset e - utcOffset s) * 60000)
                                     msPerDay))))).
Proof.
  unfold moment.by_days, moment.range, moment.diff_days.
  cbn [moment.range_start moment.range_end].
  unfold day_numbers. rewrite !map_map. apply map_ext. intros i.
  now rewrite format_is_day_key, Day_add_days.
Qed.

Lemma by_days_single s :
  map moment.format_YYYY_MM_DD (moment.by_days (moment.range (Some s) (Some s)))
  = [day_key (Day (moment.fieldTime s))].
Proof.
  rewrite by_days_keys.
  replace (valueOf s - valueOf s - (utcOffset s - utcOffset s) * 60000)
    with 0 by lia.
  cbn [Z.quot Z.abs Z.to_nat day_numbers seq map]. now rewrite Z.add_0_r.
Qed.

Lemma day_text n :
  0 <= YearFromDay n < 10000 ->
  day_key n = date_text (YearFromDay n) (MonthFromDay n) (DateFromDay n)
  /\ valid_date (YearFromDay n) (MonthFromDay n) (DateFromDay n).
Proof.
  intros Hy. destruct (civil_of_day n) as (Hm & Hd & Hn).
  assert (Hv : valid_date (YearFromDay n) (MonthFromDay n) (DateFromDay n))
    by (repeat split; lia).
  split; [|exact Hv].
  unfold day_key. rewrite <- Hn at 1.
  rewrite <- (Z.add_0_r (MakeDay _ _ _ * msPerDay)).
  apply format_date; [exact Hv | unfold msPerDay; lia].
Qed.

Lemma utc_of_date_text y mo d :
  valid_date y mo d ->
  dateFormat_test (date_text y mo d) = true
  /\ moment.utc_of_string (date_text y mo d)
     = Some {| valueOf := MakeDay y mo d * msPerDay; utcOffset := 0 |}.
Proof.
  intros (Hy & Hm & Hd).
  assert (Hd' : d <= 31).
  { unfold daysInMonth in Hd. destruct (mo =? 1); [destruct (isLeapYear y); lia|].
    Z.div_mod_to_equations. lia. }
  assert (D1 : 0 <= y / 1000 <= 9) by (Z.div_mod_to_equations; lia).
  assert (D2 : 0 <= (y / 100) mod 10 <= 9) by (Z.div_mod_to_equations; lia).
  assert (D3 : 0 <= (y / 10) mod 10 <= 9) by (Z.div_mod_to_equations; lia).
  assert (D4 : 0 <= y mod 10 <= 9) by (Z.div_mod_to_equations; lia).
  assert (D5 : 0 <= (mo + 1) / 10 <= 9) by (Z.div_mod_to_equations; lia).
  assert (D6 : 0 <= (mo + 1) mod 10 <= 9) by (Z.div_mod_to_equations; lia).
  assert (D7 : 0 <= d / 10 <= 9) by (Z.div_mod_to_equations; lia).
  assert (D8 : 0 <= d mod 10 <= 9) by (Z.div_mod_to_equations; lia).
  split.
  - unfold dateFormat_test, date_text, four_chars, two_chars.
    cbn [append list_ascii_of_string].
    rewrite (proj1 (char_of_digit _ D1)), (proj1 (char_of_digit _ D2)),
      (proj1 (char_of_digit _ D3)), (proj1 (char_of_digit _ D4)),
      (proj1 (char_of_digit _ D5)), (proj1 (char_of_digit _ D6)),
      (proj1 (char_of_digit _ D7)), (proj1 (char_of_digit _ D8)).
    reflexivity.
  - unfold moment.utc_of_string, date_text, four_chars, two_chars.
    cbn [append list_ascii_of_string].
    unfold moment.date_fields, moment.time_fields.
    cbn [Ascii.eqb Bool.eqb andb].
    rewrite four_digits_of_chars by lia.
    rewrite !two_digits_of_chars by lia.
    replace (mo + 1 - 1) with mo by lia.
    destruct (Z.leb_spec 0 mo); [|lia].
    destruct (Z.leb_spec mo 11); [|lia].
    destruct (Z.leb_spec 1 d); [|lia].
    destruct (Z.leb_spec d (daysInMonth y mo)); [|lia].
    cbn [andb]. now rewrite Z.add_0_r.
Qed.

Lemma day_key_parses n :
  0 <= YearFromDay n < 10000 ->
  dateFormat_test (day_key n) = true
  /\ moment.utc_of_string (day_key n)
     = Some {| valueOf := n * msPerDay; utcOffset := 0 |}.
Proof.
  intros Hy. destruct (day_text n Hy) as [-> Hv].
  destruct (utc_of_date_text _ _ _ Hv) as [Ht Hp].
  destruct (civil_of_day n) as (_ & _ & Hn).
  rewrite Hn in Hp. now split.
Qed.

Lemma DayFromYear_monotone a b : a <= b -> DayFromYear a <= DayFromYear b.
Proof. unfold DayFromYear. intros H. Z.div_mod_to_equations. lia. Qed.

Lemma YearFromDay_monotone a b : a <= b -> YearFromDay a <= YearFromDay b.
Proof.
  intros H. pose proof (YearFromDay_bounds a) as Ha.
  pose proof (YearFromDay_bounds b) as Hb.
  destruct (Z.le_gt_cases (YearFromDay a) (YearFromDay b)) as [|Hgt]; [assumption|].
  pose proof (DayFromYear_monotone (YearFromDay b + 1) (YearFromDay a)). lia.
Qed.

End KeyFacts.

(** *** The keyword resolvers *)

Lemma offset_within_day v : 
  0 <= v - Calendar.Day v * Calendar.msPerDay < Calendar.msPerDay.
Proof. unfold Calendar.Day, Calendar.msPerDay. Z.div_mod_to_equations. lia. Qed.

Lemma quot_back_days k t :
  0 <= k -> 0 <= t < Calendar.msPerDay ->
  Z.abs (Z.quot (- (k * Calendar.msPerDay + t)) Calendar.msPerDay) = k.
Proof.
  intros Hk Ht. rewrite Z.quot_opp_l by (unfold Calendar.msPerDay; lia).
  rewrite Z.abs_opp, Z.abs_eq.
  - rewrite Z.quot_div_nonneg by (unfold Calendar.msPerDay in *; lia).
    unfold Calendar.msPerDay in *. Z.div_mod_to_equations. lia.
  - apply Z.quot_pos; unfold Calendar.msPerDay in *; lia.
Qed.

(** X1.  When the start token matches none of the four keys (it is missing,
    or is a word the program does not know), [resolveDays] returns exactly
    one key, that of today's date in UTC, whatever the end token is. *)
Theorem resolveDays_default_today (clock : Clock)
  (startArg endArg : option string) :
  RegExp_test dateFormat startArg = false ->
  RegExp_test key_yesterday startArg = false ->
  RegExp_test key_week startArg = false ->
  RegExp_test key_month startArg = false ->
  resolveDays clock startArg endArg = [day_key (utc_today clock)].
Proof.
  intros H1 H2 H3 H4. unfold resolveDays, dateResolvers.
  cbn [resolve_loop]. rewrite H1, H2, H3, H4.
  rewrite KeyFacts.by_days_single.
  unfold utc_today, moment.fieldTime, moment.utc, moment.local.
  cbn [valueOf utcOffset]. now rewrite Z.add_0_r.
Qed.

Lemma resolveDays_default_today_witness :
  resolveDays sample_clock (Some "invalid") (Some "2018-06-01") = ["2018-06-17"]
  /\ resolveDays sample_clock None None = ["2018-06-17"].
Proof.
  split.
  - rewrite (resolveDays_default_today sample_clock (Some "invalid")
               (Some "2018-06-01") eq_refl eq_refl eq_refl eq_refl).
    reflexivity.
  - rewrite (resolveDays_default_today sample_clock None None
               eq_refl eq_refl eq_refl eq_refl).
    reflexivity.
Defined.

(** X2.  The token [yesterday] resolves to exactly one key, that of the
    day before today's date on the host, whatever the end token is. *)
Theorem resolveDays_yesterday (clock : Clock) (endArg : option string) :
  resolveDays clock (Some "yesterday") endArg
  = [day_key (local_day clock - 1)].
Proof.
  unfold resolveDays, dateResolvers.
  cbn [resolve_loop RegExp_test Js.to_string dateFormat_test
       list_ascii_of_string String.eqb Ascii.eqb Bool.eqb andb dateResolver].
  change (dateFormat_test "yesterday") with false. cbv iota.
  rewrite KeyFacts.by_days_single, KeyFacts.Day_add_days. reflexivity.
Qed.

Lemma resolveDays_yesterday_witness :
  resolveDays sample_clock (Some "yesterday") (Some "2018-01-01")
  = ["2018-06-16"].
Proof.
  rewrite (resolveDays_yesterday sample_clock (Some "2018-01-01")).
  reflexivity.
Defined.

(** The walk to now from a moment that reads as the midnight [k] days
    before today. *)
Lemma back_to_midnight clock start k :
  let today := local_day clock in
  0 <= k ->
  moment.fieldTime start = (today - k) * Calendar.msPerDay ->
  map moment.format_YYYY_MM_DD
    (moment.by_days (moment.range (Some start) (Some (moment.local clock))))
  = map day_key (day_numbers (today - k) (S (Z.to_nat k))).
Proof.
  intros today Hk Hstart. rewrite KeyFacts.by_days_keys, Hstart.
  replace (Calendar.Day ((today - k) * Calendar.msPerDay)) with (today - k)
    by (unfold Calendar.Day, Calendar.msPerDay; Z.div_mod_to_equations; lia).
  replace (valueOf start - valueOf (moment.local clock)
           - (utcOffset (moment.local clock) - utcOffset start) * 60000)
    with (- (k * Calendar.msPerDay
             + (now clock + localOffset clock * 60000
                - today * Calendar.msPerDay))).
  - rewrite quot_back_days; [reflexivity | exact Hk | apply offset_within_day].
  - unfold moment.fieldTime in Hstart. unfold moment.local.
    cbn [valueOf utcOffset]. lia.
Qed.

(** X3.  On a host whose clock has the midnight that begins the Monday of
    the current week (no change of the clocks skips it), the token [week]
    resolves to the keys of the consecutive days from that Monday to today,
    both included: between one and seven keys, whatever the end token
    is. *)
Theorem resolveDays_week (clock : Clock) (endArg : option string) :
  let today := local_day clock in
  midnight_exists clock (today - weekday today) ->
  resolveDays clock (Some "week") endArg
  = map day_key (day_numbers (today - weekday today)
                             (S (Z.to_nat (weekday today))))
  /\ weekday (today - weekday today) = 0
  /\ 0 <= weekday today <= 6
  /\ (1 <= List.length (resolveDays clock (Some "week") endArg) <= 7)%nat
  /\ last (resolveDays clock (Some "week") endArg) "" = day_key today.
Proof.
  intros today Hmidnight.
  assert (Hwd : 0 <= weekday today <= 6)
    by (unfold weekday; Z.div_mod_to_equations; lia).
  assert (Hweek : resolveDays clock (Some "week") endArg
    = map day_key (day_numbers (today - weekday today)
                               (S (Z.to_nat (weekday today))))).
  { unfold resolveDays, dateResolvers.
    cbn [resolve_loop RegExp_test Js.to_string dateResolver].
    change (dateFormat_test "week") with false.
    change ("week" =? "yesterday")%string with false.
    change ("week" =? "week")%string with true. cbv iota.
    apply back_to_midnight; [lia | exact Hmidnight]. }
  split; [exact Hweek|]. split; [|split; [exact Hwd|split]].
  - unfold weekday in *. Z.div_mod_to_equations. lia.
  - rewrite Hweek, length_map. unfold day_numbers.
    rewrite length_map, length_seq. lia.
  - rewrite Hweek. unfold day_numbers. rewrite map_map.
    rewrite seq_S, map_app. cbn [map]. rewrite last_last. cbn [Nat.add].
    f_equal. lia.
Qed.

Lemma resolveDays_week_witness :
  midnight_exists sample_clock
    (local_day sample_clock - weekday (local_day sample_clock))
  /\ resolveDays sample_clock (Some "week") None
     = ["2018-06-11"; "2018-06-12"; "2018-06-13"; "2018-06-14"; "2018-06-15";
        "2018-06-16"; "2018-06-17"].
Proof.
  assert (Hmidnight : midnight_exists sample_clock
            (local_day sample_clock - weekday (local_day sample_clock)))
    by reflexivity.
  split; [exact Hmidnight|].
  rewrite (proj1 (resolveDays_week sample_clock None Hmidnight)). reflexivity.
Defined.

(** Where the clocks skip the midnight that begins the week, the walk
    starts an hour into the Monday and comes out a day short: on Tehran
    time at 00:30 of Wednesday 2021-03-24 the keys are those of the Monday
    and the Tuesday only. *)
Example week_begun_by_a_skipped_midnight :
  moment.startOf_week tehran_clock (moment.local tehran_clock)
  = {| valueOf := 1616358600000; utcOffset := 270 |}
  /\ moment.format_HH_mm_ss
       (moment.startOf_week tehran_clock (moment.local tehran_clock))
     = "01:00:00"
  /\ day_key (local_day tehran_clock) = "2021-03-24"
  /\ resolveDays tehran_clock (Some "week") None
     = ["2021-03-22"; "2021-03-23"].
Proof. repeat split; reflexivity. Qed.

(** X4.  On a host whose clock has the midnight that begins the first day
    of the current month (no change of the clocks skips it), the token
    [month] resolves to the keys of the consecutive days from that first
    day to today, both included: as many keys as the day of the month today
    is, whatever the end token is. *)
Theorem resolveDays_month (clock : Clock) (endArg : option string) :
  let today := local_day clock in
  let date := Calendar.DateFromDay today in
  midnight_exists clock (today - (date - 1)) ->
  resolveDays clock (Some "month") endArg
  = map day_key (day_numbers (today - (date - 1)) (Z.to_nat date))
  /\ 1 <= date <= 31
  /\ Calendar.DateFromDay (today - (date - 1)) = 1
  /\ Calendar.MonthFromDay (today - (date - 1)) = Calendar.MonthFromDay today
  /\ Calendar.YearFromDay (today - (date - 1)) = Calendar.YearFromDay today
  /\ last (resolveDays clock (Some "month") endArg) "" = day_key today.
Proof.
  intros today date Hmidnight.
  destruct (CivilFacts.civil_of_day today) as (Hm & Hd & Hn).
  fold date in Hd, Hn.
  assert (Hdate : 1 <= date <= 31).
  { split; [lia|]. unfold Calendar.daysInMonth in Hd.
    destruct (Calendar.MonthFromDay today =? 1);
      [destruct (Calendar.isLeapYear _); lia|].
    Z.div_mod_to_equations. lia. }
  assert (Hfirst : today - (date - 1)
                   = Calendar.MakeDay (Calendar.YearFromDay today)
                       (Calendar.MonthFromDay today) 1).
  { rewrite <- Hn at 1. unfold Calendar.MakeDay. lia. }
  assert (Hmonth : resolveDays clock (Some "month") endArg
    = map day_key (day_numbers (today - (date - 1)) (Z.to_nat date))).
  { unfold resolveDays, dateResolvers.
    cbn [resolve_loop RegExp_test Js.to_string dateResolver].
    change (dateFormat_test "month") with false.
    change ("month" =? "yesterday")%string with false.
    change ("month" =? "week")%string with false.
    change ("month" =? "month")%string with true. cbv iota.
    replace (Z.to_nat date) with (S (Z.to_nat (date - 1))) by lia.
    apply back_to_midnight; [lia | exact Hmidnight]. }
  split; [exact Hmonth|]. split; [exact Hdate|].
  assert (Hone : 1 <= 1 <= Calendar.daysInMonth (Calendar.YearFromDay today)
                                (Calendar.MonthFromDay today)) by lia.
  split; [rewrite Hfirst; now apply CalendarFacts.MakeDay_date|].
  split; [rewrite Hfirst; now apply CalendarFacts.MakeDay_month|].
  split; [rewrite Hfirst; now apply CalendarFacts.MakeDay_year|].
  rewrite Hmonth. unfold day_numbers. rewrite map_map.
  replace (Z.to_nat date) with (S (Z.to_nat (date - 1))) by lia.
  rewrite seq_S, map_app. cbn [map]. rewrite last_last. cbn [Nat.add].
  f_equal. lia.
Qed.

Lemma resolveDays_month_witness :
  midnight_exists sample_clock
    (local_day sample_clock
     - (Calendar.DateFromDay (local_day sample_clock) - 1))
  /\ List.length (resolveDays sample_clock (Some "month") None) = 17%nat
  /\ hd_error (resolveDays sample_clock (Some "month") None) = Some "2018-06-01"
  /\ last (resolveDays sample_clock (Some "month") None) "" = "2018-06-17".
Proof.
  assert (Hmidnight : midnight_exists sample_clock
            (local_day sample_clock
             - (Calendar.DateFromDay (local_day sample_clock) - 1)))
    by reflexivity.
  split; [exact Hmidnight|].
  rewrite (proj1 (resolveDays_month sample_clock None Hmidnight)).
  repeat split; reflexivity.
Defined.

(** Where the clocks skip the midnight that begins the month, the walk
    comes out a day short: on Asuncion time at 00:30 of 2017-10-03 the keys
    are those of the first and the second only. *)
Example month_begun_by_a_skipped_midnight :
  moment.format_HH_mm_ss
    (moment.startOf_month asuncion_clock (moment.local asuncion_clock))
  = "01:00:00"
  /\ day_key (local_day asuncion_clock) = "2017-10-03"
  /\ resolveDays asuncion_clock (Some "month") None
     = ["2017-10-01"; "2017-10-02"].
Proof. repeat split; reflexivity. Qed.

(** X5.  A start token that matches the date pattern but names no day of
    the calendar (month 13, 30 February) resolves to no day at all, and so
    does a valid start with such an end token; [show] then prints the table
    header and nothing else. *)
Theorem resolveDays_no_such_date (fs : FileSystem) (clock : Clock)
  (startArg endArg : string) (verbose : bool) :
  dateFormat_test startArg = true ->
  moment.utc_of_string startArg = None
  \/ (dateFormat_test endArg = true /\ moment.utc_of_string endArg = None) ->
  resolveDays clock (Some startArg) (Some endArg) = []
  /\ show_output fs clock (Some startArg) (Some endArg) verbose = [TableHeader].
Proof.
  intros Hstart Hbad.
  assert (Hnone : resolveDays clock (Some startArg) (Some endArg) = []).
  { unfold resolveDays, dateResolvers.
    cbn [resolve_loop RegExp_test Js.to_string]. rewrite Hstart.
    cbn [dateResolver RegExp_test Js.to_string moment.utc_of_arg].
    destruct Hbad as [Hs | [Ht He]].
    - rewrite Hs. destruct (dateFormat_test endArg); reflexivity.
    - rewrite Ht, He. unfold moment.by_days, moment.range, moment.diff_days,
        moment.diff. cbn [moment.range_start moment.range_end].
      destruct (moment.utc_of_string startArg); reflexivity. }
  split; [exact Hnone|].
  unfold show_output. rewrite show_run, Hnone. reflexivity.
Qed.

Lemma resolveDays_no_such_date_witness :
  resolveDays sample_clock (Some "2018-02-30") (Some "2018-03-02") = []
  /\ resolveDays sample_clock (Some "2018-06-15") (Some "2018-13-01") = []
  /\ show_output sample_fs sample_clock (Some "2018-06-15") (Some "2018-13-01")
       true = [TableHeader].
Proof.
  destruct (resolveDays_no_such_date sample_fs sample_clock "2018-02-30"
              "2018-03-02" true eq_refl (or_introl eq_refl)) as [H1 _].
  destruct (resolveDays_no_such_date sample_fs sample_clock "2018-06-15"
              "2018-13-01" true eq_refl (or_intror (conj eq_refl eq_refl)))
    as [H2 H3].
  split; [exact H1 | split; [exact H2 | exact H3]].
Defined.

(** *** What the loops print *)

Lemma printed_bind {A B} (m : Action A) (k : A -> Action B) :
  appends m -> (forall a, appends (k a)) ->
  printed (bind m k)
  = (printed m ++ match fst (m []) with
                  | Returned a => printed (k a)
                  | _ => []
                  end)%list.
Proof.
  intros Hm Hk. unfold printed at 1, bind.
  destruct (m []) as [[a|err|] out1] eqn:E; unfold printed; rewrite E; cbn [fst snd].
  - rewrite (Hk a out1). reflexivity.
  - now rewrite app_nil_r.
  - now rewrite app_nil_r.
Qed.

Lemma show_entry_prints_rows clock day entry entries :
  Forall (fun line => is_row line = true)
         (printed (show_entry clock day entry entries)).
Proof.
  unfold printed, show_entry. cbv zeta.
  destruct (negb (Js.truthy (Some entry))); [constructor|].
  destruct (strict_eq _ _); [constructor|].
  unfold bind, pad, ret, throw, log.
  destruct (nth_error (Js.split pipe entry) 2); [|constructor].
  destruct (nth_error (Js.split pipe entry) 4); [|constructor].
  cbn [snd app]. repeat constructor.
Qed.

Lemma for_of_prints_rows clock day : forall fuel entries,
  Forall (fun line => is_row line = true)
         (printed (for_of fuel (show_entry clock day) entries)).
Proof.
  induction fuel as [|fuel IH]; intros entries; cbn [for_of].
  - constructor.
  - destruct (next entries) as [[v|] entries']; [|constructor].
    rewrite printed_bind.
    + apply Forall_app. split; [apply show_entry_prints_rows|].
      destruct (fst _); [apply IH | constructor | constructor].
    + apply appends_show_entry.
    + intros _. apply appends_for_of. intros; apply appends_show_entry.
Qed.

Lemma filter_rows_no_header lines :
  Forall (fun line => is_row line = true) lines ->
  filter is_day_header lines = [].
Proof.
  induction 1 as [|line lines Hrow _ IH]; [reflexivity|].
  destruct line; try discriminate Hrow; exact IH.
Qed.

Lemma show_day_one_header fs clock verbose day :
  exists rest,
    printed (show_day fs clock verbose day) = DayHeader day :: rest
    /\ filter is_day_header rest = [].
Proof.
  unfold printed, show_day, try_catch, bind, log, readFile.
  destruct (fs (day ++ ".txt")) as [data|]; cbn -[for_of Js.split EOL_char].
  - unfold Iterator_new.
    set (loop := for_of _ _ _).
    pose proof (for_of_prints_rows clock day
                  (S (List.length (Js.split EOL_char data)))
                  {| elements := Js.split EOL_char data; index := 0 |}) as Hrows.
    fold loop in Hrows.
    assert (Happ : appends loop)
      by (apply appends_for_of; intros; apply appends_show_entry).
    rewrite (Happ [DayHeader day]).
    destruct (fst (loop [])) as [it|err|]; cbn -[for_of Js.split EOL_char].
    + eexists. split; [reflexivity|]. now apply filter_rows_no_header.
    + destruct verbose; cbn -[for_of Js.split EOL_char].
      * eexists. split; [reflexivity|].
        rewrite filter_app, (filter_rows_no_header _ Hrows). reflexivity.
      * eexists. split; [reflexivity|]. now apply filter_rows_no_header.
    + eexists. split; [reflexivity|]. now apply filter_rows_no_header.
  - destruct verbose; eexists; split; reflexivity.
Qed.

(** X6.  Whatever the store holds and whatever the range is, [show] prints
    the table header first and then the header of every resolved day
    exactly once, in the order of the range: a day whose file is missing,
    empty or broken still gets its header, and no day gets two. *)
Theorem show_prints_each_day_header_once (fs : FileSystem) (clock : Clock)
  (startArg endArg : option string) (verbose : bool) :
  hd_error (show_output fs clock startArg endArg verbose) = Some TableHeader
  /\ filter is_day_header (show_output fs clock startArg endArg verbose)
     = map DayHeader (resolveDays clock startArg endArg).
Proof.
  unfold show_output. rewrite show_run. cbn [snd hd_error filter is_day_header].
  split; [reflexivity|].
  induction (resolveDays clock startArg endArg) as [|day days IH];
    [reflexivity|].
  cbn [flat_map map]. rewrite filter_app, IH.
  destruct (show_day_one_header fs clock verbose day) as (rest & -> & Hrest).
  cbn [filter is_day_header]. now rewrite Hrest.
Qed.

Lemma show_prints_each_day_header_once_witness :
  filter is_day_header
    (show_output sample_fs sample_clock (Some "2018-06-15") (Some "2018-06-17")
       true)
  = [DayHeader "2018-06-15"; DayHeader "2018-06-16"; DayHeader "2018-06-17"].
Proof.
  rewrite (proj2 (show_prints_each_day_header_once sample_fs sample_clock
                    (Some "2018-06-15") (Some "2018-06-17") true)).
  reflexivity.
Defined.

(** *** A line that cannot be shown *)

Lemma show_line_incomplete clock day entry nextEntry out :
  complete entry = false ->
  show_line clock day entry nextEntry out = (Thrown TypeError, out).
Proof.
  unfold complete, show_line, show_entry. cbv zeta. intros H.
  apply orb_false_iff in H as [H Hlen]. apply orb_false_iff in H as [Ht Hb].
  rewrite Ht, Hb. apply Nat.leb_gt in Hlen.
  unfold bind, pad, ret, throw, log.
  destruct (Js.split pipe entry) as [|f0 [|f1 [|f2 [|f3 [|f4 fs]]]]];
    cbn [List.length nth_error] in *; try reflexivity; lia.
Qed.

Lemma for_of_incomplete clock day lines : forall pre seen entry post fuel out,
  lines = (seen ++ pre ++ entry :: post)%list ->
  Forall (fun line => complete line = true) pre ->
  complete entry = false ->
  (List.length (pre ++ entry :: post) < fuel)%nat ->
  for_of fuel (show_entry clock day)
    {| elements := lines; index := List.length seen |} out
  = (Thrown TypeError, (out ++ rows_before clock day pre (Some entry))%list).
Proof.
  induction pre as [|line pre IH];
    intros seen entry post fuel out Hlines Hall Hentry Hfuel.
  - destruct fuel as [|fuel]; [simpl in Hfuel; lia|].
    cbn [for_of app] in *.
    destruct (next_in_range {| elements := lines; index := List.length seen |})
      as (v & Hv & Hnext).
    { cbn [elements index]. subst lines. rewrite length_app. simpl. lia. }
    cbn [elements index] in Hv, Hnext. rewrite Hlines in Hv.
    rewrite nth_error_app2 in Hv by lia. rewrite Nat.sub_diag in Hv.
    cbn [nth_error] in Hv. injection Hv as <-.
    rewrite Hnext. unfold bind. rewrite show_entry_show_line.
    rewrite show_line_incomplete by exact Hentry.
    cbn [rows_before]. now rewrite app_nil_r.
  - destruct fuel as [|fuel]; [simpl in Hfuel; lia|].
    cbn [for_of].
    destruct (next_in_range {| elements := lines; index := List.length seen |})
      as (v & Hv & Hnext).
    { cbn [elements index]. subst lines. rewrite !length_app. simpl. lia. }
    cbn [elements index] in Hv, Hnext. rewrite Hlines in Hv.
    rewrite nth_error_app2 in Hv by lia. rewrite Nat.sub_diag in Hv.
    cbn [nth_error app] in Hv. injection Hv as <-.
    rewrite Hnext. inversion Hall as [|? ? Hline Hpre]; subst.
    unfold bind. rewrite show_entry_show_line.
    change (seen ++ (line :: pre) ++ entry :: post)%list
      with (seen ++ line :: (pre ++ entry :: post))%list.
    rewrite peek_after.
    rewrite (appends_show_line clock day line _ out).
    rewrite (show_line_complete _ _ _ _ Hline).
    replace (S (List.length seen)) with (List.length (seen ++ [line])%list)
      by (rewrite length_app; simpl; lia).
    rewrite (IH (seen ++ [line])%list entry post).
    + cbn [rows_before]. rewrite app_assoc.
      destruct pre; reflexivity.
    + now rewrite <- app_assoc.
    + assumption.
    + assumption.
    + simpl in Hfuel. simpl. lia.
Qed.

(** X7.  A line that is neither empty nor a break and has fewer than five
    fields stops the listing of its day: the rows of the lines before it
    are printed, then nothing more of that day (only the error, when
    verbose), because [pad] is handed an undefined project or id and
    throws; the lines after it are never looked at. *)
Theorem incomplete_line_ends_the_day (fs : FileSystem) (clock : Clock)
  (verbose : bool) (day data : string) (pre post : list string)
  (entry : string) :
  fs (day ++ ".txt") = Some data ->
  Js.split EOL_char data = (pre ++ entry :: post)%list ->
  Forall (fun line => complete line = true) pre ->
  complete entry = false ->
  printed (show_day fs clock verbose day)
  = (DayHeader day :: rows_before clock day pre (Some entry)
     ++ (if verbose then [ErrorReport TypeError] else []))%list.
Proof.
  intros Hfile Hlines Hpre Hentry.
  unfold printed, show_day, try_catch, bind, log, readFile.
  rewrite Hfile. cbn -[for_of Js.split EOL_char]. unfold Iterator_new.
  rewrite (for_of_incomplete clock day (Js.split EOL_char data) pre [] entry
             post _ _ Hlines Hpre Hentry)
    by (cbn [elements]; rewrite Hlines; lia).
  destruct verbose; cbn [snd app]; [reflexivity|].
  unfold ret. cbn [snd]. now rewrite app_nil_r.
Qed.

Lemma incomplete_line_ends_the_day_witness :
  printed (show_day
             (fun _ => Some ("task|09:00:00|proj|A|" ++ EOL ++ "task|09:30:00"
                             ++ EOL ++ "task|10:00:00|proj|B|" ++ EOL))
             sample_clock true "2018-06-15")
  = [DayHeader "2018-06-15";
     Row "0.5h   " "proj            " "         " "A";
     ErrorReport TypeError].
Proof.
  assert (Hpre : Forall (fun line => complete line = true)
                   ["task|09:00:00|proj|A|"]) by (repeat constructor).
  rewrite (incomplete_line_ends_the_day
             (fun _ => Some ("task|09:00:00|proj|A|" ++ EOL ++ "task|09:30:00"
                             ++ EOL ++ "task|10:00:00|proj|B|" ++ EOL))
             sample_clock true "2018-06-15" _
             ["task|09:00:00|proj|A|"] ["task|10:00:00|proj|B|"; ""]
             "task|09:30:00" eq_refl eq_refl Hpre eq_refl).
  reflexivity.
Defined.

(** *** A day without tasks *)

Lemma rows_before_skipped clock day lines after :
  Forall (fun line => skipped line = true) lines ->
  rows_before clock day lines after = [].
Proof.
  induction 1 as [|line lines Hline _ IH]; [reflexivity|].
  cbn [rows_before]. rewrite IH, app_nil_r.
  apply printed_skip. unfold skipped in Hline.
  apply orb_true_iff in Hline as [H | H]; [left | right; exact H].
  now destruct (Js.truthy (Some line)).
Qed.

Lemma skipped_complete line : skipped line = true -> complete line = true.
Proof. unfold skipped, complete. intros ->. reflexivity. Qed.

(** X8.  A day file that exists but holds only empty lines and breaks (the
    empty file among them) prints the header of its day and no row, and
    no error. *)
Theorem day_without_tasks_prints_header_only (fs : FileSystem) (clock : Clock)
  (verbose : bool) (day data : string) :
  fs (day ++ ".txt") = Some data ->
  Forall (fun line => skipped line = true) (Js.split EOL_char data) ->
  printed (show_day fs clock verbose day) = [DayHeader day].
Proof.
  intros Hfile Hall.
  rewrite (show_day_complete fs clock verbose day data Hfile).
  - unfold computeRows. now rewrite rows_before_skipped.
  - eapply Forall_impl; [|exact Hall]. intros line. apply skipped_complete.
Qed.

Lemma day_without_tasks_prints_header_only_witness :
  printed (show_day (fun _ => Some "") sample_clock true "2018-06-15")
  = [DayHeader "2018-06-15"]
  /\ printed (show_day (fun _ => Some ("break|12:00:00" ++ EOL ++ EOL))
                sample_clock true "2018-06-15")
     = [DayHeader "2018-06-15"].
Proof.
  assert (H1 : Forall (fun line => skipped line = true) [""])
    by (repeat constructor).
  assert (H2 : Forall (fun line => skipped line = true)
                 ["break|12:00:00"; ""; ""]) by (repeat constructor).
  split.
  - exact (day_without_tasks_prints_header_only (fun _ => Some "") sample_clock
             true "2018-06-15" "" eq_refl H1).
  - exact (day_without_tasks_prints_header_only
             (fun _ => Some ("break|12:00:00" ++ EOL ++ EOL)) sample_clock
             true "2018-06-15" _ eq_refl H2).
Defined.

(** *** Written lines *)

Module LineFacts.
Import Calendar Text TextFacts MomentFacts TimeFacts.

Lemma append_same_suffix a b s : a ++ s = b ++ s -> a = b.
Proof.
  intros H. apply (f_equal list_ascii_of_string) in H.
  rewrite !list_ascii_app in H. apply app_inv_tail in H.
  rewrite <- (string_of_list_ascii_of_string a),
    <- (string_of_list_ascii_of_string b). now f_equal.
Qed.

Lemma digit_char_differs c k :
  is_digit c = false -> 0 <= k <= 9 -> Ascii.eqb (digit_char k) c = false.
Proof.
  intros Hc Hk. destruct (Ascii.eqb_spec (digit_char k) c) as [E|]; [|reflexivity].
  rewrite <- E, (proj1 (char_of_digit k Hk)) in Hc. discriminate.
Qed.

Lemma two_chars_without c n :
  is_digit c = false -> 0 <= n < 100 -> Js.contains c (two_chars n) = false.
Proof.
  intros Hc Hn. unfold two_chars. cbn [Js.contains].
  rewrite !digit_char_differs by (try assumption; Z.div_mod_to_equations; lia).
  reflexivity.
Qed.

Lemma format_time_without c m :
  is_digit c = false -> Ascii.eqb ":" c = false ->
  Js.contains c (moment.format_HH_mm_ss (moment.utc m)) = false.
Proof.
  intros Hc Hcolon.
  destruct (format_time_text m) as (-> & H1 & H2 & H3 & _).
  rewrite !contains_app, !two_chars_without by (try assumption; lia).
  cbn [Js.contains]. rewrite Hcolon. reflexivity.
Qed.

Lemma task_line_text time projectArg taskArg id :
  task_line time projectArg taskArg id
  = "task" ++ "|" ++ moment.format_HH_mm_ss (moment.utc time) ++ "|"
    ++ projectArg ++ "|" ++ taskArg ++ "|" ++ Js.join_element id.
Proof. reflexivity. Qed.

Lemma break_line_text time :
  break_line time = "break" ++ "|" ++ moment.format_HH_mm_ss (moment.utc time).
Proof. reflexivity. Qed.

Lemma split_break_line time :
  Js.split pipe (break_line time)
  = ["break"; moment.format_HH_mm_ss (moment.utc time)].
Proof.
  unfold break_line, Js.array_join. cbn [map Js.join_element].
  apply (split_join pipe); [discriminate|].
  repeat constructor. apply format_time_no_pipe.
Qed.

(** The first two fields of a task line, whatever the later fields hold. *)
Lemma task_line_time_field time projectArg taskArg id :
  nth_error (Js.split pipe (task_line time projectArg taskArg id)) 1
  = Some (moment.format_HH_mm_ss (moment.utc time)).
Proof.
  rewrite task_line_text.
  change ("task" ++ "|" ++ ?x) with ("task" ++ String pipe x).
  rewrite split_field_then_rest by reflexivity.
  change ("|" ++ ?x) with (String pipe x).
  rewrite split_field_then_rest by apply format_time_no_pipe.
  reflexivity.
Qed.

End LineFacts.

(** X9.  A line written by the [break] action has the two fields [break]
    and the time; [show] prints no row for it, never fails on it, and,
    when it follows a task, it ends that task at its own time of day (to
    the second) read on the day of the file. *)
Theorem break_line_is_a_boundary (time : Moment) (clock : Clock)
  (day : string) (d0 : Moment) (nextEntry : option string) :
  dateFormat_test day = true ->
  moment.utc_of_string day = Some d0 ->
  Js.split pipe (break_line time)
  = ["break"; moment.format_HH_mm_ss (moment.utc time)]
  /\ show_line clock day (break_line time) nextEntry [] = (Returned tt, [])
  /\ end_time clock day (Some (break_line time))
     = Some {| valueOf := valueOf d0
                 + 1000 * (Calendar.TimeWithinDay (valueOf time) / 1000);
               utcOffset := 0 |}.
Proof.
  intros Hday Hd0. split; [apply LineFacts.split_break_line|]. split.
  - apply show_line_skip. right. now rewrite LineFacts.split_break_line.
  - rewrite end_time_closed by reflexivity.
    apply TimeFacts.entry_time_written; try assumption.
    now rewrite LineFacts.split_break_line.
Qed.

Lemma break_line_is_a_boundary_witness :
  break_line sample_time = "break|10:01:01"
  /\ show_line sample_clock "2018-06-15" (break_line sample_time) None []
     = (Returned tt, [])
  /\ end_time sample_clock "2018-06-15" (Some (break_line sample_time))
     = Some {| valueOf := 1529056861000; utcOffset := 0 |}.
Proof.
  destruct (break_line_is_a_boundary sample_time sample_clock "2018-06-15"
              {| valueOf := 1529020800000; utcOffset := 0 |} None
              eq_refl eq_refl) as (_ & Hshow & Hend).
  split; [reflexivity | split; [exact Hshow | exact Hend]].
Defined.

(** X10.  The instant [show] reads back from a task line is the instant the
    task was logged at, cut to the second, moved by as many whole days as
    the date in the moment's own zone (which names the file) is ahead of
    the date in UTC (in which the time is written): the two agree exactly
    when both dates are the same day. *)
Theorem task_instant_read_back (time : Moment) (projectArg taskArg : string)
  (id : Js.value) :
  let zone_day := Calendar.Day (moment.fieldTime time) in
  let utc_day_of_time := Calendar.Day (valueOf time) in
  0 <= Calendar.YearFromDay zone_day < 10000 ->
  entry_time (moment.format_YYYY_MM_DD time)
             (task_line time projectArg taskArg id)
  = Some {| valueOf := 1000 * (valueOf time / 1000)
                       + (zone_day - utc_day_of_time) * Calendar.msPerDay;
            utcOffset := 0 |}
  /\ (zone_day = utc_day_of_time <->
      entry_time (moment.format_YYYY_MM_DD time)
                 (task_line time projectArg taskArg id)
      = Some {| valueOf := 1000 * (valueOf time / 1000); utcOffset := 0 |}).
Proof.
  intros zone_day utc_day_of_time Hyear.
  assert (Hread : entry_time (moment.format_YYYY_MM_DD time)
                    (task_line time projectArg taskArg id)
    = Some {| valueOf := 1000 * (valueOf time / 1000)
                         + (zone_day - utc_day_of_time) * Calendar.msPerDay;
              utcOffset := 0 |}).
  { rewrite KeyFacts.format_is_day_key. fold zone_day.
    destruct (KeyFacts.day_key_parses zone_day Hyear) as [Ht Hp].
    rewrite (TimeFacts.entry_time_written _ _ _ time Ht Hp
               (LineFacts.task_line_time_field _ _ _ _)).
    cbn [valueOf]. do 2 f_equal.
    unfold utc_day_of_time, Calendar.TimeWithinDay, Calendar.Day,
      Calendar.msPerDay. Z.div_mod_to_equations. lia. }
  split; [exact Hread|]. rewrite Hread. split.
  - intros ->. now rewrite Z.sub_diag, Z.mul_0_l, Z.add_0_r.
  - intros [= H]. unfold Calendar.msPerDay in H. lia.
Qed.

Lemma task_instant_read_back_witness :
  entry_time (moment.format_YYYY_MM_DD sample_time)
             (task_line sample_time "proj" "label" Js.Undefined)
  = Some {| valueOf := 1529056861000; utcOffset := 0 |}
  /\ entry_time
       (moment.format_YYYY_MM_DD {| valueOf := 1529101800000; utcOffset := 120 |})
       (task_line {| valueOf := 1529101800000; utcOffset := 120 |}
                  "proj" "label" Js.Undefined)
     = Some {| valueOf := 1529101800000 + 86400000; utcOffset := 0 |}.
Proof.
  assert (Hy1 : 0 <= Calendar.YearFromDay
                       (Calendar.Day (moment.fieldTime sample_time)) < 10000)
    by (vm_compute; split; [discriminate | reflexivity]).
  assert (Hy2 : 0 <= Calendar.YearFromDay
                       (Calendar.Day (moment.fieldTime
                          {| valueOf := 1529101800000; utcOffset := 120 |}))
                < 10000)
    by (vm_compute; split; [discriminate | reflexivity]).
  split.
  - exact (proj1 (task_instant_read_back sample_time "proj" "label"
                    Js.Undefined Hy1)).
  - exact (proj1 (task_instant_read_back
                    {| valueOf := 1529101800000; utcOffset := 120 |}
                    "proj" "label" Js.Undefined Hy2)).
Defined.

(** *** From the log to the listing *)

Lemma append_assoc_string (a b c : string) : (a ++ b) ++ c = a ++ (b ++ c).
Proof. induction a as [|x a IH]; cbn [append]; [reflexivity | now rewrite IH]. Qed.

Lemma split_task_line time projectArg taskArg id :
  Js.contains pipe projectArg = false ->
  Js.contains pipe taskArg = false ->
  Js.contains pipe (Js.join_element id) = false ->
  Js.split pipe (task_line time projectArg taskArg id)
  = ["task"; moment.format_HH_mm_ss (moment.utc time); projectArg; taskArg;
     Js.join_element id].
Proof.
  intros Hp Ht Hi. unfold task_line, Js.array_join. cbn [map Js.join_element].
  apply (split_join pipe); [discriminate|].
  repeat constructor; try assumption. apply TimeFacts.format_time_no_pipe.
Qed.

Lemma cmd_id_plain c cmd :
  Text.is_digit c = false -> Ascii.eqb "t" c = false ->
  Ascii.eqb "r" c = false -> Ascii.eqb "u" c = false ->
  Ascii.eqb "e" c = false ->
  Js.contains c (Js.join_element (cmd_id cmd)) = false.
Proof.
  intros _ H1 H2 H3 H4. unfold cmd_id.
  destruct (task_id_given cmd); cbn [Js.join_element Js.contains];
    [now rewrite H1, H2, H3, H4 | reflexivity].
Qed.

Lemma task_line_one_line time projectArg taskArg cmd :
  Js.contains EOL_char projectArg = false ->
  Js.contains EOL_char taskArg = false ->
  Js.contains EOL_char (task_line time projectArg taskArg (cmd_id cmd)) = false.
Proof.
  intros Hp Ht. rewrite LineFacts.task_line_text.
  rewrite !TimeFacts.contains_app, Hp, Ht.
  rewrite LineFacts.format_time_without by reflexivity.
  rewrite cmd_id_plain by reflexivity. reflexivity.
Qed.

Lemma break_line_one_line time :
  Js.contains EOL_char (break_line time) = false.
Proof.
  rewrite LineFacts.break_line_text, !TimeFacts.contains_app.
  rewrite LineFacts.format_time_without by reflexivity. reflexivity.
Qed.

(** X11.  Logging a task and then a break on a day that had no file gives a
    file that [show] lists as one row: the task, with its project, its
    label and its id field, and the rounded time from the task's time of
    day to the break's, both in UTC and cut to the second.  The project and
    the label must hold neither the separator nor a line terminator. *)
Theorem logged_task_is_listed (fs : FileSystem) (clock : Clock)
  (verbose : bool) (t1 t2 : Moment) (projectArg taskArg : string)
  (cmd : TaskCmd) :
  let day := moment.format_YYYY_MM_DD t1 in
  0 <= Calendar.YearFromDay (Calendar.Day (moment.fieldTime t1)) < 10000 ->
  moment.format_YYYY_MM_DD t2 = day ->
  fs (day ++ ".txt") = None ->
  Js.contains pipe projectArg = false ->
  Js.contains pipe taskArg = false ->
  Js.contains EOL_char projectArg = false ->
  Js.contains EOL_char taskArg = false ->
  printed (show_day (break_action t2
                       (task_action t1 projectArg taskArg cmd fs))
                    clock verbose day)
  = [DayHeader day;
     Row (padded (Number_toString
                    (Some (adjusted
                             (1000 * (Calendar.TimeWithinDay (valueOf t2) / 1000)
                              - 1000 * (Calendar.TimeWithinDay (valueOf t1) / 1000))))
                  ++ "h") 7)
         (padded projectArg 16)
         (padded (if task_id_given cmd then "true" else "") 9)
         taskArg].
Proof.
  intros day Hyear Hsame Hnew Hp Ht Hpl Htl.
  set (line1 := task_line t1 projectArg taskArg (cmd_id cmd)).
  set (line2 := break_line t2).
  assert (Hid : Js.join_element (cmd_id cmd)
                = if task_id_given cmd then "true" else "")
    by (unfold cmd_id; destruct (task_id_given cmd); reflexivity).
  assert (Hidp : Js.contains pipe (Js.join_element (cmd_id cmd)) = false)
    by (rewrite Hid; destruct (task_id_given cmd); reflexivity).
  assert (Hfile : break_action t2 (task_action t1 projectArg taskArg cmd fs)
                    (day ++ ".txt")
                  = Some (line1 ++ EOL ++ line2 ++ EOL)).
  { unfold break_action, task_action, writeFile. rewrite Hsame. fold day.
    rewrite String.eqb_refl, Hnew. fold line1 line2.
    now rewrite append_assoc_string. }
  assert (Hlines : Js.split EOL_char (line1 ++ EOL ++ line2 ++ EOL)
                   = [line1; line2; ""]).
  { change (line1 ++ EOL ++ line2 ++ EOL)
      with (line1 ++ String EOL_char (line2 ++ String EOL_char "")).
    rewrite split_field_then_rest
      by (apply task_line_one_line; assumption).
    rewrite split_field_then_rest by apply break_line_one_line.
    reflexivity. }
  assert (Hsplit1 := split_task_line t1 projectArg taskArg (cmd_id cmd)
                       Hp Ht Hidp). fold line1 in Hsplit1.
  assert (Hsplit2 := LineFacts.split_break_line t2). fold line2 in Hsplit2.
  assert (Hskip2 : skipped line2 = true)
    by (unfold skipped; rewrite Hsplit2; apply orb_true_r).
  assert (Hall : Forall (fun line => complete line = true)
                   (Js.split EOL_char (line1 ++ EOL ++ line2 ++ EOL))).
  { rewrite Hlines.
    constructor; [exact (five_fields_complete _ _ _ _ _ _ _ Hsplit1)|].
    constructor; [now apply skipped_complete|].
    constructor; [reflexivity | constructor]. }
  rewrite (show_day_complete _ clock verbose day _ Hfile Hall), Hlines.
  unfold computeRows. cbn [rows_before].
  rewrite (printed_row _ _ _ _ _ _ _ _ _ _ Hsplit1)
    by discriminate.
  assert (Htruthy : Js.truthy (Some line2) = true) by reflexivity.
  rewrite end_time_closed, timestamp_label_closed by exact Htruthy.
  rewrite printed_skip by (right; now rewrite Hsplit2).
  rewrite printed_skip by (left; reflexivity).
  destruct (KeyFacts.day_key_parses _ Hyear) as [Hkey Hparse].
  rewrite <- KeyFacts.format_is_day_key in Hkey, Hparse. fold day in Hkey, Hparse.
  rewrite (TimeFacts.entry_time_written day _ line1 t1 Hkey Hparse)
    by (rewrite Hsplit1; reflexivity).
  rewrite (TimeFacts.entry_time_written day _ line2 t2 Hkey Hparse)
    by (rewrite Hsplit2; reflexivity).
  unfold moment.diff. cbn [valueOf option_map app]. rewrite Hid.
  match goal with
  | |- context [adjusted (?a + ?x - (?a + ?y))] =>
      replace (a + x - (a + y)) with (x - y) by lia
  end.
  reflexivity.
Qed.

Lemma logged_task_is_listed_witness :
  printed (show_day
             (break_action {| valueOf := 1529056861250 + 46 * 60000;
                              utcOffset := 120 |}
                (task_action sample_time "proj" "label"
                   {| task_verbose := false; task_id_given := true |}
                   (fun _ => None)))
             sample_clock false "2018-06-15")
  = [DayHeader "2018-06-15";
     Row "1h     " "proj            " "true     " "label"].
Proof.
  assert (Hy : 0 <= Calendar.YearFromDay
                      (Calendar.Day (moment.fieldTime sample_time)) < 10000)
    by (vm_compute; split; [discriminate | reflexivity]).
  exact (logged_task_is_listed (fun _ => None) sample_clock false sample_time
           {| valueOf := 1529056861250 + 46 * 60000; utcOffset := 120 |}
           "proj" "label" {| task_verbose := false; task_id_given := true |}
           Hy eq_refl eq_refl eq_refl eq_refl eq_refl eq_refl).
Defined.

(** X12.  The [task] and the [break] action write to the file of their own
    day only: what [show] prints for any other day is the same before and
    after. *)
Theorem logging_leaves_other_days (fs : FileSystem) (clock : Clock)
  (verbose : bool) (time : Moment) (projectArg taskArg : string)
  (cmd : TaskCmd) (day : string) :
  day <> moment.format_YYYY_MM_DD time ->
  show_day (task_action time projectArg taskArg cmd fs) clock verbose day
  = show_day fs clock verbose day
  /\ show_day (break_action time fs) clock verbose day
     = show_day fs clock verbose day.
Proof.
  intros Hday.
  assert (Hname : (day ++ ".txt" =? moment.format_YYYY_MM_DD time ++ ".txt")%string
                  = false).
  { apply String.eqb_neq. intros E. apply Hday.
    now apply LineFacts.append_same_suffix with (s := ".txt"). }
  split; unfold show_day, readFile, task_action, break_action, writeFile;
    rewrite Hname; reflexivity.
Qed.

Lemma logging_leaves_other_days_witness :
  show_day (task_action sample_time "proj" "label"
              {| task_verbose := false; task_id_given := false |} sample_fs)
           sample_clock false "2018-06-17"
  = show_day sample_fs sample_clock false "2018-06-17".
Proof.
  assert (Hday : "2018-06-17" <> moment.format_YYYY_MM_DD sample_time)
    by (vm_compute; discriminate).
  exact (proj1 (logging_leaves_other_days sample_fs sample_clock false
                  sample_time "proj" "label"
                  {| task_verbose := false; task_id_given := false |}
                  "2018-06-17" Hday)).
Defined.

(** *** The earliest variant *)

Lemma variant3_diff clock offset day a b :
  (forall m, entry_time day a = Some m -> reads_at clock offset (valueOf m)) ->
  (forall m, entry_time day b = Some m -> reads_at clock offset (valueOf m)) ->
  moment.diff (Variant3.entry_time clock day a) (Variant3.entry_time clock day b)
  = moment.diff (entry_time day a) (entry_time day b).
Proof.
  unfold Variant3.entry_time, Variant3.local_of_string, entry_time, moment.diff,
    reads_at.
  intros Ha Hb.
  destruct (moment.utc_of_string
              (day ++ " " ++ Js.to_string (nth_error (Js.split pipe a) 1)))
    as [ma|];
    destruct (moment.utc_of_string
                (day ++ " " ++ Js.to_string (nth_error (Js.split pipe b) 1)))
    as [mb|]; try reflexivity.
  rewrite (Ha ma eq_refl), (Hb mb eq_refl).
  unfold fixed_offset_time. cbn [valueOf]. f_equal. lia.
Qed.

(** X13.  For a line that is followed by a non-empty line, the earliest
    variant of the loop body and the one of [src/index.js] do the same
    whenever the host reads the times of the two lines at one and the same
    offset, as it does when no change of the clocks lies between them:
    reading both times in the host's zone instead of UTC then moves both by
    the same amount, so the duration and the whole row are unchanged. *)
Theorem variant3_agrees_on_closed_tasks (clock : Clock) (offset : Z)
  (day entry next_line : string) (entries : Iterator) :
  peek entries = Some next_line ->
  next_line <> "" ->
  (forall m, entry_time day entry = Some m ->
             reads_at clock offset (valueOf m)) ->
  (forall m, entry_time day next_line = Some m ->
             reads_at clock offset (valueOf m)) ->
  Variant3.show_entry clock day entry entries
  = show_entry clock day entry entries.
Proof.
  intros Hpeek Hnext Hentry Hstop.
  assert (Htruthy : Js.truthy (peek entries) = true)
    by (rewrite Hpeek; destruct next_line; [contradiction | reflexivity]).
  unfold Variant3.show_entry, show_entry. cbv zeta.
  destruct (negb (Js.truthy (Some entry))); [reflexivity|].
  cbn [orb]. destruct (strict_eq _ _); [reflexivity|].
  rewrite timestamp_label_closed by exact Htruthy.
  unfold Variant3.end_time, end_time. rewrite Hpeek in *. rewrite Htruthy.
  now rewrite (variant3_diff clock offset day next_line entry Hstop Hentry).
Qed.

Lemma variant3_agrees_on_closed_tasks_witness :
  Variant3.show_entry (stockholm_2018 1529236800000) "2018-06-15"
    "task|09:00:00|proj|A|"
    {| elements := ["task|09:00:00|proj|A|"; "break|09:30:00"];
       index := 1 |} []
  = (Returned tt, [Row "0.5h   " "proj            " "         " "A"]).
Proof.
  assert (Hnext : "break|09:30:00" <> "") by discriminate.
  assert (Hentry : forall m,
            entry_time "2018-06-15" "task|09:00:00|proj|A|" = Some m ->
            reads_at (stockholm_2018 1529236800000) 120 (valueOf m)).
  { intros m Hm.
    change (Some {| valueOf := 1529053200000; utcOffset := 0 |} = Some m)
      in Hm.
    injection Hm as <-. reflexivity. }
  assert (Hstop : forall m,
            entry_time "2018-06-15" "break|09:30:00" = Some m ->
            reads_at (stockholm_2018 1529236800000) 120 (valueOf m)).
  { intros m Hm.
    change (Some {| valueOf := 1529055000000; utcOffset := 0 |} = Some m)
      in Hm.
    injection Hm as <-. reflexivity. }
  rewrite (variant3_agrees_on_closed_tasks (stockholm_2018 1529236800000) 120
             "2018-06-15" "task|09:00:00|proj|A|" "break|09:30:00"
             {| elements := ["task|09:00:00|proj|A|"; "break|09:30:00"];
                index := 1 |} eq_refl Hnext Hentry Hstop).
  reflexivity.
Defined.

(** Across a change of the clocks the two variants differ: on Stockholm
    time the clocks go from 02:00 to 03:00 on 2018-03-25, so the earliest
    variant, which reads 01:30 and 03:30 as times of the host, finds one
    hour between them where [src/index.js], which reads them in UTC, finds
    two. *)
Example variants_differ_across_a_clock_change :
  printed (Variant3.show_entry (stockholm_2018 1529236800000) "2018-03-25"
             "task|01:30:00|proj|A|"
             {| elements := ["task|01:30:00|proj|A|"; "task|03:30:00|proj|B|"];
                index := 1 |})
  = [Row "1h     " "proj            " "         " "A"]
  /\ printed (show_entry (stockholm_2018 1529236800000) "2018-03-25"
                "task|01:30:00|proj|A|"
                {| elements := ["task|01:30:00|proj|A|";
                                "task|03:30:00|proj|B|"];
                   index := 1 |})
     = [Row "2h     " "proj            " "         " "A"].
Proof. split; reflexivity. Qed.

(** X14.  In the earliest variant a day whose file cannot be read prints
    nothing, not even its header (the header is logged after the read);
    only the error is printed, when verbose. *)
Theorem variant3_missing_day_prints_nothing (fs : FileSystem) (clock : Clock)
  (verbose : bool) (day : string) (out : list Line) :
  fs (day ++ ".txt") = None ->
  Variant3.show_day fs clock verbose day out
  = (Returned tt,
     if verbose then (out ++ [ErrorReport (ReadError (day ++ ".txt"))])%list
     else out).
Proof.
  intros H. unfold Variant3.show_day, try_catch, bind, readFile.
  rewrite H. destruct verbose; reflexivity.
Qed.

Lemma variant3_missing_day_prints_nothing_witness :
  Variant3.show_day sample_fs sample_clock false "2018-06-16" [] = (Returned tt, [])
  /\ printed (show_day sample_fs sample_clock false "2018-06-16")
     = [DayHeader "2018-06-16"].
Proof.
  split.
  - exact (variant3_missing_day_prints_nothing sample_fs sample_clock false
             "2018-06-16" [] eq_refl).
  - reflexivity.
Defined.

(** *** The iterator in the middle of a list *)

Lemma advance_within elts : forall k i,
  (i + k <= List.length elts)%nat ->
  advance k {| elements := elts; index := i |}
  = {| elements := elts; index := (i + k)%nat |}.
Proof.
  induction k as [|k IH]; intros i H; cbn [advance].
  - now rewrite Nat.add_0_r.
  - destruct (next_in_range {| elements := elts; index := i |})
      as (v & _ & ->); [cbn [elements index]; lia|].
    cbn [snd elements index]. rewrite IH by lia. f_equal. lia.
Qed.

(** X15.  After [k] calls of [next] on a fresh iterator over a list of at
    least [k] elements the cursor stands at [k], [peek] shows element [k],
    and a [for ... of] pass started there yields the elements from [k] on
    and puts the cursor back to 0; one call more than the list is long
    brings a fresh iterator back to where it started. *)
Theorem iterator_resumes_then_rewinds (elts : list string) (k : nat) :
  (k <= List.length elts)%nat ->
  index (advance k (Iterator_new elts)) = k
  /\ peek (advance k (Iterator_new elts)) = nth_error elts k
  /\ drain (S (List.length elts - k)) (advance k (Iterator_new elts)) []
     = Some (skipn k elts, Iterator_new elts)
  /\ advance (S (List.length elts)) (Iterator_new elts) = Iterator_new elts.
Proof.
  intros Hk. unfold Iterator_new.
  rewrite (advance_within elts k 0) by (cbn; lia). cbn [Nat.add index].
  split; [reflexivity|]. split; [reflexivity|]. split.
  - assert (Hfuel : (List.length (skipn k elts) < S (List.length elts - k))%nat)
      by (rewrite length_skipn; lia).
    pose proof (drain_from elts (skipn k elts) (firstn k elts) []
                  (S (List.length elts - k)) (eq_sym (firstn_skipn k elts))
                  Hfuel) as H.
    rewrite length_firstn, Nat.min_l in H by lia. exact H.
  - replace (S (List.length elts)) with (List.length elts + 1)%nat by lia.
    assert (Hsplit : forall a b it, advance (a + b) it = advance b (advance a it)).
    { induction a as [|a IHa]; intros b it; cbn [advance Nat.add];
        [reflexivity | apply IHa]. }
    rewrite Hsplit, (advance_within elts (List.length elts) 0) by (cbn; lia).
    cbn [advance Nat.add]. now rewrite next_exhausted by (cbn; lia).
Qed.

Lemma iterator_resumes_then_rewinds_witness :
  peek (advance 1 (Iterator_new ["a"; "b"; "c"])) = Some "b"
  /\ drain 3 (advance 1 (Iterator_new ["a"; "b"; "c"])) []
     = Some (["b"; "c"], Iterator_new ["a"; "b"; "c"])
  /\ advance 4 (Iterator_new ["a"; "b"; "c"]) = Iterator_new ["a"; "b"; "c"].
Proof.
  assert (Hk : (1 <= List.length ["a"; "b"; "c"])%nat) by (cbn; lia).
  destruct (iterator_resumes_then_rewinds ["a"; "b"; "c"] 1 Hk)
    as (_ & Hpeek & Hdrain & Hcycle).
  split; [exact Hpeek | split; [exact Hdrain | exact Hcycle]].
Defined.

(** *** The keys of an explicit range *)

Lemma day_key_injective a b :
  0 <= Calendar.YearFromDay a < 10000 ->
  0 <= Calendar.YearFromDay b < 10000 ->
  day_key a = day_key b -> a = b.
Proof.
  intros Ha Hb E.
  destruct (KeyFacts.day_key_parses a Ha) as [_ Pa].
  destruct (KeyFacts.day_key_parses b Hb) as [_ Pb].
  rewrite E, Pb in Pa. injection Pa as H. unfold Calendar.msPerDay in H. lia.
Qed.

Lemma date_string_year s m :
  dateFormat_test s = true -> moment.utc_of_string s = Some m ->
  0 <= Calendar.YearFromDay (utc_day m) < 10000.
Proof.
  intros Ht Hp.
  destruct (MomentFacts.utc_of_date_string s m Ht Hp)
    as (y & mo & d & (Hy & Hm & Hd) & _ & ->).
  unfold utc_day. cbn [valueOf].
  rewrite <- (Z.add_0_r (Calendar.MakeDay y mo d * Calendar.msPerDay)).
  rewrite MomentFacts.Day_of_day by (unfold Calendar.msPerDay; lia).
  now rewrite CalendarFacts.MakeDay_year.
Qed.

(** X16.  Every key of an explicit range (the end not before the start) is
    a day key that [show] can read back: it matches the date pattern and
    parses, in UTC, to midnight of a day from the start day to the end day;
    and no key occurs twice. *)
Theorem explicit_range_keys_parse (clock : Clock) (s1 s2 : string)
  (m1 m2 : Moment) :
  dateFormat_test s1 = true ->
  moment.utc_of_string s1 = Some m1 ->
  dateFormat_test s2 = true ->
  moment.utc_of_string s2 = Some m2 ->
  valueOf m1 <= valueOf m2 ->
  Forall (fun key =>
            dateFormat_test key = true
            /\ exists n, utc_day m1 <= n <= utc_day m2
                 /\ key = day_key n
                 /\ moment.utc_of_string key
                    = Some {| valueOf := n * Calendar.msPerDay;
                              utcOffset := 0 |})
         (resolveDays clock (Some s1) (Some s2))
  /\ NoDup (resolveDays clock (Some s1) (Some s2)).
Proof.
  intros Ht1 Hp1 Ht2 Hp2 Hle.
  apply (utc_day_monotone s1 s2 m1 m2 Ht1 Hp1 Ht2 Hp2) in Hle.
  pose proof (date_string_year s1 m1 Ht1 Hp1) as Hy1.
  pose proof (date_string_year s2 m2 Ht2 Hp2) as Hy2.
  rewrite (resolveDays_dates clock s1 s2 m1 m2 Ht1 Hp1 Ht2 Hp2).
  replace (Z.abs (utc_day m1 - utc_day m2)) with (utc_day m2 - utc_day m1)
    by lia.
  assert (Hrange : forall n,
            In n (day_numbers (utc_day m1)
                    (S (Z.to_nat (utc_day m2 - utc_day m1)))) ->
            utc_day m1 <= n <= utc_day m2).
  { intros n Hn. unfold day_numbers in Hn. apply in_map_iff in Hn
      as (i & <- & Hi). apply in_seq in Hi. lia. }
  assert (Hyear : forall n, utc_day m1 <= n <= utc_day m2 ->
                            0 <= Calendar.YearFromDay n < 10000).
  { intros n Hn.
    pose proof (KeyFacts.YearFromDay_monotone (utc_day m1) n (proj1 Hn)).
    pose proof (KeyFacts.YearFromDay_monotone n (utc_day m2) (proj2 Hn)). lia. }
  split.
  - apply Forall_forall. intros key Hkey. apply in_map_iff in Hkey
      as (n & <- & Hn). apply Hrange in Hn.
    destruct (KeyFacts.day_key_parses n (Hyear n Hn)) as [Hk Hp].
    split; [exact Hk|]. exists n. now repeat split.
  - apply NoDup_map_NoDup_ForallPairs.
    + intros a b Ha Hb. apply day_key_injective; apply Hyear, Hrange; assumption.
    + unfold day_numbers. apply NoDup_map_NoDup_ForallPairs; [|apply seq_NoDup].
      intros i j _ _ H. lia.
Qed.

Lemma explicit_range_keys_parse_witness :
  NoDup (resolveDays sample_clock (Some "2018-06-15") (Some "2018-06-17"))
  /\ Forall (fun key => dateFormat_test key = true)
            (resolveDays sample_clock (Some "2018-06-15") (Some "2018-06-17")).
Proof.
  assert (Hle : 1529020800000 <= 1529193600000) by (vm_compute; discriminate).
  destruct (explicit_range_keys_parse sample_clock "2018-06-15" "2018-06-17"
              {| valueOf := 1529020800000; utcOffset := 0 |}
              {| valueOf := 1529193600000; utcOffset := 0 |}
              eq_refl eq_refl eq_refl eq_refl Hle) as [Hall Hnodup].
  split; [exact Hnodup|].
  eapply Forall_impl; [|exact Hall]. intros key [Hk _]. exact Hk.
Defined.

(** *** The least duration *)

(** X17.  The duration shown never gets smaller when the interval gets
    longer, and it is the least one, 0.5, exactly for the intervals shorter
    than 45 minutes, the empty and the inverted ones among them. *)
Theorem shortest_duration_below_45_minutes (ms ms' : Z) :
  (ms <= ms' -> (adjusted ms <= adjusted ms')%Q)
  /\ ((adjusted ms == 1 # 2)%Q <-> ms < 2700000).
Proof.
  split.
  - intros H. rewrite !DurationFacts.adjusted_half_hours.
    unfold Qle, half_hours. cbn [Qnum Qden].
    pose proof (Z.div_le_mono (ms + 900000) (ms' + 900000) 1800000). lia.
  - rewrite DurationFacts.adjusted_half_hours.
    unfold Qeq, half_hours. cbn [Qnum Qden].
    split; intros H.
    + destruct (Z.lt_ge_cases ms 2700000) as [|Hge]; [assumption|].
      assert (2 <= (ms + 900000) / 1800000)
        by (apply Z.div_le_lower_bound; lia). lia.
    + assert ((ms + 900000) / 1800000 < 2)
        by (apply Z.div_lt_upper_bound; lia). lia.
Qed.

Lemma shortest_duration_below_45_minutes_witness :
  (adjusted (-5000) <= adjusted 0)%Q
  /\ (adjusted (44 * 60000) == 1 # 2)%Q.
Proof.
  assert (H1 : -5000 <= 0) by (vm_compute; discriminate).
  assert (H2 : 44 * 60000 < 2700000) by reflexivity.
  split.
  - exact (proj1 (shortest_duration_below_45_minutes (-5000) 0) H1).
  - exact (proj2 (proj2 (shortest_duration_below_45_minutes (44 * 60000) 0)) H2).
Defined.

(** *** The store directory *)

(** X18.  [checkDirectory] resolves exactly when the store directory exists
    or is missing and can be created; when it resolves the directory
    exists afterwards, with the files it had (none, if it was just
    created), and checking again resolves without any change; when it
    rejects nothing has changed.  A failure of [stat] other than a missing
    directory rejects without an attempt to create the directory. *)
Theorem checkDirectory_ensures_directory (d : Disk.State) :
  (fst (Disk.checkDirectory d) = Disk.Resolved tt <->
   (exists files, Disk.directory d = Disk.Present files)
   \/ (Disk.directory d = Disk.Missing /\ Disk.writable d = true))
  /\ (fst (Disk.checkDirectory d) = Disk.Resolved tt ->
      Disk.directory (snd (Disk.checkDirectory d))
      = Disk.Present (Disk.files_of d)
      /\ Disk.checkDirectory (snd (Disk.checkDirectory d))
         = (Disk.Resolved tt, snd (Disk.checkDirectory d)))
  /\ (forall err, fst (Disk.checkDirectory d) = Disk.Rejected err ->
                  snd (Disk.checkDirectory d) = d)
  /\ (Disk.directory d = Disk.Unreadable ->
      Disk.checkDirectory d = (Disk.Rejected Disk.EACCES, d)).
Proof.
  destruct d as [[|files|] [|]];
    unfold Disk.checkDirectory, Disk.mkdir, Disk.files_of;
    cbn [Disk.directory Disk.writable fst snd];
    (split; [split; [intros H; try discriminate H; eauto
                    | intros [[f H] | [H1 H2]]; try discriminate; reflexivity]
            |split; [intros H; try discriminate H; split; reflexivity
                    |split; [intros err H; try discriminate H; reflexivity
                            |intros H; try discriminate H; reflexivity]]]).
Qed.

Lemma checkDirectory_ensures_directory_witness :
  Disk.checkDirectory {| Disk.directory := Disk.Missing; Disk.writable := true |}
  = (Disk.Resolved tt,
     {| Disk.directory := Disk.Present (fun _ => None); Disk.writable := true |})
  /\ Disk.checkDirectory
       {| Disk.directory := Disk.Unreadable; Disk.writable := true |}
     = (Disk.Rejected Disk.EACCES,
        {| Disk.directory := Disk.Unreadable; Disk.writable := true |}).
Proof.
  destruct (checkDirectory_ensures_directory
              {| Disk.directory := Disk.Unreadable; Disk.writable := true |})
    as (_ & _ & _ & H).
  split; [reflexivity | exact (H eq_refl)].
Defined.

(** X19.  [readFile] resolves with a text exactly when the store holds that
    text under the file name, which is when the reading of the day files
    used for [show] returns it; it never changes a file, though it creates
    the store directory when that is missing and the host allows it, and
    then rejects because the file is not there. *)
Theorem disk_readFile_reads_the_store (d : Disk.State) (filename : string) :
  (forall data,
     fst (Disk.readFile d filename) = Disk.Resolved data
     <-> Disk.files_of d filename = Some data)
  /\ (forall data,
        fst (Disk.readFile d filename) = Disk.Resolved data
        <-> fst (readFile (Disk.files_of d) filename []) = Returned data)
  /\ Disk.files_of (snd (Disk.readFile d filename)) = Disk.files_of d
  /\ (Disk.directory d = Disk.Missing -> Disk.writable d = true ->
      Disk.readFile d filename
      = (Disk.Rejected Disk.ENOENT,
         {| Disk.directory := Disk.Present (fun _ => None);
            Disk.writable := true |})).
Proof.
  assert (Habs : forall files data,
            fst (readFile files filename []) = Returned data
            <-> files filename = Some data).
  { intros files data. unfold readFile.
    destruct (files filename) as [x|]; cbn [fst ret throw];
      split; intros H; try discriminate H; congruence. }
  destruct d as [[|files|] [|]];
    unfold Disk.readFile, Disk.checkDirectory, Disk.mkdir, Disk.fs_readFile;
    cbn [Disk.directory Disk.writable fst snd].
  all: unfold Disk.files_of; cbn [Disk.directory].
  all: try destruct (files filename) as [x|] eqn:E.
  all: cbn [fst snd Disk.directory].
  all: repeat split; try rewrite Habs; try rewrite E;
    intros; try discriminate; try congruence.
Qed.

Lemma disk_readFile_reads_the_store_witness :
  Disk.readFile {| Disk.directory := Disk.Missing; Disk.writable := true |}
                "2018-06-15.txt"
  = (Disk.Rejected Disk.ENOENT,
     {| Disk.directory := Disk.Present (fun _ => None); Disk.writable := true |})
  /\ fst (Disk.readFile {| Disk.directory := Disk.Present sample_fs;
                           Disk.writable := false |} "2018-06-17.txt")
     = Disk.Resolved ("task|09:00:00|other|C|true" ++ EOL).
Proof.
  destruct (disk_readFile_reads_the_store
              {| Disk.directory := Disk.Missing; Disk.writable := true |}
              "2018-06-15.txt") as (_ & _ & _ & Hmissing).
  destruct (disk_readFile_reads_the_store
              {| Disk.directory := Disk.Present sample_fs;
                 Disk.writable := false |} "2018-06-17.txt") as (Hread & _).
  split; [exact (Hmissing eq_refl eq_refl)|].
  apply Hread. reflexivity.
Defined.

(** X20.  [writeFile] resolves exactly when the host lets the program
    write and [stat] does not fail otherwise; then the store is the one
    before with the chunk appended to that file (created if it was not
    there) and every other file as it was, and reading the file back
    resolves with the old text followed by the chunk.  When it rejects, no
    file has changed. *)
Theorem disk_writeFile_appends (d : Disk.State) (filename chunk : string) :
  (fst (Disk.writeFile d filename chunk) = Disk.Resolved tt <->
   Disk.writable d = true /\ Disk.directory d <> Disk.Unreadable)
  /\ (fst (Disk.writeFile d filename chunk) = Disk.Resolved tt ->
      Disk.files_of (snd (Disk.writeFile d filename chunk))
      = writeFile (Disk.files_of d) filename chunk
      /\ fst (Disk.readFile (snd (Disk.writeFile d filename chunk)) filename)
         = Disk.Resolved (match Disk.files_of d filename with
                          | Some data => data ++ chunk
                          | None => chunk
                          end)
      /\ (forall other, other <> filename ->
            Disk.files_of (snd (Disk.writeFile d filename chunk)) other
            = Disk.files_of d other))
  /\ (forall err,
        fst (Disk.writeFile d filename chunk) = Disk.Rejected err ->
        Disk.files_of (snd (Disk.writeFile d filename chunk))
        = Disk.files_of d).
Proof.
  assert (Hother : forall files other, other <> filename ->
            writeFile files filename chunk other = files other).
  { intros files other H. unfold writeFile.
    now destruct (String.eqb_spec other filename). }
  assert (Hsame : forall files,
            writeFile files filename chunk filename
            = Some (match files filename with
                    | Some data => data ++ chunk
                    | None => chunk
                    end)).
  { intros files. unfold writeFile. now rewrite String.eqb_refl. }
  destruct d as [[|files|] [|]];
    unfold Disk.writeFile, Disk.readFile, Disk.checkDirectory, Disk.mkdir,
      Disk.appendFile, Disk.fs_readFile, Disk.files_of;
    cbn [Disk.directory Disk.writable fst snd];
    try rewrite Hsame.
  all: repeat split; intros;
    repeat match goal with
           | H : _ /\ _ |- _ => destruct H
           end;
    try discriminate; try reflexivity; try contradiction;
    try (now apply Hother); try congruence.
Qed.

Lemma disk_writeFile_appends_witness :
  fst (Disk.readFile
         (snd (Disk.writeFile
                 {| Disk.directory := Disk.Missing; Disk.writable := true |}
                 "2018-06-15.txt" "break|12:00:00"))
         "2018-06-15.txt")
  = Disk.Resolved "break|12:00:00"
  /\ fst (Disk.writeFile
            {| Disk.directory := Disk.Present sample_fs; Disk.writable := false |}
            "2018-06-15.txt" "break|12:00:00")
     = Disk.Rejected Disk.EACCES.
Proof.
  destruct (disk_writeFile_appends
              {| Disk.directory := Disk.Missing; Disk.writable := true |}
              "2018-06-15.txt" "break|12:00:00") as (_ & Hok & _).
  destruct (Hok eq_refl) as (_ & Hread & _).
  split; [exact Hread | reflexivity].
Defined.

(** *** The older variants *)

Lemma format_time_of_fields m :
  moment.format_HH_mm_ss m
  = moment.format_HH_mm_ss
      (moment.utc {| valueOf := moment.fieldTime m; utcOffset := 0 |}).
Proof.
  unfold moment.format_HH_mm_ss, moment.fieldTime, moment.utc.
  cbn [valueOf utcOffset]. now rewrite !Z.add_0_r.
Qed.

Lemma earliest_task_line_time_field now_ projectArg taskArg idArg :
  nth_error (Js.split pipe (EarliestLog.task_line now_ projectArg taskArg idArg)) 1
  = Some (moment.format_HH_mm_ss now_).
Proof.
  unfold EarliestLog.task_line, Js.array_join.
  cbn [map Js.join_element Js.join].
  change ("task" ++ "|" ++ ?x) with ("task" ++ String pipe x).
  rewrite split_field_then_rest by reflexivity.
  change ("|" ++ ?x) with (String pipe x).
  rewrite split_field_then_rest
    by (rewrite format_time_of_fields; apply TimeFacts.format_time_no_pipe).
  reflexivity.
Qed.

(** X21.  A task line of the earliest variant is read back, by that
    variant's [show] on the same host, as the host's reading of the
    wall-clock time it was logged at, cut to the second: the file is named
    after the host's date and the time is the host's time of day, so no day
    is gained or lost.  Whenever the host reads that wall-clock time at the
    offset now in force (it does unless the clocks have just been set back
    and the hour is being repeated), this is exactly the instant the line
    was logged at, cut to the second.  And an id given on the command line
    is the fifth field as it was typed. *)
Theorem earliest_task_instant_read_back (clock : Clock)
  (projectArg taskArg : string) (idArg : option string) :
  let now_ := moment.local clock in
  let wall := 1000 * (moment.fieldTime now_ / 1000) in
  0 <= Calendar.YearFromDay (local_day clock) < 10000 ->
  Variant3.entry_time clock (moment.format_YYYY_MM_DD now_)
    (EarliestLog.task_line now_ projectArg taskArg idArg)
  = Some (local_time clock wall)
  /\ (reads_at clock (localOffset clock) wall ->
      Variant3.entry_time clock (moment.format_YYYY_MM_DD now_)
        (EarliestLog.task_line now_ projectArg taskArg idArg)
      = Some {| valueOf := 1000 * (now clock / 1000);
                utcOffset := localOffset clock |})
  /\ (forall id,
        idArg = Some id ->
        Js.contains pipe projectArg = false ->
        Js.contains pipe taskArg = false ->
        Js.contains pipe id = false ->
        nth_error (Js.split pipe
                     (EarliestLog.task_line now_ projectArg taskArg idArg)) 4
        = Some id).
Proof.
  intros now_ wall Hyear.
  assert (Hback : Variant3.entry_time clock (moment.format_YYYY_MM_DD now_)
                    (EarliestLog.task_line now_ projectArg taskArg idArg)
                  = Some (local_time clock wall)).
  { unfold Variant3.entry_time, Variant3.local_of_string.
    rewrite earliest_task_line_time_field. cbn [Js.to_string].
    rewrite KeyFacts.format_is_day_key.
    change (Calendar.Day (moment.fieldTime now_)) with (local_day clock).
    destruct (KeyFacts.day_key_parses (local_day clock) Hyear) as [Ht Hp].
    pose proof (TimeFacts.entry_time_written (day_key (local_day clock)) _
                  (EarliestLog.task_line now_ projectArg taskArg idArg)
                  {| valueOf := moment.fieldTime now_; utcOffset := 0 |}
                  Ht Hp) as Hread.
    rewrite earliest_task_line_time_field, <- format_time_of_fields in Hread.
    specialize (Hread eq_refl). unfold entry_time in Hread.
    rewrite earliest_task_line_time_field in Hread. cbn [Js.to_string] in Hread.
    rewrite Hread. cbn [valueOf]. do 2 f_equal.
    unfold wall, moment.fieldTime, now_, moment.local, local_day,
      Calendar.TimeWithinDay, Calendar.Day, Calendar.msPerDay.
    cbn [valueOf utcOffset]. Z.div_mod_to_equations. lia. }
  split; [exact Hback|]. split.
  - intros Hreads. rewrite Hback, Hreads. unfold fixed_offset_time.
    do 2 f_equal.
    unfold wall, moment.fieldTime, now_, moment.local.
    cbn [valueOf utcOffset]. Z.div_mod_to_equations. lia.
  - intros id -> Hp Ht Hi.
    unfold EarliestLog.task_line, Js.array_join. cbn [map Js.join_element].
    rewrite (split_join pipe); [reflexivity | discriminate |].
    repeat constructor; try assumption.
    rewrite format_time_of_fields. apply TimeFacts.format_time_no_pipe.
Qed.

Lemma earliest_task_instant_read_back_witness :
  EarliestLog.task_line (moment.local sample_clock) "proj" "label"
    (Some "4711")
  = "task|14:00:00|proj|label|4711"
  /\ Variant3.entry_time sample_clock "2018-06-17"
       (EarliestLog.task_line (moment.local sample_clock) "proj" "label"
          (Some "4711"))
     = Some {| valueOf := 1529236800000; utcOffset := 120 |}.
Proof.
  assert (Hy : 0 <= Calendar.YearFromDay (local_day sample_clock) < 10000)
    by (vm_compute; split; [discriminate | reflexivity]).
  assert (Hreads : reads_at sample_clock (localOffset sample_clock)
                     (1000 * (moment.fieldTime (moment.local sample_clock)
                              / 1000)))
    by reflexivity.
  split; [reflexivity|].
  exact (proj1 (proj2 (earliest_task_instant_read_back sample_clock "proj"
                         "label" (Some "4711") Hy)) Hreads).
Defined.

(** In the hour the clocks repeat the line is read back an hour early: on
    Stockholm time at 01:30 UTC of 2018-10-28, which is 02:30 for the
    second time, the line says 02:30:00 and is read as the first 02:30,
    which was 00:30 UTC. *)
Example repeated_hour_is_read_back_early :
  EarliestLog.task_line (moment.local (stockholm_2018 1540690200000))
    "proj" "label" None
  = "task|02:30:00|proj|label|"
  /\ Variant3.entry_time (stockholm_2018 1540690200000) "2018-10-28"
       (EarliestLog.task_line (moment.local (stockholm_2018 1540690200000))
          "proj" "label" None)
     = Some {| valueOf := 1540686600000; utcOffset := 120 |}
  /\ now (stockholm_2018 1540690200000) - 1540686600000 = 3600000.
Proof. repeat split; reflexivity. Qed.

(** X22.  In the middle variant a task line of five fields prints one row
    whose first column is eight wide: the rounded duration to the next
    line when a non-empty line follows, and the bare tilde, with no
    duration and whatever the clock shows, when nothing follows. *)
Theorem variant2_open_task_has_no_duration (clock : Clock)
  (day entry : string) (entries : Iterator)
  (kind time project task id : string) (rest : list string) :
  Js.split pipe entry = kind :: time :: project :: task :: id :: rest ->
  kind <> "break" ->
  (Js.truthy (peek entries) = false ->
   Variant2.show_entry clock day entry entries []
   = (Returned tt, [Row "~       " (padded project 16) (padded id 9) task]))
  /\ (forall next_line,
        peek entries = Some next_line ->
        Js.truthy (Some next_line) = true ->
        Variant2.show_entry clock day entry entries []
        = (Returned tt,
           [Row (padded (Number_toString
                           (option_map adjusted
                              (moment.diff (entry_time day next_line)
                                           (entry_time day entry)))
                         ++ "h") 8)
                (padded project 16) (padded id 9) task])).
Proof.
  intros Hfields Hkind.
  assert (Hhead : negb (Js.truthy (Some entry))
                  || strict_eq (nth_error (Js.split pipe entry) 0) "break"
                  = false).
  { rewrite (five_fields_truthy _ _ _ _ _ _ _ Hfields), Hfields.
    cbn [negb orb nth_error strict_eq].
    now destruct (String.eqb_spec kind "break"). }
  split.
  - intros Hopen. unfold Variant2.show_entry. cbv zeta. rewrite Hhead.
    rewrite Hfields. cbn [nth_error].
    destruct (peek entries) as [l|]; [rewrite Hopen|]; reflexivity.
  - intros next_line Hpeek Htruthy. unfold Variant2.show_entry. cbv zeta.
    rewrite Hhead, Hpeek, Htruthy, Hfields. reflexivity.
Qed.

Lemma variant2_open_task_has_no_duration_witness :
  Variant2.show_entry sample_clock "2018-06-15" "task|10:00:00|proj|B|"
    {| elements := ["task|10:00:00|proj|B|"; ""]; index := 1 |} []
  = (Returned tt, [Row "~       " "proj            " "         " "B"]).
Proof.
  assert (Hkind : "task" <> "break") by discriminate.
  exact (proj1 (variant2_open_task_has_no_duration sample_clock "2018-06-15"
                  "task|10:00:00|proj|B|"
                  {| elements := ["task|10:00:00|proj|B|"; ""]; index := 1 |}
                  "task" "10:00:00" "proj" "B" "" [] eq_refl Hkind) eq_refl).
Defined.
